(** * KrakenStreamer: the data-refresh and fan-out pipeline

    A shallow embedding of the server side of the dashboard:

    - [shared/schema.ts]: the canonical records ([TickerData], [OrderBook],
      [RecentTrades], [MarketData]) and the upstream envelope;
    - [server/storage.ts]: [MemStorage], the in-memory snapshot store;
    - [server/services/kraken-api.ts]: [KrakenApiService], the upstream
      client ([makeRequest], [getTickerData], [getOrderBook],
      [getRecentTrades], [getMultipleTickers]);
    - [server/routes.ts]: the request handlers, the WebSocket [subscribe]
      handler and the periodic broadcast.

    JavaScript numbers are IEEE-754 binary64 values, modelled by Rocq's
    primitive floats.  [parseFloat] is a parameter of the development.
    Asynchronous code is written in a state-and-exception monad over a
    [World] that holds the store, the log of upstream requests, the clock
    and the WebSocket traffic; the exchange is an oracle indexed by the
    number of requests issued so far, so its replies may change over time. *)

From Stdlib Require Import PrimFloat ZArith String Ascii List.
From stdpp Require Import gmap strings list.

Local Open Scope string_scope.
Local Open Scope list_scope.

(** ** JavaScript values and string helpers *)

(** What a property read [obj.name] can give on the records below. *)
Inductive JsValue : Type :=
  | JsUndefined
  | JsNumber (x : float)
  | JsString (s : string).

(** [s.replace(/[...]/g, '')] for a character class [cls]. *)
Fixpoint removeChars (cls : ascii -> bool) (s : string) : string :=
  match s with
  | EmptyString => EmptyString
  | String c s' => if cls c then removeChars cls s' else String c (removeChars cls s')
  end.

(** The class [[XZ]]. *)
Definition isXZ (c : ascii) : bool :=
  (Ascii.eqb c "X" || Ascii.eqb c "Z")%char.

(** The class [[XZ/]]. *)
Definition isXZSlash (c : ascii) : bool :=
  (Ascii.eqb c "X" || Ascii.eqb c "Z" || Ascii.eqb c "/")%char.

(** [s.includes(needle)]: [needle] occurs in [s] as a substring. *)
Fixpoint includes (s needle : string) : bool :=
  match s with
  | EmptyString => String.prefix needle s
  | String _ s' => String.prefix needle s || includes s' needle
  end.

(** [s.split('/')[0]]: the part of [s] before its first slash. *)
Fixpoint beforeSlash (s : string) : string :=
  match s with
  | EmptyString => EmptyString
  | String c s' => if Ascii.eqb c "/"%char then EmptyString else String c (beforeSlash s')
  end.

(** [xs.join(',')]. *)
Definition joinComma (xs : list string) : string := String.concat "," xs.

(** [!s] on a string: only the empty string is falsy. *)
Definition isEmpty (s : string) : bool := String.eqb s "".

(** A static [Record<string, V>] literal read at a key. *)
Fixpoint tableGet {V : Type} (tbl : list (string * V)) (k : string) : option V :=
  match tbl with
  | [] => None
  | (k', v) :: rest => if String.eqb k' k then Some v else tableGet rest k
  end.

(** ** shared/schema.ts *)

Module TickerData.
Record t : Type := mk {
  pair : string;
  name : string;
  lastPrice : float;
  change24h : float;
  changePercent24h : float;
  volume24h : float;
  high24h : float;
  low24h : float;
  bid : float;
  ask : float;
  spread : float;
  spreadPercent : float
}.

(** The property read [r[k]] on a ticker record. *)
Definition get (r : t) (k : string) : JsValue :=
  if String.eqb k "pair" then JsString (pair r)
  else if String.eqb k "name" then JsString (name r)
  else if String.eqb k "lastPrice" then JsNumber (lastPrice r)
  else if String.eqb k "change24h" then JsNumber (change24h r)
  else if String.eqb k "changePercent24h" then JsNumber (changePercent24h r)
  else if String.eqb k "volume24h" then JsNumber (volume24h r)
  else if String.eqb k "high24h" then JsNumber (high24h r)
  else if String.eqb k "low24h" then JsNumber (low24h r)
  else if String.eqb k "bid" then JsNumber (bid r)
  else if String.eqb k "ask" then JsNumber (ask r)
  else if String.eqb k "spread" then JsNumber (spread r)
  else if String.eqb k "spreadPercent" then JsNumber (spreadPercent r)
  else JsUndefined.
End TickerData.

Module OrderBookEntry.
Record t : Type := mk { price : float; volume : float; timestamp : float }.
End OrderBookEntry.

Module OrderBook.
Record t : Type := mk {
  pair : string;
  asks : list OrderBookEntry.t;
  bids : list OrderBookEntry.t;
  spread : float;
  spreadPercent : float
}.
End OrderBook.

Inductive Side : Type := buy | sell.

Module Trade.
Record t : Type := mk { price : float; volume : float; time : float; side : Side }.
End Trade.

Module RecentTrades.
Record t : Type := mk { pair : string; trades : list Trade.t }.
End RecentTrades.

(** [marketDataSchema]: the ticker fields up to [ask]; the schema has no
    [spread] and no [spreadPercent]. *)
Module MarketData.
Record t : Type := mk {
  pair : string;
  name : string;
  lastPrice : float;
  change24h : float;
  changePercent24h : float;
  volume24h : float;
  high24h : float;
  low24h : float;
  bid : float;
  ask : float
}.

(** The property read [r[k]] on a market-data record. *)
Definition get (r : t) (k : string) : JsValue :=
  if String.eqb k "pair" then JsString (pair r)
  else if String.eqb k "name" then JsString (name r)
  else if String.eqb k "lastPrice" then JsNumber (lastPrice r)
  else if String.eqb k "change24h" then JsNumber (change24h r)
  else if String.eqb k "changePercent24h" then JsNumber (changePercent24h r)
  else if String.eqb k "volume24h" then JsNumber (volume24h r)
  else if String.eqb k "high24h" then JsNumber (high24h r)
  else if String.eqb k "low24h" then JsNumber (low24h r)
  else if String.eqb k "bid" then JsNumber (bid r)
  else if String.eqb k "ask" then JsNumber (ask r)
  else JsUndefined.
End MarketData.

(** ** server/storage.ts: MemStorage *)

(** A [Date] is its number of milliseconds since the epoch. *)
Definition Date : Type := Z.

Module MemStorage.
Record t : Type := mk {
  tickerData : gmap string TickerData.t;
  orderBooks : gmap string OrderBook.t;
  recentTrades : gmap string RecentTrades.t;
  marketData : list MarketData.t;
  lastUpdated : option Date
}.

(** The constructor. *)
Definition new : t :=
  {| tickerData := ∅; orderBooks := ∅; recentTrades := ∅;
     marketData := []; lastUpdated := None |}.

Definition setTickerData (pair : string) (data : TickerData.t) (s : t) : t :=
  {| tickerData := <[pair := data]> (tickerData s);
     orderBooks := orderBooks s; recentTrades := recentTrades s;
     marketData := marketData s; lastUpdated := lastUpdated s |}.

Definition getTickerData (pair : string) (s : t) : option TickerData.t :=
  tickerData s !! pair.

Definition setOrderBook (pair : string) (data : OrderBook.t) (s : t) : t :=
  {| tickerData := tickerData s;
     orderBooks := <[pair := data]> (orderBooks s);
     recentTrades := recentTrades s;
     marketData := marketData s; lastUpdated := lastUpdated s |}.

Definition getOrderBook (pair : string) (s : t) : option OrderBook.t :=
  orderBooks s !! pair.

Definition setRecentTrades (pair : string) (data : RecentTrades.t) (s : t) : t :=
  {| tickerData := tickerData s; orderBooks := orderBooks s;
     recentTrades := <[pair := data]> (recentTrades s);
     marketData := marketData s; lastUpdated := lastUpdated s |}.

Definition getRecentTrades (pair : string) (s : t) : option RecentTrades.t :=
  recentTrades s !! pair.

Definition setMarketData (data : list MarketData.t) (s : t) : t :=
  {| tickerData := tickerData s; orderBooks := orderBooks s;
     recentTrades := recentTrades s;
     marketData := data; lastUpdated := lastUpdated s |}.

Definition getMarketData (s : t) : list MarketData.t := marketData s.

Definition getLastUpdated (s : t) : option Date := lastUpdated s.

Definition setLastUpdated (date : Date) (s : t) : t :=
  {| tickerData := tickerData s; orderBooks := orderBooks s;
     recentTrades := recentTrades s;
     marketData := marketData s; lastUpdated := Some date |}.
End MemStorage.

(** ** The exchange's replies, as decoded JSON *)

(** One entry of a [Ticker] result.  Each of [a], [b], [c], [v], [h], [l]
    is an array of strings; [o] is a string. *)
Module RawTicker.
Record t : Type := mk {
  a : list string;
  b : list string;
  c : list string;
  v : list string;
  h : list string;
  l : list string;
  o : string
}.
End RawTicker.

(** One level of a [Depth] side: [[price, volume, timestamp]]. *)
Definition RawLevel : Type := (string * string * float)%type.

Module RawDepth.
Record t : Type := mk { asks : list RawLevel; bids : list RawLevel }.
End RawDepth.

(** One trade of a [Trades] result:
    [[price, volume, time, side, ordertype, misc]]. *)
Module RawTrade.
Record t : Type := mk {
  price : string;
  volume : string;
  time : float;
  side : string;
  ordertype : string;
  misc : string
}.
End RawTrade.

(** The value under one key of a [result] object. *)
Inductive Entry : Type :=
  | ETicker (d : RawTicker.t)
  | EDepth (d : RawDepth.t)
  | ETrades (d : list RawTrade.t)
  | EString (s : string).

(** JavaScript truthiness: objects and arrays are truthy, a string is
    truthy unless it is empty. *)
Definition truthy (e : Entry) : bool :=
  match e with
  | EString s => negb (isEmpty s)
  | _ => true
  end.

(** A [result] object: its own keys in the order in which [Object.keys]
    lists them, without repeats.  For an object built by [JSON.parse] that
    is the order of the document, except that integer-like keys come
    first, in ascending order. *)
Definition JsObject : Type := list (string * Entry).

(** [Object.keys(obj)]. *)
Definition keys (obj : JsObject) : list string := map fst obj.

(** [obj[k]] for a key [k] that is not the name of a member of
    [Object.prototype]; [None] is [undefined]. *)
Definition prop (obj : JsObject) (k : string) : option Entry := tableGet obj k.

(** The truthiness of [obj[k]]; [undefined] is falsy. *)
Definition propTruthy (obj : JsObject) (k : string) : bool :=
  match prop obj k with
  | Some e => truthy e
  | None => false
  end.

(** A JSON document as [krakenApiErrorSchema] sees it: either it has the
    shape [{error: string[], result?: any}], or it does not.  A [result] of
    [None] is a missing or [null] result. *)
Inductive Json : Type :=
  | JOther
  | JEnvelope (error : list string) (result : option JsObject).

(** An HTTP response: [ok], [status], and the body ([None] when the body is
    not JSON, so that [response.json()] rejects). *)
Record Response : Type := mkResponse {
  ok : bool;
  status : Z;
  json : option Json
}.

(** The public endpoints, standing for the URLs
    [/public/Ticker?pair=${pair}],
    [/public/Depth?pair=${pair}&count=${count}] and
    [/public/Trades?pair=${pair}&count=${count}]. *)
Inductive Endpoint : Type :=
  | Ticker (pair : string)
  | Depth (pair : string) (count : Z)
  | Trades (pair : string) (count : Z).

(** What the code can throw. *)
Inductive Error : Type :=
  | NetworkError
  | HttpError (status : Z)
  | SyntaxError
  | ZodError
  | KrakenApiError (error : list string)
  | TypeError
  | NoDataFound (pair : string).

(** ** The world of the server process *)

Inductive ReadyState : Type := CONNECTING | OPEN | CLOSING | CLOSED.

Definition isOpen (s : ReadyState) : bool :=
  match s with
  | OPEN => true
  | _ => false
  end.

(** A connection of [wss.clients]. *)
Record WebSocket : Type := mkWebSocket { wsId : nat; readyState : ReadyState }.

Module MessageType.
Inductive t : Type := ticker | orderBook | trades.
End MessageType.

(** The [data] of a message: [any] in the schema. *)
Inductive JsData : Type :=
  | DUndefined
  | DTicker (d : TickerData.t)
  | DOrderBook (d : OrderBook.t)
  | DTrades (d : RecentTrades.t)
  | DMarket (d : MarketData.t).

Module WebSocketMessage.
Record t : Type := mk { type : MessageType.t; pair : string; data : JsData }.
End WebSocketMessage.

(** What a client sends: text that [JSON.parse] refuses, or an object with
    a [type] and, possibly, [pairs]. *)
Inductive ClientMessage : Type :=
  | Malformed
  | Message (type : string) (pairs : option (list string)).

Record World : Type := mkWorld {
  storage : MemStorage.t;
  requests : list Endpoint;
  now : Date;
  clients : list WebSocket;
  sent : list (nat * WebSocketMessage.t)
}.

(** ** A state-and-exception monad for the asynchronous code *)

Inductive Outcome (A : Type) : Type :=
  | Returns (x : A)
  | Throws (e : Error).
Arguments Returns {A} x.
Arguments Throws {A} e.

Definition M (A : Type) : Type := World -> Outcome A * World.

Definition ret {A : Type} (x : A) : M A := fun w => (Returns x, w).

Definition throw {A : Type} (e : Error) : M A := fun w => (Throws e, w).

Definition bind {A B : Type} (m : M A) (k : A -> M B) : M B :=
  fun w =>
    match m w with
    | (Returns x, w') => k x w'
    | (Throws e, w') => (Throws e, w')
    end.

Notation "'let*' x ':=' m 'in' k" := (bind m (fun x => k))
  (at level 10, x name, m at level 100, k at level 200).

(** [try { m } catch (error) { handler error }]: what [m] wrote before it
    threw stays written. *)
Definition tryCatch {A : Type} (m : M A) (handler : Error -> M A) : M A :=
  fun w =>
    match m w with
    | (Returns x, w') => (Returns x, w')
    | (Throws e, w') => handler e w'
    end.

(** A synchronous computation that may throw, run inside [M]. *)
Definition liftOutcome {A : Type} (o : Outcome A) : M A := fun w => (o, w).

(** [for (const x of xs) { body x }]. *)
Fixpoint forEach {A : Type} (xs : list A) (body : A -> M unit) : M unit :=
  match xs with
  | [] => ret tt
  | x :: rest => let* _ := body x in forEach rest body
  end.

(** [xs.map(f)] for a callback that may throw: the first throw ends it. *)
Fixpoint mapOutcome {A B : Type} (f : A -> Outcome B) (xs : list A) : Outcome (list B) :=
  match xs with
  | [] => Returns []
  | x :: rest =>
      match f x with
      | Throws e => Throws e
      | Returns y =>
          match mapOutcome f rest with
          | Throws e => Throws e
          | Returns ys => Returns (y :: ys)
          end
      end
  end.

(** A promise that has settled.  Like every object, a promise is truthy,
    whatever it settles to. *)
Inductive Promise (A : Type) : Type :=
  | Settled (o : Outcome A).
Arguments Settled {A} o.

Definition truthyPromise {A : Type} (p : Promise A) : bool := true.

(** Calling an [async] function gives a promise and never throws. *)
Definition async {A : Type} (m : M A) : M (Promise A) :=
  fun w => let '(o, w') := m w in (Returns (Settled o), w').

Definition await {A : Type} (p : Promise A) : M A :=
  fun w => match p with Settled o => (o, w) end.

(** [l || r] on promises: [r] is evaluated only when [l] is falsy. *)
Definition orElse {A : Type} (l : Promise A) (r : M (Promise A)) : M (Promise A) :=
  if truthyPromise l then ret l else r.

(** Reads and writes of the [storage] singleton. *)
Definition storageGet {A : Type} (f : MemStorage.t -> A) : M A :=
  fun w => (Returns (f (storage w)), w).

Definition storageSet (f : MemStorage.t -> MemStorage.t) : M unit :=
  fun w => (Returns tt,
            {| storage := f (storage w); requests := requests w; now := now w;
               clients := clients w; sent := sent w |}).

(** [new Date()]. *)
Definition newDate : M Date := fun w => (Returns (now w), w).

(** [ws.send(JSON.stringify(msg))]. *)
Definition send (id : nat) (msg : WebSocketMessage.t) : M unit :=
  fun w => (Returns tt,
            {| storage := storage w; requests := requests w; now := now w;
               clients := clients w; sent := sent w ++ [(id, msg)] |}).

(** [wss.clients]. *)
Definition getClients : M (list WebSocket) := fun w => (Returns (clients w), w).

(** [ws.readyState] of the connection [id]; a connection that has left
    [wss.clients] is closed. *)
Definition readyStateOf (id : nat) : M ReadyState :=
  fun w =>
    (Returns match List.find (fun c => Nat.eqb (wsId c) id) (clients w) with
             | Some c => readyState c
             | None => CLOSED
             end, w).

(** ** Static tables of routes.ts and kraken-api.ts *)

Definition POPULAR_PAIRS : list string :=
  ["XBTUSD"; "ETHUSD"; "ADAUSD"; "DOTUSD"; "SOLUSD"; "MATICUSD"; "LINKUSD"; "UNIUSD"].

Definition krakenPairMap : list (string * list string) :=
  [("XBTUSD", ["XXBTZUSD"; "XBTUSD"]);
   ("ETHUSD", ["XETHZUSD"; "ETHUSD"]);
   ("ADAUSD", ["ADAUSD"]);
   ("DOTUSD", ["DOTUSD"]);
   ("SOLUSD", ["SOLUSD"]);
   ("MATICUSD", ["MATICUSD"]);
   ("LINKUSD", ["LINKUSD"]);
   ("UNIUSD", ["UNIUSD"])].

Definition names : list (string * string) :=
  [("XBTUSD", "Bitcoin"); ("ETHUSD", "Ethereum"); ("ADAUSD", "Cardano");
   ("DOTUSD", "Polkadot"); ("SOLUSD", "Solana"); ("MATICUSD", "Polygon");
   ("LINKUSD", "Chainlink"); ("UNIUSD", "Uniswap");
   ("BTC/USD", "Bitcoin"); ("ETH/USD", "Ethereum"); ("ADA/USD", "Cardano");
   ("DOT/USD", "Polkadot"); ("SOL/USD", "Solana"); ("MATIC/USD", "Polygon");
   ("LINK/USD", "Chainlink"); ("UNI/USD", "Uniswap")].

(** [names[pair] || pair.split('/')[0]]. *)
Definition getPairDisplayName (pair : string) : string :=
  match tableGet names pair with
  | Some n => n
  | None => beforeSlash pair
  end.

(** [krakenPairMap[pair] || [pair]], for a pair that is not the name of a
    member of [Object.prototype]. *)
Definition possibleKeys (pair : string) : list string :=
  match tableGet krakenPairMap pair with
  | Some ks => ks
  | None => [pair]
  end.

(** The loop over [possibleKeys]: the first key whose entry is truthy, and
    the initial [''] when there is none. *)
Fixpoint firstPresent (result : JsObject) (ks : list string) : string :=
  match ks with
  | [] => ""
  | key :: rest => if propTruthy result key then key else firstPresent result rest
  end.

(** The predicate of the fuzzy fallback. *)
Definition fuzzyMatch (pair key : string) : bool :=
  let normalizedKey := removeChars isXZ key in
  let normalizedPair := removeChars isXZSlash pair in
  includes normalizedKey normalizedPair || includes key pair.

(** [Object.keys(result).find(...) || '']. *)
Definition fuzzyFind (result : JsObject) (pair : string) : string :=
  match List.find (fuzzyMatch pair) (keys result) with
  | Some key => key
  | None => ""
  end.

(** The key that [getMultipleTickers] settles on for [pair]: the loop's
    key, and the fuzzy fallback only when the loop left [pairKey] empty. *)
Definition resolvePairKey (result : JsObject) (pair : string) : string :=
  let pairKey := firstPresent result (possibleKeys pair) in
  if isEmpty pairKey then fuzzyFind result pair else pairKey.

(** ** Sample inputs

    [parseFloat] restricted to strings of decimal digits, on which it is
    exact below 2^53; the samples below use no other string. *)
Definition digitValue (ch : ascii) : option float :=
  let n := nat_of_ascii ch in
  if (48 <=? n)%nat && (n <=? 57)%nat
  then Some (nth (n - 48) [0; 1; 2; 3; 4; 5; 6; 7; 8; 9]%float nan)
  else None.

Fixpoint digitsValue (acc : float) (s : string) : float :=
  match s with
  | EmptyString => acc
  | String ch s' =>
      match digitValue ch with
      | Some d => digitsValue (acc * 10 + d)%float s'
      | None => nan
      end
  end.

Definition parseFloatDigits (s : string) : float :=
  match s with
  | EmptyString => nan
  | _ => digitsValue 0%float s
  end.

(** A ticker entry with best bid [bid], best ask [ask], last trade [last]
    and opening price [open]. *)
Definition sampleTicker (bid ask last open : string) : Entry :=
  ETicker {| RawTicker.a := [ask; "1"; "1"]; RawTicker.b := [bid; "1"; "1"];
             RawTicker.c := [last; "1"]; RawTicker.v := ["10"; "20"];
             RawTicker.h := ["110"; "120"]; RawTicker.l := ["80"; "90"];
             RawTicker.o := open |}.

(** A bulk [Ticker] result for the eight popular pairs, keyed as Kraken
    keys them. *)
Definition sampleTickers : JsObject :=
  [("XXBTZUSD", sampleTicker "100" "101" "100" "50");
   ("XETHZUSD", sampleTicker "100" "101" "100" "50");
   ("ADAUSD", sampleTicker "100" "101" "100" "50");
   ("DOTUSD", sampleTicker "100" "101" "100" "50");
   ("SOLUSD", sampleTicker "100" "101" "100" "50");
   ("MATICUSD", sampleTicker "100" "101" "100" "50");
   ("LINKUSD", sampleTicker "100" "101" "100" "50");
   ("UNIUSD", sampleTicker "100" "101" "100" "50")].

Definition okResponse (result : JsObject) : option Response :=
  Some {| ok := true; status := 200; json := Some (JEnvelope [] (Some result)) |}.

(** The envelope [{error: ["Invalid arguments"], result: null}]. *)
Definition invalidArguments : option Response :=
  Some {| ok := true; status := 200;
          json := Some (JEnvelope ["Invalid arguments"] None) |}.

(** An exchange that answers every [Ticker] request with [sampleTickers]
    and refuses every other request. *)
Definition tickersOnly (n : nat) (ep : Endpoint) : option Response :=
  match ep with
  | Ticker _ => okResponse sampleTickers
  | _ => invalidArguments
  end.

(** An exchange that refuses every request. *)
Definition alwaysInvalid (n : nat) (ep : Endpoint) : option Response := invalidArguments.

(** An order book whose asks are empty and whose best bid is 100. *)
Definition bidsOnly (n : nat) (ep : Endpoint) : option Response :=
  okResponse [("XXBTZUSD",
               EDepth {| RawDepth.asks := [];
                         RawDepth.bids := [("100", "2", 1700000000%float)] |})].

(** An order book whose bids are empty and whose best ask is 101. *)
Definition asksOnly (n : nat) (ep : Endpoint) : option Response :=
  okResponse [("XXBTZUSD",
               EDepth {| RawDepth.asks := [("101", "2", 1700000000%float)];
                         RawDepth.bids := [] |})].

(** Every request takes 250 ms. *)
Definition steady (n : nat) : Z := 250.

(** A fresh process at time [t], with the connections [cs]. *)
Definition freshWorld (t : Date) (cs : list WebSocket) : World :=
  {| storage := MemStorage.new; requests := []; now := t; clients := cs; sent := [] |}.

(** A bulk result that has both spellings of the Bitcoin pair as keys. *)
Definition bothSpellings : JsObject :=
  [("XXBTZUSD", sampleTicker "100" "101" "100" "50");
   ("XBTUSD", sampleTicker "200" "201" "200" "50")].

Definition sampleDepth : Entry :=
  EDepth {| RawDepth.asks := [("101", "2", 1700000000%float)];
            RawDepth.bids := [("100", "3", 1700000000%float)] |}.

Definition sampleTrades : Entry :=
  ETrades [{| RawTrade.price := "100"; RawTrade.volume := "1";
              RawTrade.time := 1700000000%float; RawTrade.side := "b";
              RawTrade.ordertype := "l"; RawTrade.misc := "" |}].

(** An exchange that answers every request, except that the depth request
    for ETHUSD is refused and the trades request for ETHUSD is rejected. *)
Definition ethFails (n : nat) (ep : Endpoint) : option Response :=
  match ep with
  | Ticker _ => okResponse sampleTickers
  | Depth symbol _ =>
      if String.eqb symbol "ETHUSD" then invalidArguments
      else okResponse [(symbol, sampleDepth)]
  | Trades symbol _ =>
      if String.eqb symbol "ETHUSD" then None
      else okResponse [(symbol, sampleTrades); ("last", EString "1700000000")]
  end.

(** A fresh process with one open connection, with one connection that is
    closing, and with none. *)
Definition oneOpen : World := freshWorld 1000%Z [mkWebSocket 7 OPEN].

Definition oneClosing : World := freshWorld 1000%Z [mkWebSocket 7 CLOSING].

Definition idle : World := freshWorld 1000%Z [].

(** A process whose store already holds an order book for XBTUSD. *)
Definition staleBook : OrderBook.t :=
  {| OrderBook.pair := "XBTUSD"; OrderBook.asks := []; OrderBook.bids := [];
     OrderBook.spread := 0%float; OrderBook.spreadPercent := 0%float |}.

Definition staleWorld : World :=
  {| storage := MemStorage.setOrderBook "XBTUSD" staleBook MemStorage.new;
     requests := []; now := 1000%Z; clients := []; sent := [] |}.

(** The subscription to XBTUSD alone. *)
Definition subscribeXBT : ClientMessage := Message "subscribe" (Some ["XBTUSD"]).

Definition undefinedMessage (type : MessageType.t) : nat * WebSocketMessage.t :=
  (7, {| WebSocketMessage.type := type; WebSocketMessage.pair := "XBTUSD";
         WebSocketMessage.data := DUndefined |}).

(** What a request handler answers: [res.json(x)] has status 200,
    [res.status(500).json({error, message})] carries the error text and,
    for [message], the error it is rendered from. *)
Inductive ReplyBody : Type :=
  | BTicker (d : TickerData.t)
  | BOrderBook (d : OrderBook.t)
  | BTrades (d : RecentTrades.t)
  | BMarketData (d : list MarketData.t)
  | BRefreshed
  | BFailure (error : string) (cause : Error).

Record HttpReply : Type := mkReply { statusCode : Z; body : ReplyBody }.

Definition resJson (b : ReplyBody) : HttpReply := {| statusCode := 200; body := b |}.

Definition resFail (error : string) (cause : Error) : HttpReply :=
  {| statusCode := 500; body := BFailure error cause |}.

(** ** Further code of the server and of the client *)

(** The names of the members that every object inherits from
    [Object.prototype].  Read on a table or on a parsed result, such a
    name gives the inherited member, which is truthy, where any other
    absent name gives [undefined]: [tableGet] and [prop] describe the
    reads of the other names. *)
Definition inheritedNames : list string :=
  ["constructor"; "hasOwnProperty"; "isPrototypeOf"; "propertyIsEnumerable";
   "toLocaleString"; "toString"; "valueOf"; "__proto__";
   "__defineGetter__"; "__defineSetter__"; "__lookupGetter__"; "__lookupSetter__"].

Definition inherited (k : string) : bool := existsb (String.eqb k) inheritedNames.

(** [getAllTickerData]: the stored ticker records, one per pair that has
    one.  The source lists them in the order in which their pairs were
    first written; here they come in the order in which the map
    enumerates its keys, so only what does not depend on the order is
    stated about this list. *)
Definition getAllTickerData (s : MemStorage.t) : list TickerData.t :=
  (map_to_list (MemStorage.tickerData s)).*2.

(** ** The rate limiter of the upstream client *)

(** An environment variable is a string or [undefined]; the empty string
    is falsy like [undefined]. *)
Definition configured (variable : option string) : bool :=
  match variable with
  | Some s => negb (isEmpty s)
  | None => false
  end.

(** [this.apiKey ? 500 : 1000]. *)
Definition rateLimitMs (apiKey : option string) : Z :=
  if configured apiKey then 500 else 1000.

(** The wait that [rateLimitedFetch] computes at time [now] when the last
    request was issued at [lastRequestTime]; [None] when it does not
    wait.  Times are whole milliseconds. *)
Definition delayMs (limit lastRequestTime now : Z) : option Z :=
  let timeSinceLastRequest := (now - lastRequestTime)%Z in
  if (timeSinceLastRequest <? limit)%Z
  then Some (limit - timeSinceLastRequest)%Z
  else None.

(** ** Display names and styles of pairs *)

(** [s.replace('X', '')]: a string pattern replaces its first occurrence
    only. *)
Fixpoint removeFirstX (s : string) : string :=
  match s with
  | EmptyString => EmptyString
  | String ch s' => if Ascii.eqb ch "X"%char then s' else String ch (removeFirstX s')
  end.

(** [pair.split('/')[0].replace('X', '')]. *)
Definition styleSymbol (pair : string) : string := removeFirstX (beforeSlash pair).

(** [table[symbol] || dflt], for a table of non-empty strings and a
    symbol that is no inherited name. *)
Definition lookupOr (table : list (string * string)) (symbol dflt : string) : string :=
  match tableGet table symbol with
  | Some value => value
  | None => dflt
  end.

(** [getPairIcon] and [getPairColor] of [KrakenApiService]. *)
Module KrakenApiService.
Definition icons : list (string * string) :=
  [("BTC", "fab fa-bitcoin"); ("ETH", "fab fa-ethereum"); ("XBT", "fab fa-bitcoin")].

Definition getPairIcon (pair : string) : string :=
  lookupOr icons (styleSymbol pair) "fas fa-coins".

Definition colors : list (string * string) :=
  [("BTC", "bg-orange-500"); ("ETH", "bg-blue-500"); ("ADA", "bg-green-500");
   ("DOT", "bg-purple-500"); ("SOL", "bg-pink-500"); ("MATIC", "bg-indigo-500");
   ("LINK", "bg-blue-600"); ("UNI", "bg-pink-400"); ("XBT", "bg-orange-500")].

Definition getPairColor (pair : string) : string :=
  lookupOr colors (styleSymbol pair) "bg-gray-500".
End KrakenApiService.

(** [getPairColor] of the price overview, which colours the cards of the
    market data. *)
Module PriceOverview.
Definition colors : list (string * string) :=
  [("BTC", "bg-orange-500"); ("ETH", "bg-blue-500"); ("ADA", "bg-green-500");
   ("DOT", "bg-purple-500")].

Definition getPairColor (pair : string) : string :=
  lookupOr colors (styleSymbol pair) "bg-gray-500".
End PriceOverview.

(** ** The client's market-data cache (use-kraken-data.ts)

    The handler of a [ticker] message updates the cached market data
    through the function below.  A message is what [JSON.parse] gives:
    its [pair] and the fields of its [data] are JSON values, and [data] is
    [undefined] when the server sent none. *)

Inductive WireValue : Type :=
  | WNull
  | WNumber (x : float)
  | WString (s : string).

(** A parsed JSON object with such fields. *)
Abbreviation WireObject := (gmap string WireValue).

(** [a === b]; [None] is [undefined]. *)
Definition strictEq (a b : option WireValue) : bool :=
  match a, b with
  | None, None => true
  | Some WNull, Some WNull => true
  | Some (WNumber x), Some (WNumber y) => PrimFloat.eqb x y
  | Some (WString s), Some (WString t) => String.eqb s t
  | _, _ => false
  end.

(** [{ ...item, ...data }]: spreading [undefined] adds nothing. *)
Definition spread (item : WireObject) (data : option WireObject) : WireObject :=
  match data with
  | Some d => d ∪ item
  | None => item
  end.

(** [item.pair === pair]; reading [pair] on [undefined] throws. *)
Definition hasPair (pair : option WireValue) (item : option WireObject) : Outcome bool :=
  match item with
  | Some o => Returns (strictEq (o !! "pair") pair)
  | None => Throws TypeError
  end.

(** The callback of [oldData.map]. *)
Definition mergeItem (pair : option WireValue) (data : option WireObject)
    (item : option WireObject) : Outcome (option WireObject) :=
  match item with
  | Some o => Returns (Some (if strictEq (o !! "pair") pair then spread o data else o))
  | None => Throws TypeError
  end.

(** [xs.some(f)] for a callback that may throw. *)
Fixpoint someOutcome {A : Type} (f : A -> Outcome bool) (xs : list A) : Outcome bool :=
  match xs with
  | [] => Returns false
  | x :: rest =>
      match f x with
      | Throws e => Throws e
      | Returns true => Returns true
      | Returns false => someOutcome f rest
      end
  end.

(** The updater passed to [setQueryData(['/api/market-data'], ...)] for a
    message with the given [pair] and [data]; [oldData] is [None] when the
    cache is [undefined]. *)
Definition updateMarketData (pair : option WireValue) (data : option WireObject)
    (oldData : option (list (option WireObject))) : Outcome (list (option WireObject)) :=
  match oldData with
  | None => Returns [data]
  | Some oldData =>
      match mapOutcome (mergeItem pair data) oldData with
      | Throws e => Throws e
      | Returns updated =>
          match someOutcome (hasPair pair) updated with
          | Throws e => Throws e
          | Returns true => Returns updated
          | Returns false => Returns (updated ++ [data])
          end
      end
  end.

(** The pair of a cached item is the string [p]. *)
Definition isFor (p : string) (item : option WireObject) : Prop :=
  exists o, item = Some o /\ o !! "pair" = Some (WString p).

(** A list of cached items, each an object with a string [pair]. *)
Definition pairsOf (items : list (option WireObject)) (ps : list string) : Prop :=
  Forall2 (fun item p => isFor p item) items ps.

(** ** From the server's broadcast to the client's cache *)

(** A number as [JSON.stringify] and [JSON.parse] carry it: [NaN] and the
    infinities become [null], and the sign of zero is lost. *)
Definition wireNumber (x : float) : WireValue :=
  if is_nan x || is_infinity x then WNull
  else if is_zero x then WNumber 0%float
  else WNumber x.

(** The [data] that the client parses from a broadcast ticker message. *)
Definition wireMarketData (m : MarketData.t) : WireObject :=
  list_to_map
    [("pair", WString (MarketData.pair m));
     ("name", WString (MarketData.name m));
     ("lastPrice", wireNumber (MarketData.lastPrice m));
     ("change24h", wireNumber (MarketData.change24h m));
     ("changePercent24h", wireNumber (MarketData.changePercent24h m));
     ("volume24h", wireNumber (MarketData.volume24h m));
     ("high24h", wireNumber (MarketData.high24h m));
     ("low24h", wireNumber (MarketData.low24h m));
     ("bid", wireNumber (MarketData.bid m));
     ("ask", wireNumber (MarketData.ask m))].

(** The pair and the data of the message [tickerMessage m], as parsed. *)
Definition received (m : MarketData.t) : option WireValue * option WireObject :=
  (Some (WString (MarketData.pair m)), Some (wireMarketData m)).

(** The cache after the updates of the messages, one after the other: an
    update that throws is caught by the handler and leaves the cache as it
    was. *)
Fixpoint updateAll (messages : list (option WireValue * option WireObject))
    (cache : option (list (option WireObject))) : option (list (option WireObject)) :=
  match messages with
  | [] => cache
  | (symbol, data) :: rest =>
      match updateMarketData symbol data cache with
      | Returns updated => updateAll rest (Some updated)
      | Throws _ => updateAll rest cache
      end
  end.

(** ** Further sample inputs *)

(** An exchange that answers every request with a warning in its error
    list next to a full result. *)
Definition warnsWithResult (n : nat) (ep : Endpoint) : option Response :=
  Some {| ok := true; status := 200;
          json := Some (JEnvelope ["EGeneral:Temporary lockout"] (Some sampleTickers)) |}.

(** An exchange that answers every request with a success envelope whose
    result has no key. *)
Definition emptyResult (n : nat) (ep : Endpoint) : option Response := okResponse [].

(** An exchange whose result files a string under its first key and the
    ticker of ADAUSD after it. *)
Definition lastFirst (n : nat) (ep : Endpoint) : option Response :=
  okResponse [("last", EString ""); ("ADAUSD", sampleTicker "100" "101" "100" "50")].

(** An exchange that answers every request with status 502 and a body
    that is not JSON. *)
Definition badGateway (n : nat) (ep : Endpoint) : option Response :=
  Some {| ok := false; status := 502; json := None |}.

(** A bulk result in which SOLUSD is missing. *)
Definition withoutSol : JsObject :=
  [("XXBTZUSD", sampleTicker "100" "101" "100" "50");
   ("XETHZUSD", sampleTicker "100" "101" "100" "50");
   ("ADAUSD", sampleTicker "100" "101" "100" "50");
   ("DOTUSD", sampleTicker "100" "101" "100" "50");
   ("MATICUSD", sampleTicker "100" "101" "100" "50");
   ("LINKUSD", sampleTicker "100" "101" "100" "50");
   ("UNIUSD", sampleTicker "100" "101" "100" "50")].

Definition solMissing (n : nat) (ep : Endpoint) : option Response := okResponse withoutSol.

(** The record that the bulk getter decodes from a sample ticker. *)
Definition sampleRecord (symbol name : string) : MarketData.t :=
  {| MarketData.pair := symbol; MarketData.name := name;
     MarketData.lastPrice := 100%float; MarketData.change24h := 50%float;
     MarketData.changePercent24h := 100%float; MarketData.volume24h := 20%float;
     MarketData.high24h := 120%float; MarketData.low24h := 90%float;
     MarketData.bid := 100%float; MarketData.ask := 101%float |}.

(** The market data that the bulk getter decodes from the sample result. *)
Definition sampleMarketData : list MarketData.t :=
  [sampleRecord "XBTUSD" "Bitcoin"; sampleRecord "ETHUSD" "Ethereum";
   sampleRecord "ADAUSD" "Cardano"; sampleRecord "DOTUSD" "Polkadot";
   sampleRecord "SOLUSD" "Solana"; sampleRecord "MATICUSD" "Polygon";
   sampleRecord "LINKUSD" "Chainlink"; sampleRecord "UNIUSD" "Uniswap"].

(** A client cache that holds the sample market data. *)
Definition sampleCache : list (option WireObject) :=
  map (fun m => Some (wireMarketData m)) sampleMarketData.

(** A later record for ETHUSD. *)
Definition laterEthereum : MarketData.t :=
  {| MarketData.pair := "ETHUSD"; MarketData.name := "Ethereum";
     MarketData.lastPrice := 120%float; MarketData.change24h := 70%float;
     MarketData.changePercent24h := 140%float; MarketData.volume24h := 30%float;
     MarketData.high24h := 125%float; MarketData.low24h := 90%float;
     MarketData.bid := 119%float; MarketData.ask := 121%float |}.

Section Pipeline.

(** The built-in [parseFloat]. *)
Variable parseFloat : string -> float.

(** The exchange: its answer to the request issued after [n] earlier ones
    ([None] when [fetch] rejects), and the time that request takes,
    rate-limit delay included. *)
Variable upstream : nat -> Endpoint -> option Response.
Variable latency : nat -> Z.

(** [parseFloat(xs[i])]; [parseFloat(undefined)] is [NaN]. *)
Definition parseFloatAt (xs : list string) (i : nat) : float :=
  match nth_error xs i with
  | Some s => parseFloat s
  | None => nan
  end.

(** ** server/services/kraken-api.ts: KrakenApiService *)

(** [rateLimitedFetch]: the request is logged, the clock moves on. *)
Definition rateLimitedFetch (ep : Endpoint) : M Response :=
  fun w =>
    let n := length (requests w) in
    let w' := {| storage := storage w; requests := requests w ++ [ep];
                 now := (now w + latency n)%Z;
                 clients := clients w; sent := sent w |} in
    match upstream n ep with
    | Some response => (Returns response, w')
    | None => (Throws NetworkError, w')
    end.

(** The checks of [makeRequest] on a response, in the order of the code. *)
Definition decodeResponse (response : Response) : Outcome (option JsObject) :=
  if negb (ok response) then Throws (HttpError (status response))
  else
    match json response with
    | None => Throws SyntaxError
    | Some JOther => Throws ZodError
    | Some (JEnvelope error result) =>
        if (0 <? length error)%nat then Throws (KrakenApiError error)
        else Returns result
    end.

(** Its [catch] logs the error and throws it again. *)
Definition makeRequest (ep : Endpoint) : M (option JsObject) :=
  tryCatch
    (let* response := rateLimitedFetch ep in
     liftOutcome (decodeResponse response))
    (fun error => throw error).

(** [result[Object.keys(result)[0]]]: [Object.keys] throws on [null] or
    [undefined]; on an object without keys the read gives [undefined]. *)
Definition firstEntry (result : option JsObject) : Outcome (option Entry) :=
  match result with
  | None => Throws TypeError
  | Some obj =>
      match keys obj with
      | [] => Returns None
      | key :: _ => Returns (prop obj key)
      end
  end.

(** The record that [getTickerData] builds from [data]; a [data] that is
    not a ticker entry has no [c], and [data.c[0]] throws. *)
Definition tickerOf (pair : string) (data : option Entry) : Outcome TickerData.t :=
  match data with
  | Some (ETicker data) =>
      Returns
        {| TickerData.pair := pair;
           TickerData.name := getPairDisplayName pair;
           TickerData.lastPrice := parseFloatAt (RawTicker.c data) 0;
           TickerData.change24h :=
             (parseFloatAt (RawTicker.c data) 0 - parseFloat (RawTicker.o data))%float;
           TickerData.changePercent24h :=
             (((parseFloatAt (RawTicker.c data) 0 - parseFloat (RawTicker.o data))
               / parseFloat (RawTicker.o data)) * 100)%float;
           TickerData.volume24h := parseFloatAt (RawTicker.v data) 1;
           TickerData.high24h := parseFloatAt (RawTicker.h data) 1;
           TickerData.low24h := parseFloatAt (RawTicker.l data) 1;
           TickerData.bid := parseFloatAt (RawTicker.b data) 0;
           TickerData.ask := parseFloatAt (RawTicker.a data) 0;
           TickerData.spread :=
             (parseFloatAt (RawTicker.a data) 0 - parseFloatAt (RawTicker.b data) 0)%float;
           TickerData.spreadPercent :=
             (((parseFloatAt (RawTicker.a data) 0 - parseFloatAt (RawTicker.b data) 0)
               / parseFloatAt (RawTicker.b data) 0) * 100)%float |}
  | _ => Throws TypeError
  end.

Definition getTickerData (pair : string) : M TickerData.t :=
  let* result := makeRequest (Ticker pair) in
  let* data := liftOutcome (firstEntry result) in
  liftOutcome (tickerOf pair data).

(** The callback of [data.asks.map] and [data.bids.map]. *)
Definition levelOf (level : RawLevel) : OrderBookEntry.t :=
  let '(price, volume, timestamp) := level in
  {| OrderBookEntry.price := parseFloat price;
     OrderBookEntry.volume := parseFloat volume;
     OrderBookEntry.timestamp := timestamp |}.

(** [xs.length > 0 ? xs[0].price : 0]. *)
Definition bestPrice (xs : list OrderBookEntry.t) : float :=
  match xs with
  | x :: _ => OrderBookEntry.price x
  | [] => 0%float
  end.

Definition orderBookOf (pair : string) (data : option Entry) : Outcome OrderBook.t :=
  match data with
  | Some (EDepth data) =>
      let asks := map levelOf (RawDepth.asks data) in
      let bids := map levelOf (RawDepth.bids data) in
      let bestAsk := bestPrice asks in
      let bestBid := bestPrice bids in
      let spread := (bestAsk - bestBid)%float in
      let spreadPercent :=
        if (0 <? bestBid)%float then ((spread / bestBid) * 100)%float else 0%float in
      Returns
        {| OrderBook.pair := pair;
           OrderBook.asks := asks;
           OrderBook.bids := bids;
           OrderBook.spread := spread;
           OrderBook.spreadPercent := spreadPercent |}
  | _ => Throws TypeError
  end.

Definition getOrderBook (pair : string) (count : Z) : M OrderBook.t :=
  let* result := makeRequest (Depth pair count) in
  let* data := liftOutcome (firstEntry result) in
  liftOutcome (orderBookOf pair data).

(** The callback of [trades.map]. *)
Definition tradeOf (trade : RawTrade.t) : Trade.t :=
  {| Trade.price := parseFloat (RawTrade.price trade);
     Trade.volume := parseFloat (RawTrade.volume trade);
     Trade.time := RawTrade.time trade;
     Trade.side := if String.eqb (RawTrade.side trade) "b" then buy else sell |}.

Definition recentTradesOf (pair : string) (data : option Entry) : Outcome RecentTrades.t :=
  match data with
  | Some (ETrades trades) =>
      Returns {| RecentTrades.pair := pair; RecentTrades.trades := map tradeOf trades |}
  | _ => Throws TypeError
  end.

Definition getRecentTrades (pair : string) (count : Z) : M RecentTrades.t :=
  let* result := makeRequest (Trades pair count) in
  let* data := liftOutcome (firstEntry result) in
  liftOutcome (recentTradesOf pair data).

(** The callback of [pairs.map] in [getMultipleTickers].  Reading a key of
    a [null] result throws; an entry that is truthy but no ticker has no
    [c], and [data.c[0]] throws. *)
Definition marketDataOf (result : option JsObject) (pair : string) : Outcome MarketData.t :=
  match result with
  | None => Throws TypeError
  | Some result =>
      let pairKey := resolvePairKey result pair in
      if isEmpty pairKey || negb (propTruthy result pairKey)
      then Throws (NoDataFound pair)
      else
        match prop result pairKey with
        | Some (ETicker data) =>
            Returns
              {| MarketData.pair := pair;
                 MarketData.name := getPairDisplayName pair;
                 MarketData.lastPrice := parseFloatAt (RawTicker.c data) 0;
                 MarketData.change24h :=
                   (parseFloatAt (RawTicker.c data) 0 - parseFloat (RawTicker.o data))%float;
                 MarketData.changePercent24h :=
                   (((parseFloatAt (RawTicker.c data) 0 - parseFloat (RawTicker.o data))
                     / parseFloat (RawTicker.o data)) * 100)%float;
                 MarketData.volume24h := parseFloatAt (RawTicker.v data) 1;
                 MarketData.high24h := parseFloatAt (RawTicker.h data) 1;
                 MarketData.low24h := parseFloatAt (RawTicker.l data) 1;
                 MarketData.bid := parseFloatAt (RawTicker.b data) 0;
                 MarketData.ask := parseFloatAt (RawTicker.a data) 0 |}
        | _ => Throws TypeError
        end
  end.

Definition getMultipleTickers (pairs : list string) : M (list MarketData.t) :=
  let pairString := joinComma pairs in
  let* result := makeRequest (Ticker pairString) in
  liftOutcome (mapOutcome (marketDataOf result) pairs).

(** ** server/routes.ts *)

(** [Promise.all([p, q])]: both requests have been started; it gives both
    values, or throws when one of them failed.  Which failure it throws
    only reaches the log. *)
Definition promiseAll2 {A B : Type} (p : Promise A) (q : Promise B) : M (A * B) :=
  let* x := await p in
  let* y := await q in
  ret (x, y).

Definition promiseAll3 {A B C : Type}
    (p : Promise A) (q : Promise B) (r : Promise C) : M (A * B * C) :=
  let* x := await p in
  let* y := await q in
  let* z := await r in
  ret (x, y, z).

(** [GET /api/ticker/:pair]. *)
Definition apiTicker (pair : string) : M HttpReply :=
  tryCatch
    (let* data := getTickerData pair in
     let* _ := storageSet (MemStorage.setTickerData pair data) in
     ret (resJson (BTicker data)))
    (fun error => ret (resFail "Failed to fetch ticker data" error)).

(** [parseInt(req.query.count) || dflt]: [None] is [NaN]; [NaN] and [0]
    are falsy. *)
Definition countOr (count : option Z) (dflt : Z) : Z :=
  match count with
  | Some n => if (n =? 0)%Z then dflt else n
  | None => dflt
  end.

(** [GET /api/orderbook/:pair]. *)
Definition apiOrderBook (pair : string) (count : option Z) : M HttpReply :=
  tryCatch
    (let count := countOr count 5 in
     let* data := getOrderBook pair count in
     let* _ := storageSet (MemStorage.setOrderBook pair data) in
     ret (resJson (BOrderBook data)))
    (fun error => ret (resFail "Failed to fetch order book" error)).

(** [GET /api/trades/:pair]. *)
Definition apiTrades (pair : string) (count : option Z) : M HttpReply :=
  tryCatch
    (let count := countOr count 100 in
     let* data := getRecentTrades pair count in
     let* _ := storageSet (MemStorage.setRecentTrades pair data) in
     ret (resJson (BTrades data)))
    (fun error => ret (resFail "Failed to fetch recent trades" error)).

(** [GET /api/market-data]. *)
Definition apiMarketData : M HttpReply :=
  tryCatch
    (let* data := getMultipleTickers POPULAR_PAIRS in
     let* _ := storageSet (MemStorage.setMarketData data) in
     let* date := newDate in
     let* _ := storageSet (MemStorage.setLastUpdated date) in
     ret (resJson (BMarketData data)))
    (fun error => ret (resFail "Failed to fetch market data" error)).

(** The body of the loop of [POST /api/refresh] for one pair. *)
Definition refreshPair (pair : string) : M unit :=
  tryCatch
    (let* p := async (getOrderBook pair 10) in
     let* q := async (getRecentTrades pair 50) in
     let* both := promiseAll2 p q in
     let* _ := storageSet (MemStorage.setOrderBook pair (fst both)) in
     storageSet (MemStorage.setRecentTrades pair (snd both)))
    (fun error => ret tt).

(** [POST /api/refresh]. *)
Definition apiRefresh : M HttpReply :=
  tryCatch
    (let* marketData := getMultipleTickers POPULAR_PAIRS in
     let* _ := storageSet (MemStorage.setMarketData marketData) in
     let* _ := forEach POPULAR_PAIRS refreshPair in
     let* date := newDate in
     let* _ := storageSet (MemStorage.setLastUpdated date) in
     ret (resJson BRefreshed))
    (fun error => ret (resFail "Failed to refresh data" error)).

Definition optData {A : Type} (f : A -> JsData) (x : option A) : JsData :=
  match x with
  | Some d => f d
  | None => DUndefined
  end.

(** The body of the loop of the [subscribe] handler for one pair.  Each
    [storage.get...(pair)] is the call of an [async] method, hence a
    promise, and [||] tests that promise, not what it settles to. *)
Definition pushInitial (ws : nat) (pair : string) : M unit :=
  tryCatch
    (let* s1 := async (storageGet (MemStorage.getTickerData pair)) in
     let* p1 := orElse s1 (async (let* d := getTickerData pair in ret (Some d))) in
     let* s2 := async (storageGet (MemStorage.getOrderBook pair)) in
     let* p2 := orElse s2 (async (let* d := getOrderBook pair 5 in ret (Some d))) in
     let* s3 := async (storageGet (MemStorage.getRecentTrades pair)) in
     let* p3 := orElse s3 (async (let* d := getRecentTrades pair 20 in ret (Some d))) in
     let* all := promiseAll3 p1 p2 p3 in
     let '(ticker, orderBook, trades) := all in
     let* state := readyStateOf ws in
     if isOpen state then
       let* _ := send ws {| WebSocketMessage.type := MessageType.ticker;
                            WebSocketMessage.pair := pair;
                            WebSocketMessage.data := optData DTicker ticker |} in
       let* _ := send ws {| WebSocketMessage.type := MessageType.orderBook;
                            WebSocketMessage.pair := pair;
                            WebSocketMessage.data := optData DOrderBook orderBook |} in
       send ws {| WebSocketMessage.type := MessageType.trades;
                  WebSocketMessage.pair := pair;
                  WebSocketMessage.data := optData DTrades trades |}
     else ret tt)
    (fun error => ret tt).

(** [ws.on('message', ...)] of the connection [ws]. *)
Definition onMessage (ws : nat) (message : ClientMessage) : M unit :=
  tryCatch
    (match message with
     | Malformed => throw SyntaxError
     | Message type pairs =>
         if String.eqb type "subscribe" then
           let pairs := match pairs with
                        | Some ps => ps
                        | None => POPULAR_PAIRS
                        end in
           forEach pairs (pushInitial ws)
         else ret tt
     end)
    (fun error => ret tt).

(** The body of [wss.clients.forEach] in the periodic broadcast. *)
Definition sendIfOpen (message : WebSocketMessage.t) (client : WebSocket) : M unit :=
  if isOpen (readyState client) then send (wsId client) message else ret tt.

(** The callback of [setInterval(..., 15000)]. *)
Definition broadcastTick : M unit :=
  let* connected := getClients in
  if (length connected =? 0)%nat then ret tt
  else
    tryCatch
      (let* marketData := getMultipleTickers POPULAR_PAIRS in
       let* _ := storageSet (MemStorage.setMarketData marketData) in
       forEach marketData (fun ticker =>
         let message := {| WebSocketMessage.type := MessageType.ticker;
                           WebSocketMessage.pair := MarketData.pair ticker;
                           WebSocketMessage.data := DMarket ticker |} in
         let* cs := getClients in
         forEach cs (sendIfOpen message)))
      (fun error => ret tt).

(** ** What a request does to the world, and what a reply decodes to *)

(** The world once the request [ep] has been issued and answered. *)
Definition afterRequest (ep : Endpoint) (w : World) : World :=
  {| storage := storage w; requests := requests w ++ [ep];
     now := (now w + latency (length (requests w)))%Z;
     clients := clients w; sent := sent w |}.

(** The [result] that [makeRequest] extracts from the exchange's answer. *)
Definition resultOf (answer : option Response) : Outcome (option JsObject) :=
  match answer with
  | Some response => decodeResponse response
  | None => Throws NetworkError
  end.

(** [decode] applied to the first entry of the answer's [result]. *)
Definition decodeFirst {A : Type} (decode : option Entry -> Outcome A)
    (answer : option Response) : Outcome A :=
  match resultOf answer with
  | Throws e => Throws e
  | Returns result =>
      match firstEntry result with
      | Throws e => Throws e
      | Returns data => decode data
      end
  end.

(** The market data decoded from the answer to a bulk request. *)
Definition marketDataFrom (pairs : list string) (answer : option Response)
    : Outcome (list MarketData.t) :=
  match resultOf answer with
  | Throws e => Throws e
  | Returns result => mapOutcome (marketDataOf result) pairs
  end.

(** What the two requests of [refreshPair] give when they are the requests
    number [n] and [n + 1] of the process. *)
Definition depthAnswer (n : nat) (pair : string) : Outcome OrderBook.t :=
  decodeFirst (orderBookOf pair) (upstream n (Depth pair 10)).

Definition tradesAnswer (n : nat) (pair : string) : Outcome RecentTrades.t :=
  decodeFirst (recentTradesOf pair) (upstream (S n) (Trades pair 50)).

(** One of the two requests failed. *)
Definition pairFailed (n : nat) (pair : string) : Prop :=
  (exists e, depthAnswer n pair = Throws e) \/ (exists e, tradesAnswer n pair = Throws e).

(** The store after [refreshPair]: both records when both requests
    succeeded, and nothing new otherwise. *)
Definition refreshedStore (pair : string) (w : World) : MemStorage.t :=
  match depthAnswer (length (requests w)) pair, tradesAnswer (length (requests w)) pair with
  | Returns book, Returns history =>
      MemStorage.setRecentTrades pair history (MemStorage.setOrderBook pair book (storage w))
  | _, _ => storage w
  end.

Definition afterRefreshPair (pair : string) (w : World) : World :=
  let w2 := afterRequest (Trades pair 50) (afterRequest (Depth pair 10) w) in
  {| storage := refreshedStore pair w; requests := requests w2; now := now w2;
     clients := clients w2; sent := sent w2 |}.

(** The world after the refresh loop over [pairs]. *)
Definition afterPairs (pairs : list string) (w : World) : World :=
  fold_left (fun w pair => afterRefreshPair pair w) pairs w.

(** The requests of the refresh loop. *)
Definition pairRequests (pairs : list string) : list Endpoint :=
  flat_map (fun pair => [Depth pair 10; Trades pair 50]) pairs.

(** The three messages of the initial push for [pair], read from the
    store [s]. *)
Definition initialMessages (ws : nat) (s : MemStorage.t) (pair : string)
    : list (nat * WebSocketMessage.t) :=
  [(ws, {| WebSocketMessage.type := MessageType.ticker;
           WebSocketMessage.pair := pair;
           WebSocketMessage.data := optData DTicker (MemStorage.getTickerData pair s) |});
   (ws, {| WebSocketMessage.type := MessageType.orderBook;
           WebSocketMessage.pair := pair;
           WebSocketMessage.data := optData DOrderBook (MemStorage.getOrderBook pair s) |});
   (ws, {| WebSocketMessage.type := MessageType.trades;
           WebSocketMessage.pair := pair;
           WebSocketMessage.data := optData DTrades (MemStorage.getRecentTrades pair s) |})].

(** The connections in the [OPEN] state. *)
Definition openClients (w : World) : list WebSocket :=
  List.filter (fun client => isOpen (readyState client)) (clients w).

(** The exchange answers the depth request issued in [w] with a result
    whose first entry is the depth data [data]. *)
Definition answersDepth (pair : string) (count : Z) (w : World) (data : RawDepth.t) : Prop :=
  exists response result,
    upstream (length (requests w)) (Depth pair count) = Some response /\
    decodeResponse response = Returns result /\
    firstEntry result = Returns (Some (EDepth data)).

(** [ws.readyState] of the connection [ws] in the world [w]. *)
Definition stateOf (ws : nat) (w : World) : ReadyState :=
  match List.find (fun c => Nat.eqb (wsId c) ws) (clients w) with
  | Some c => readyState c
  | None => CLOSED
  end.

(** The world after the initial push for [pair] on the connection [ws]. *)
Definition afterPush (ws : nat) (w : World) (pair : string) : World :=
  {| storage := storage w; requests := requests w; now := now w; clients := clients w;
     sent := sent w ++ (if isOpen (stateOf ws w)
                        then initialMessages ws (storage w) pair else []) |}.

(** ** Further routes, and what the loops send *)

(** What [GET /api/cached/:type/:pair?] answers: [res.json(data || null)]
    carries the record or [null], the market-data answer carries the list
    and [lastUpdated], and the refusals carry their [error] text. *)
Inductive CachedBody : Type :=
  | CTicker (data : option TickerData.t)
  | CAllTickers (data : list TickerData.t)
  | COrderBook (data : option OrderBook.t)
  | CTrades (data : option RecentTrades.t)
  | CMarketData (data : list MarketData.t) (lastUpdated : option Date)
  | CError (error : string).

Record CachedReply : Type := mkCached { cachedStatus : Z; cachedBody : CachedBody }.

(** The truthiness of the optional route parameter [pair]. *)
Definition givenPair (pair : option string) : option string :=
  match pair with
  | Some p => if isEmpty p then None else Some p
  | None => None
  end.

(** [GET /api/cached/:type/:pair?]. *)
Definition apiCached (type : string) (pair : option string) : M CachedReply :=
  tryCatch
    (if String.eqb type "ticker" then
       match givenPair pair with
       | Some p =>
           let* data := storageGet (MemStorage.getTickerData p) in
           ret {| cachedStatus := 200; cachedBody := CTicker data |}
       | None =>
           let* data := storageGet getAllTickerData in
           ret {| cachedStatus := 200; cachedBody := CAllTickers data |}
       end
     else if String.eqb type "orderbook" then
       match givenPair pair with
       | None =>
           ret {| cachedStatus := 400; cachedBody := CError "Pair required for order book" |}
       | Some p =>
           let* orderBook := storageGet (MemStorage.getOrderBook p) in
           ret {| cachedStatus := 200; cachedBody := COrderBook orderBook |}
       end
     else if String.eqb type "trades" then
       match givenPair pair with
       | None =>
           ret {| cachedStatus := 400; cachedBody := CError "Pair required for trades" |}
       | Some p =>
           let* history := storageGet (MemStorage.getRecentTrades p) in
           ret {| cachedStatus := 200; cachedBody := CTrades history |}
       end
     else if String.eqb type "market-data" then
       let* marketData := storageGet MemStorage.getMarketData in
       let* lastUpdated := storageGet MemStorage.getLastUpdated in
       ret {| cachedStatus := 200; cachedBody := CMarketData marketData lastUpdated |}
     else ret {| cachedStatus := 400; cachedBody := CError "Invalid type" |})
    (fun error =>
       ret {| cachedStatus := 500; cachedBody := CError "Failed to fetch cached data" |}).

(** The world [w] with its store replaced by [f] of it. *)
Definition withStorage (f : MemStorage.t -> MemStorage.t) (w : World) : World :=
  {| storage := f (storage w); requests := requests w; now := now w;
     clients := clients w; sent := sent w |}.

(** The pairs of a subscription: [data.pairs || POPULAR_PAIRS]. *)
Definition subscribedPairs (pairs : option (list string)) : list string :=
  match pairs with
  | Some ps => ps
  | None => POPULAR_PAIRS
  end.

(** What a client's message makes the server send on the connection
    [ws]. *)
Definition pushes (ws : nat) (message : ClientMessage) (w : World)
    : list (nat * WebSocketMessage.t) :=
  match message with
  | Malformed => []
  | Message type pairs =>
      if String.eqb type "subscribe" && isOpen (stateOf ws w)
      then flat_map (initialMessages ws (storage w)) (subscribedPairs pairs)
      else []
  end.

(** The message that the periodic cycle sends for one record. *)
Definition tickerMessage (ticker : MarketData.t) : WebSocketMessage.t :=
  {| WebSocketMessage.type := MessageType.ticker;
     WebSocketMessage.pair := MarketData.pair ticker;
     WebSocketMessage.data := DMarket ticker |}.

(** The messages of one cycle: record after record, and for each record
    one message to every open connection, in the order of [wss.clients]. *)
Definition fanOut (connected : list WebSocket) (marketData : list MarketData.t)
    : list (nat * WebSocketMessage.t) :=
  flat_map
    (fun ticker =>
       map (fun client => (wsId client, tickerMessage ticker))
           (List.filter (fun client => isOpen (readyState client)) connected))
    marketData.

(** [needle] occurs in [s]. *)
Definition occursIn (needle s : string) : Prop :=
  exists pre post, s = (pre ++ needle ++ post)%string.

(** What the fuzzy predicate tests, in words: the pair without its [X],
    [Z] and [/] occurs in the key without its [X] and [Z], or the pair
    occurs in the key as it is. *)
Definition fuzzyMatches (pair key : string) : Prop :=
  occursIn (removeChars isXZSlash pair) (removeChars isXZ key) \/ occursIn pair key.

(** ** Laws of the monad *)

Lemma bind_returns {A B : Type} (m : M A) (k : A -> M B) (w w' : World) (x : A) :
  m w = (Returns x, w') -> bind m k w = k x w'.
Proof. intros H. unfold bind. now rewrite H. Qed.

Lemma bind_throws {A B : Type} (m : M A) (k : A -> M B) (w w' : World) (e : Error) :
  m w = (Throws e, w') -> bind m k w = (Throws e, w').
Proof. intros H. unfold bind. now rewrite H. Qed.

Lemma tryCatch_returns {A : Type} (m : M A) (h : Error -> M A) (w w' : World) (x : A) :
  m w = (Returns x, w') -> tryCatch m h w = (Returns x, w').
Proof. intros H. unfold tryCatch. now rewrite H. Qed.

Lemma tryCatch_throws {A : Type} (m : M A) (h : Error -> M A) (w w' : World) (e : Error) :
  m w = (Throws e, w') -> tryCatch m h w = h e w'.
Proof. intros H. unfold tryCatch. now rewrite H. Qed.

(** ** The upstream client, request by request *)

Lemma makeRequest_eq (ep : Endpoint) (w : World) :
  makeRequest ep w = (resultOf (upstream (length (requests w)) ep), afterRequest ep w).
Proof.
  unfold makeRequest, tryCatch, bind, rateLimitedFetch, liftOutcome, throw, resultOf, afterRequest.
  destruct (upstream (length (requests w)) ep) as [response|]; [|reflexivity].
  now destruct (decodeResponse response).
Qed.

Lemma decoded_eq {A : Type} (decode : option Entry -> Outcome A) (ep : Endpoint) (w : World) :
  (let* result := makeRequest ep in
   let* data := liftOutcome (firstEntry result) in
   liftOutcome (decode data)) w
  = (decodeFirst decode (upstream (length (requests w)) ep), afterRequest ep w).
Proof.
  unfold bind. rewrite makeRequest_eq. unfold decodeFirst, liftOutcome.
  destruct (resultOf _) as [result|e]; [|reflexivity].
  now destruct (firstEntry result).
Qed.

Lemma getTickerData_eq (pair : string) (w : World) :
  getTickerData pair w
  = (decodeFirst (tickerOf pair) (upstream (length (requests w)) (Ticker pair)),
     afterRequest (Ticker pair) w).
Proof. apply decoded_eq. Qed.

Lemma getOrderBook_eq (pair : string) (count : Z) (w : World) :
  getOrderBook pair count w
  = (decodeFirst (orderBookOf pair) (upstream (length (requests w)) (Depth pair count)),
     afterRequest (Depth pair count) w).
Proof. apply decoded_eq. Qed.

Lemma getRecentTrades_eq (pair : string) (count : Z) (w : World) :
  getRecentTrades pair count w
  = (decodeFirst (recentTradesOf pair) (upstream (length (requests w)) (Trades pair count)),
     afterRequest (Trades pair count) w).
Proof. apply decoded_eq. Qed.

Lemma getMultipleTickers_eq (pairs : list string) (w : World) :
  getMultipleTickers pairs w
  = (marketDataFrom pairs (upstream (length (requests w)) (Ticker (joinComma pairs))),
     afterRequest (Ticker (joinComma pairs)) w).
Proof.
  unfold getMultipleTickers, bind. rewrite makeRequest_eq.
  unfold marketDataFrom, liftOutcome. now destruct (resultOf _).
Qed.

Lemma resultOf_error_envelope (response : Response) (error : list string)
    (result : option JsObject) :
  json response = Some (JEnvelope error result) -> error <> [] ->
  exists e, resultOf (Some response) = Throws e /\
            (ok response = true -> e = KrakenApiError error).
Proof.
  intros Hjson Hne. unfold resultOf, decodeResponse. rewrite Hjson.
  destruct (ok response); simpl.
  - destruct error as [|msg rest]; [congruence|]. simpl. eauto.
  - eexists. split; [reflexivity | discriminate].
Qed.

(** ** The snapshot store *)

(** C9.  For each of the three kinds (ticker, order book, trades) and every
    pair: a read after a write gives exactly the record written; after a
    second write on the same pair the read gives the second record, and the
    store is the one that the second write alone would have produced, so
    nothing of the first record is kept. *)
Theorem store_last_write_wins (pair : string) (s : MemStorage.t) :
  (forall r1 r2 : TickerData.t,
     MemStorage.getTickerData pair (MemStorage.setTickerData pair r1 s) = Some r1 /\
     MemStorage.getTickerData pair
       (MemStorage.setTickerData pair r2 (MemStorage.setTickerData pair r1 s)) = Some r2 /\
     MemStorage.setTickerData pair r2 (MemStorage.setTickerData pair r1 s)
     = MemStorage.setTickerData pair r2 s) /\
  (forall r1 r2 : OrderBook.t,
     MemStorage.getOrderBook pair (MemStorage.setOrderBook pair r1 s) = Some r1 /\
     MemStorage.getOrderBook pair
       (MemStorage.setOrderBook pair r2 (MemStorage.setOrderBook pair r1 s)) = Some r2 /\
     MemStorage.setOrderBook pair r2 (MemStorage.setOrderBook pair r1 s)
     = MemStorage.setOrderBook pair r2 s) /\
  (forall r1 r2 : RecentTrades.t,
     MemStorage.getRecentTrades pair (MemStorage.setRecentTrades pair r1 s) = Some r1 /\
     MemStorage.getRecentTrades pair
       (MemStorage.setRecentTrades pair r2 (MemStorage.setRecentTrades pair r1 s)) = Some r2 /\
     MemStorage.setRecentTrades pair r2 (MemStorage.setRecentTrades pair r1 s)
     = MemStorage.setRecentTrades pair r2 s).
Proof.
  repeat split;
    unfold MemStorage.getTickerData, MemStorage.setTickerData,
           MemStorage.getOrderBook, MemStorage.setOrderBook,
           MemStorage.getRecentTrades, MemStorage.setRecentTrades; simpl;
    rewrite ?lookup_insert_eq, ?insert_insert_eq; reflexivity.
Qed.

(** ** Resolution of a pair against a bulk result *)

Lemma possibleKeys_nonempty (pair : string) :
  pair <> "" -> Forall (fun key => key <> "") (possibleKeys pair).
Proof.
  intros Hne. cbv [possibleKeys krakenPairMap tableGet].
  repeat match goal with
         | |- context [String.eqb ?k pair] => destruct (String.eqb k pair)
         end;
    repeat constructor; try discriminate; assumption.
Qed.

Lemma firstPresent_split (result : JsObject) (ks : list string) (alias : string) :
  In alias ks -> propTruthy result alias = true ->
  exists before after,
    ks = before ++ firstPresent result ks :: after /\
    Forall (fun key => propTruthy result key = false) before /\
    propTruthy result (firstPresent result ks) = true.
Proof.
  induction ks as [|key rest IH]; intros Hin Hkey; [contradiction|].
  simpl. destruct (propTruthy result key) eqn:Hhere.
  - exists [], rest. auto.
  - destruct Hin as [->|Hin]; [congruence|].
    destruct (IH Hin Hkey) as (before & after & Heq & Hall & Hhit).
    exists (key :: before), after. split; [|split].
    + simpl. now rewrite <- Heq.
    + now constructor.
    + assumption.
Qed.

Lemma isEmpty_false (s : string) : s <> "" -> isEmpty s = false.
Proof. intros H. unfold isEmpty. now apply String.eqb_neq. Qed.

(** C7, as amended.  For a requested pair that is not empty and is no
    inherited name: when some entry of its alias list (the pair's own
    identifier is such an entry) is a key of the response under which a
    truthy value is filed, the pair resolves to the first entry of the
    list, in the order of the table, that is such a key: the loop over the
    list ends with a non-empty key, so the fuzzy fallback is not used. *)
Theorem resolvePairKey_by_alias_table (result : JsObject) (pair alias : string) :
  inherited pair = false ->
  pair <> "" ->
  In alias (possibleKeys pair) ->
  propTruthy result alias = true ->
  exists before after,
    possibleKeys pair = before ++ resolvePairKey result pair :: after /\
    Forall (fun key => propTruthy result key = false) before /\
    propTruthy result (resolvePairKey result pair) = true /\
    isEmpty (firstPresent result (possibleKeys pair)) = false /\
    resolvePairKey result pair = firstPresent result (possibleKeys pair).
Proof.
  intros _ Hne Hin Hkey.
  destruct (firstPresent_split result (possibleKeys pair) alias Hin Hkey)
    as (before & after & Heq & Hall & Hhit).
  assert (Hfirst : isEmpty (firstPresent result (possibleKeys pair)) = false).
  { apply isEmpty_false.
    pose proof (possibleKeys_nonempty pair Hne) as Hkeys.
    rewrite List.Forall_forall in Hkeys. apply Hkeys.
    rewrite Heq at 2. apply in_or_app. right. now left. }
  assert (Hres : resolvePairKey result pair = firstPresent result (possibleKeys pair)).
  { unfold resolvePairKey. now rewrite Hfirst. }
  exists before, after. rewrite Hres. auto.
Qed.

(** ** The order book of an empty side *)

(** C3, as amended.  When the depth data has an empty [asks] or an empty
    [bids], [getOrderBook] returns a record in which the best price of an
    empty side is zero, [spread] is best ask minus best bid with that zero,
    and [spreadPercent] is zero unless the best bid is positive; so with
    empty bids [spreadPercent] is zero, and with both sides empty [spread]
    and [spreadPercent] are both zero. *)
Theorem getOrderBook_empty_side (pair : string) (count : Z) (w : World) (data : RawDepth.t) :
  answersDepth pair count w data ->
  RawDepth.asks data = [] \/ RawDepth.bids data = [] ->
  exists book,
    fst (getOrderBook pair count w) = Returns book /\
    OrderBook.asks book = map levelOf (RawDepth.asks data) /\
    OrderBook.bids book = map levelOf (RawDepth.bids data) /\
    OrderBook.spread book
    = (bestPrice (OrderBook.asks book) - bestPrice (OrderBook.bids book))%float /\
    OrderBook.spreadPercent book
    = (if (0 <? bestPrice (OrderBook.bids book))%float
       then (OrderBook.spread book / bestPrice (OrderBook.bids book)) * 100
       else 0)%float /\
    (RawDepth.asks data = [] -> bestPrice (OrderBook.asks book) = 0%float) /\
    (RawDepth.bids data = [] ->
       bestPrice (OrderBook.bids book) = 0%float /\
       OrderBook.spreadPercent book = 0%float) /\
    (RawDepth.asks data = [] -> RawDepth.bids data = [] ->
       OrderBook.spread book = 0%float /\ OrderBook.spreadPercent book = 0%float).
Proof.
  intros (response & result & Hup & Hdec & Hfirst) _.
  rewrite getOrderBook_eq. simpl.
  unfold decodeFirst, resultOf. rewrite Hup, Hdec, Hfirst. simpl.
  eexists. split; [reflexivity|]. simpl.
  do 4 (split; [reflexivity|]).
  split; [|split].
  - intros ->. reflexivity.
  - intros ->. split; reflexivity.
  - intros -> ->. split; reflexivity.
Qed.

(** ** Bulk and per-pair tickers *)

Lemma mapOutcome_returns {A B : Type} (f : A -> Outcome B) (xs : list A) (ys : list B) :
  mapOutcome f xs = Returns ys -> Forall2 (fun x y => f x = Returns y) xs ys.
Proof.
  revert ys. induction xs as [|x rest IH]; intros ys H; simpl in H.
  - inversion H. constructor.
  - destruct (f x) as [y|e] eqn:Hx; [|discriminate].
    destruct (mapOutcome f rest) as [ys'|e]; [|discriminate].
    inversion H; subst. constructor; auto.
Qed.

Lemma marketDataOf_returns (result : option JsObject) (pair : string) (r : MarketData.t) :
  marketDataOf result pair = Returns r ->
  MarketData.pair r = pair /\
  MarketData.get r "bid" = JsNumber (MarketData.bid r) /\
  MarketData.get r "ask" = JsNumber (MarketData.ask r) /\
  MarketData.get r "spread" = JsUndefined /\
  MarketData.get r "spreadPercent" = JsUndefined.
Proof.
  unfold marketDataOf. destruct result as [result|]; [|discriminate].
  destruct (isEmpty _ || negb _); [discriminate|].
  destruct (prop result _) as [[data| | |]|]; try discriminate.
  intros H. inversion H. repeat split; reflexivity.
Qed.

Lemma tickerOf_returns (pair : string) (data : option Entry) (t : TickerData.t) :
  tickerOf pair data = Returns t ->
  TickerData.spread t = (TickerData.ask t - TickerData.bid t)%float /\
  TickerData.spreadPercent t = ((TickerData.spread t / TickerData.bid t) * 100)%float /\
  TickerData.get t "spread" = JsNumber (TickerData.ask t - TickerData.bid t)%float /\
  TickerData.get t "spreadPercent"
  = JsNumber ((TickerData.spread t / TickerData.bid t) * 100)%float.
Proof.
  unfold tickerOf. destruct data as [[data| | |]|]; try discriminate.
  intros H. inversion H. repeat split; reflexivity.
Qed.

(** C1, as amended.  Whenever [getMultipleTickers] succeeds it returns
    exactly one record per requested pair, in the order of the request,
    each carrying [bid] and [ask] and neither a [spread] nor a
    [spreadPercent] field.  Separately, whenever the per-pair
    [getTickerData] succeeds its record has [spread = ask - bid] and
    [spreadPercent = spread / bid * 100].  Neither half supposes that the
    other call succeeds. *)
Theorem getMultipleTickers_one_record_per_pair :
  (forall (pairs : list string) (w w' : World) (records : list MarketData.t),
      getMultipleTickers pairs w = (Returns records, w') ->
      length records = length pairs /\
      map MarketData.pair records = pairs /\
      Forall (fun r => MarketData.get r "bid" = JsNumber (MarketData.bid r) /\
                       MarketData.get r "ask" = JsNumber (MarketData.ask r) /\
                       MarketData.get r "spread" = JsUndefined /\
                       MarketData.get r "spreadPercent" = JsUndefined) records) /\
  (forall (pair : string) (w w' : World) (t : TickerData.t),
      getTickerData pair w = (Returns t, w') ->
      TickerData.spread t = (TickerData.ask t - TickerData.bid t)%float /\
      TickerData.spreadPercent t = ((TickerData.spread t / TickerData.bid t) * 100)%float /\
      TickerData.get t "spread" = JsNumber (TickerData.ask t - TickerData.bid t)%float /\
      TickerData.get t "spreadPercent"
      = JsNumber ((TickerData.spread t / TickerData.bid t) * 100)%float).
Proof.
  split.
  - intros pairs w w' records Hbulk.
    rewrite getMultipleTickers_eq in Hbulk. inversion Hbulk as [[Hrecords Hworld]].
    clear Hbulk Hworld. unfold marketDataFrom in Hrecords.
    destruct (resultOf _) as [result|e]; [|discriminate].
    apply mapOutcome_returns in Hrecords.
    induction Hrecords as [|p r ps rs Hr Hrest IH]; simpl.
    + repeat split; constructor.
    + destruct IH as (Hlen & Hpairs & Hall).
      destruct (marketDataOf_returns _ _ _ Hr) as (Hpair & Hfields).
      repeat split.
      * now rewrite Hlen.
      * now rewrite Hpair, Hpairs.
      * constructor; assumption.
  - intros pair w w' t Hone.
    rewrite getTickerData_eq in Hone. inversion Hone as [[Ht Hworld]].
    clear Hone Hworld. unfold decodeFirst in Ht.
    destruct (resultOf _) as [result|e]; [|discriminate].
    destruct (firstEntry result) as [data|e]; [|discriminate].
    eapply tickerOf_returns; eassumption.
Qed.

(** ** A handler whose request fails *)

Lemma handler_throws {A : Type} (m : M A) (k : A -> M HttpReply) (text : string)
    (w w' : World) (e : Error) :
  m w = (Throws e, w') ->
  tryCatch (bind m k) (fun error => ret (resFail text error)) w
  = (Returns (resFail text e), w').
Proof.
  intros H. apply (bind_throws m k) in H. now rewrite (tryCatch_throws _ _ _ _ _ H).
Qed.

(** ** The periodic broadcast *)

(** C8, as amended.  When the timer fires while [wss.clients] is empty, the
    cycle does nothing at all: no request is issued, the store is not
    written, no message is sent. *)
Theorem broadcastTick_idle (w : World) :
  clients w = [] -> broadcastTick w = (Returns tt, w).
Proof.
  intros Hnone. unfold broadcastTick, bind, getClients. now rewrite Hnone.
Qed.

(** ** The refresh loop, pair by pair *)

Ltac case_answers :=
  repeat match goal with
         | |- context [depthAnswer ?n ?p] => destruct (depthAnswer n p)
         | |- context [tradesAnswer ?n ?p] => destruct (tradesAnswer n p)
         end.

Lemma refreshPair_eq (pair : string) (w : World) :
  refreshPair pair w = (Returns tt, afterRefreshPair pair w).
Proof.
  unfold refreshPair, tryCatch, bind, async.
  rewrite getOrderBook_eq, getRecentTrades_eq.
  unfold afterRefreshPair, refreshedStore, depthAnswer, tradesAnswer.
  replace (length (requests (afterRequest (Depth pair 10) w))) with (S (length (requests w)))
    by (simpl; rewrite length_app; simpl; lia).
  unfold promiseAll2, await, bind, ret, storageSet.
  repeat match goal with
         | |- context [decodeFirst ?decode ?answer] => destruct (decodeFirst decode answer)
         end; reflexivity.
Qed.

Lemma forEach_refreshPair (pairs : list string) (w : World) :
  forEach pairs refreshPair w = (Returns tt, afterPairs pairs w).
Proof.
  revert w. induction pairs as [|pair rest IH]; intros w; simpl; [reflexivity|].
  unfold bind. rewrite refreshPair_eq. apply IH.
Qed.

Lemma afterRefreshPair_requests (pair : string) (w : World) :
  requests (afterRefreshPair pair w) = requests w ++ [Depth pair 10; Trades pair 50].
Proof. simpl. now rewrite <- app_assoc. Qed.

Lemma afterPairs_requests (pairs : list string) (w : World) :
  requests (afterPairs pairs w) = requests w ++ pairRequests pairs.
Proof.
  revert w. induction pairs as [|pair rest IH]; intros w; simpl.
  - now rewrite app_nil_r.
  - unfold afterPairs in IH. rewrite IH, afterRefreshPair_requests.
    now rewrite <- app_assoc.
Qed.

Lemma refreshedStore_other (p pair : string) (w : World) :
  p <> pair ->
  MemStorage.orderBooks (refreshedStore p w) !! pair = MemStorage.orderBooks (storage w) !! pair /\
  MemStorage.recentTrades (refreshedStore p w) !! pair
  = MemStorage.recentTrades (storage w) !! pair.
Proof.
  intros Hne. unfold refreshedStore.
  case_answers; simpl; rewrite ?lookup_insert_ne by assumption; auto.
Qed.

Lemma refreshedStore_rest (p : string) (w : World) :
  MemStorage.tickerData (refreshedStore p w) = MemStorage.tickerData (storage w) /\
  MemStorage.marketData (refreshedStore p w) = MemStorage.marketData (storage w) /\
  MemStorage.lastUpdated (refreshedStore p w) = MemStorage.lastUpdated (storage w).
Proof.
  unfold refreshedStore. case_answers; auto.
Qed.

Lemma afterPairs_rest (pairs : list string) (w : World) :
  MemStorage.tickerData (storage (afterPairs pairs w)) = MemStorage.tickerData (storage w) /\
  MemStorage.marketData (storage (afterPairs pairs w)) = MemStorage.marketData (storage w) /\
  MemStorage.lastUpdated (storage (afterPairs pairs w)) = MemStorage.lastUpdated (storage w) /\
  clients (afterPairs pairs w) = clients w /\
  sent (afterPairs pairs w) = sent w.
Proof.
  revert w. induction pairs as [|pair rest IH]; intros w; simpl; [auto|].
  destruct (IH (afterRefreshPair pair w)) as (H1 & H2 & H3 & H4 & H5).
  destruct (refreshedStore_rest pair w) as (R1 & R2 & R3).
  unfold afterPairs in *. rewrite H1, H2, H3, H4, H5. simpl. auto.
Qed.

Lemma afterPairs_other (pairs : list string) (pair : string) (w : World) :
  ~ In pair pairs ->
  MemStorage.orderBooks (storage (afterPairs pairs w)) !! pair
  = MemStorage.orderBooks (storage w) !! pair /\
  MemStorage.recentTrades (storage (afterPairs pairs w)) !! pair
  = MemStorage.recentTrades (storage w) !! pair.
Proof.
  revert w. induction pairs as [|p rest IH]; intros w Hnotin; simpl; [auto|].
  assert (Hne : p <> pair) by (intros ->; apply Hnotin; now left).
  assert (Hrest : ~ In pair rest) by (intros Hin; apply Hnotin; now right).
  destruct (IH (afterRefreshPair p w) Hrest) as (H1 & H2).
  destruct (refreshedStore_other p pair w Hne) as (R1 & R2).
  unfold afterPairs in *. rewrite H1, H2. simpl. auto.
Qed.

(** The entries of the [i]-th pair after the loop: both new records when
    its two requests succeeded, the entries from before the loop
    otherwise. *)
Lemma afterPairs_at (pairs : list string) :
  List.NoDup pairs ->
  forall (w : World) (i : nat) (pair : string),
    nth_error pairs i = Some pair ->
    match depthAnswer (length (requests w) + 2 * i) pair,
          tradesAnswer (length (requests w) + 2 * i) pair with
    | Returns book, Returns history =>
        MemStorage.orderBooks (storage (afterPairs pairs w)) !! pair = Some book /\
        MemStorage.recentTrades (storage (afterPairs pairs w)) !! pair = Some history
    | _, _ =>
        MemStorage.orderBooks (storage (afterPairs pairs w)) !! pair
        = MemStorage.orderBooks (storage w) !! pair /\
        MemStorage.recentTrades (storage (afterPairs pairs w)) !! pair
        = MemStorage.recentTrades (storage w) !! pair
    end.
Proof.
  induction 1 as [|p rest Hnotin Hnodup IH]; intros w i pair Hi.
  - destruct i; discriminate.
  - destruct i as [|j]; simpl in Hi.
    + inversion Hi; subst p. clear Hi.
      replace (length (requests w) + 2 * 0) with (length (requests w)) by lia.
      destruct (afterPairs_other rest pair (afterRefreshPair pair w) Hnotin) as (H1 & H2).
      simpl. unfold afterPairs in *. rewrite H1, H2. simpl. unfold refreshedStore.
      case_answers; simpl; rewrite ?lookup_insert_eq; auto.
    + assert (Hne : p <> pair).
      { intros ->. apply Hnotin. eapply nth_error_In; eassumption. }
      pose proof (IH (afterRefreshPair p w) j pair Hi) as IHj.
      assert (Hlen : length (requests (afterRefreshPair p w)) + 2 * j
                     = length (requests w) + 2 * S j).
      { rewrite afterRefreshPair_requests, length_app. simpl length. lia. }
      rewrite Hlen in IHj.
      destruct (refreshedStore_other p pair w Hne) as (R1 & R2).
      change (storage (afterRefreshPair p w)) with (refreshedStore p w) in IHj.
      rewrite R1, R2 in IHj. exact IHj.
Qed.

Lemma POPULAR_PAIRS_NoDup : List.NoDup POPULAR_PAIRS.
Proof.
  unfold POPULAR_PAIRS.
  repeat (constructor; [simpl; intuition discriminate|]). constructor.
Qed.

(** The body of [POST /api/refresh] over any list of distinct pairs, once
    its bulk request has succeeded. *)
Lemma refresh_returns (pairs : list string) :
  List.NoDup pairs ->
  forall (w w1 : World) (marketData : list MarketData.t),
  getMultipleTickers pairs w = (Returns marketData, w1) ->
  exists w',
    tryCatch
      (let* marketData := getMultipleTickers pairs in
       let* _ := storageSet (MemStorage.setMarketData marketData) in
       let* _ := forEach pairs refreshPair in
       let* date := newDate in
       let* _ := storageSet (MemStorage.setLastUpdated date) in
       ret (resJson BRefreshed))
      (fun error => ret (resFail "Failed to refresh data" error)) w
    = (Returns (resJson BRefreshed), w') /\
    requests w' = requests w ++ Ticker (joinComma pairs) :: pairRequests pairs /\
    MemStorage.lastUpdated (storage w') = Some (now w') /\
    MemStorage.marketData (storage w') = marketData /\
    forall (i : nat) (pair : string),
      nth_error pairs i = Some pair ->
      match depthAnswer (length (requests w) + 1 + 2 * i) pair,
            tradesAnswer (length (requests w) + 1 + 2 * i) pair with
      | Returns book, Returns history =>
          MemStorage.orderBooks (storage w') !! pair = Some book /\
          MemStorage.recentTrades (storage w') !! pair = Some history
      | _, _ =>
          MemStorage.orderBooks (storage w') !! pair
          = MemStorage.orderBooks (storage w) !! pair /\
          MemStorage.recentTrades (storage w') !! pair
          = MemStorage.recentTrades (storage w) !! pair
      end.
Proof.
  intros Hnodup w w1 marketData Hbulk.
  pose proof Hbulk as Hw1. rewrite getMultipleTickers_eq in Hw1.
  inversion Hw1 as [[Hmd Hworld]]. clear Hw1.
  set (w2 := {| storage := MemStorage.setMarketData marketData (storage w1);
                requests := requests w1; now := now w1;
                clients := clients w1; sent := sent w1 |}).
  set (w3 := afterPairs pairs w2).
  exists {| storage := MemStorage.setLastUpdated (now w3) (storage w3);
            requests := requests w3; now := now w3;
            clients := clients w3; sent := sent w3 |}.
  split; [|split; [|split; [|split]]].
  - unfold tryCatch, bind at 1. rewrite Hbulk.
    unfold bind at 1, storageSet at 1. fold w2.
    unfold bind at 1. rewrite forEach_refreshPair. fold w3.
    reflexivity.
  - cbn [requests]. unfold w3. rewrite afterPairs_requests.
    unfold w2. cbn [requests]. rewrite <- Hworld. cbn [requests afterRequest].
    rewrite <- app_assoc. reflexivity.
  - reflexivity.
  - cbn [storage MemStorage.marketData MemStorage.setLastUpdated].
    unfold w3. destruct (afterPairs_rest pairs w2) as (_ & H2 & _).
    rewrite H2. reflexivity.
  - intros i pair Hi.
    pose proof (afterPairs_at pairs Hnodup w2 i pair Hi) as Hat.
    assert (Hlen : length (requests w2) = length (requests w) + 1).
    { unfold w2. cbn [requests]. rewrite <- Hworld. cbn [requests afterRequest].
      rewrite length_app. reflexivity. }
    rewrite Hlen in Hat.
    assert (Hsame : storage w1 = storage w) by (rewrite <- Hworld; reflexivity).
    change (MemStorage.orderBooks (storage w2)) with (MemStorage.orderBooks (storage w1)) in Hat.
    change (MemStorage.recentTrades (storage w2))
      with (MemStorage.recentTrades (storage w1)) in Hat.
    rewrite Hsame in Hat.
    exact Hat.
Qed.

(** [POST /api/refresh] once its bulk request has succeeded. *)
Lemma apiRefresh_returns (w w1 : World) (marketData : list MarketData.t) :
  getMultipleTickers POPULAR_PAIRS w = (Returns marketData, w1) ->
  exists w',
    apiRefresh w = (Returns (resJson BRefreshed), w') /\
    requests w'
    = requests w ++ Ticker (joinComma POPULAR_PAIRS) :: pairRequests POPULAR_PAIRS /\
    MemStorage.lastUpdated (storage w') = Some (now w') /\
    MemStorage.marketData (storage w') = marketData /\
    forall (i : nat) (pair : string),
      nth_error POPULAR_PAIRS i = Some pair ->
      match depthAnswer (length (requests w) + 1 + 2 * i) pair,
            tradesAnswer (length (requests w) + 1 + 2 * i) pair with
      | Returns book, Returns history =>
          MemStorage.orderBooks (storage w') !! pair = Some book /\
          MemStorage.recentTrades (storage w') !! pair = Some history
      | _, _ =>
          MemStorage.orderBooks (storage w') !! pair
          = MemStorage.orderBooks (storage w) !! pair /\
          MemStorage.recentTrades (storage w') !! pair
          = MemStorage.recentTrades (storage w) !! pair
      end.
Proof. exact (refresh_returns POPULAR_PAIRS POPULAR_PAIRS_NoDup w w1 marketData). Qed.

(** C6.  In [POST /api/refresh], a failure of the bulk ticker request
    aborts the cycle: the caller gets a 500 reply carrying that error, the
    store is untouched and no per-pair request is issued.  Once the bulk
    request has succeeded the caller gets the success reply, the depth and
    trades requests of all pairs are issued whatever their outcomes, and
    every pair whose two requests succeed has both records stored, so that
    a failure for one pair stops nothing for the others. *)
Theorem refresh_failure_handling (w : World) :
  match getMultipleTickers POPULAR_PAIRS w with
  | (Throws e, w1) =>
      apiRefresh w
      = (Returns {| statusCode := 500; body := BFailure "Failed to refresh data" e |}, w1) /\
      storage w1 = storage w /\
      requests w1 = requests w ++ [Ticker (joinComma POPULAR_PAIRS)]
  | (Returns marketData, _) =>
      exists w',
        apiRefresh w = (Returns {| statusCode := 200; body := BRefreshed |}, w') /\
        requests w'
        = requests w ++ Ticker (joinComma POPULAR_PAIRS) :: pairRequests POPULAR_PAIRS /\
        forall (i : nat) (pair : string) (book : OrderBook.t) (history : RecentTrades.t),
          nth_error POPULAR_PAIRS i = Some pair ->
          depthAnswer (length (requests w) + 1 + 2 * i) pair = Returns book ->
          tradesAnswer (length (requests w) + 1 + 2 * i) pair = Returns history ->
          MemStorage.orderBooks (storage w') !! pair = Some book /\
          MemStorage.recentTrades (storage w') !! pair = Some history
  end.
Proof.
  destruct (getMultipleTickers POPULAR_PAIRS w) as [[marketData|e] w1] eqn:Hbulk.
  - destruct (apiRefresh_returns w w1 marketData Hbulk) as (w' & Hrun & Hreq & _ & _ & Hat).
    exists w'. split; [exact Hrun|]. split; [exact Hreq|].
    intros i pair book history Hi Hbook Hhistory.
    specialize (Hat i pair Hi). now rewrite Hbook, Hhistory in Hat.
  - split; [|split].
    + unfold apiRefresh. now apply handler_throws.
    + rewrite getMultipleTickers_eq in Hbulk. now inversion Hbulk.
    + rewrite getMultipleTickers_eq in Hbulk. now inversion Hbulk.
Qed.

(** C10.  Whenever the bulk ticker request of [POST /api/refresh]
    succeeds, the handler reports success, stores the market data and sets
    [lastUpdated] to the time at which it finishes, whatever happens to the
    per-pair requests; and for every pair one of whose two requests failed,
    the order book and the trades that the store held for that pair before
    the refresh are still there, unchanged. *)
Theorem refresh_reports_success
    (w w1 : World) (marketData : list MarketData.t) :
  getMultipleTickers POPULAR_PAIRS w = (Returns marketData, w1) ->
  exists w',
    apiRefresh w = (Returns {| statusCode := 200; body := BRefreshed |}, w') /\
    MemStorage.marketData (storage w') = marketData /\
    MemStorage.lastUpdated (storage w') = Some (now w') /\
    forall (i : nat) (pair : string),
      nth_error POPULAR_PAIRS i = Some pair ->
      pairFailed (length (requests w) + 1 + 2 * i) pair ->
      MemStorage.orderBooks (storage w') !! pair = MemStorage.orderBooks (storage w) !! pair /\
      MemStorage.recentTrades (storage w') !! pair
      = MemStorage.recentTrades (storage w) !! pair.
Proof.
  intros Hbulk.
  destruct (apiRefresh_returns w w1 marketData Hbulk) as (w' & Hrun & _ & Hdate & Hmd & Hat).
  exists w'. split; [exact Hrun|]. split; [exact Hmd|]. split; [exact Hdate|].
  intros i pair Hi Hfailed. specialize (Hat i pair Hi).
  destruct Hfailed as [(e & He)|(e & He)]; rewrite He in Hat.
  - exact Hat.
  - now destruct (depthAnswer _ pair).
Qed.

(** ** An error envelope writes nothing *)

(** The body of [POST /api/refresh], over any list of pairs, never writes
    a ticker. *)
Lemma refresh_keeps_tickers (pairs : list string) (w : World) :
  MemStorage.tickerData
    (storage
       (snd (tryCatch
               (let* marketData := getMultipleTickers pairs in
                let* _ := storageSet (MemStorage.setMarketData marketData) in
                let* _ := forEach pairs refreshPair in
                let* date := newDate in
                let* _ := storageSet (MemStorage.setLastUpdated date) in
                ret (resJson BRefreshed))
               (fun error => ret (resFail "Failed to refresh data" error)) w)))
  = MemStorage.tickerData (storage w).
Proof.
  pose proof (getMultipleTickers_eq pairs w) as Hbulk.
  destruct (marketDataFrom pairs _) as [marketData|e].
  - unfold tryCatch, bind at 1. rewrite Hbulk.
    unfold bind at 1, storageSet at 1. unfold bind at 1. rewrite forEach_refreshPair.
    match goal with
    | |- context [afterPairs pairs ?w2] =>
        destruct (afterPairs_rest pairs w2) as (Htickers & _)
    end.
    unfold newDate, bind, storageSet, ret.
    cbn [fst snd storage MemStorage.tickerData MemStorage.setLastUpdated].
    rewrite Htickers. reflexivity.
  - now rewrite (handler_throws _ _ _ _ _ _ Hbulk).
Qed.

(** [POST /api/refresh] never writes a ticker. *)
Lemma apiRefresh_keeps_tickers (w : World) :
  MemStorage.tickerData (storage (snd (apiRefresh w))) = MemStorage.tickerData (storage w).
Proof. exact (refresh_keeps_tickers POPULAR_PAIRS w). Qed.

(** C5.  Whichever request the exchange answers with an envelope whose
    error list is not empty, [makeRequest] throws (the API error itself
    when the HTTP status is a success) and nothing is written for that
    request.  When it is the request of a read handler, the bulk request
    of the market-data handler, of the refresh or of the periodic cycle,
    the handler answers 500 (the cycle ends) and the store is exactly as
    it was.  When it is one of the two per-pair requests of the refresh,
    the step of that pair leaves the whole store as it was, and at the end
    of the refresh the order book and the trades of that pair, and all
    tickers, are those from before the refresh; what the refresh has
    written by then is the market data of its bulk request, the time of
    its completion, and the records of other pairs. *)
Theorem error_envelope_writes_nothing
    (w : World) (response : Response) (error : list string) (result : option JsObject)
    (pair : string) (count : option Z) :
  json response = Some (JEnvelope error result) ->
  error <> [] ->
  (forall ep,
      upstream (length (requests w)) ep = Some response ->
      exists e,
        fst (makeRequest ep w) = Throws e /\
        (ok response = true -> e = KrakenApiError error) /\
        storage (snd (makeRequest ep w)) = storage w) /\
  (forall handler ep,
      In (handler, ep)
         [(apiTicker pair, Ticker pair);
          (apiOrderBook pair count, Depth pair (countOr count 5));
          (apiTrades pair count, Trades pair (countOr count 100));
          (apiMarketData, Ticker (joinComma POPULAR_PAIRS));
          (apiRefresh, Ticker (joinComma POPULAR_PAIRS))] ->
      upstream (length (requests w)) ep = Some response ->
      exists reply,
        fst (handler w) = Returns reply /\
        statusCode reply = 500%Z /\
        storage (snd (handler w)) = storage w) /\
  (upstream (length (requests w)) (Ticker (joinComma POPULAR_PAIRS)) = Some response ->
   storage (snd (broadcastTick w)) = storage w) /\
  (upstream (length (requests w)) (Depth pair 10) = Some response \/
   upstream (S (length (requests w))) (Trades pair 50) = Some response ->
   fst (refreshPair pair w) = Returns tt /\
   storage (snd (refreshPair pair w)) = storage w) /\
  (forall (i : nat) (p : string) (marketData : list MarketData.t) (w1 : World),
      getMultipleTickers POPULAR_PAIRS w = (Returns marketData, w1) ->
      nth_error POPULAR_PAIRS i = Some p ->
      upstream (length (requests w) + 1 + 2 * i) (Depth p 10) = Some response \/
      upstream (S (length (requests w) + 1 + 2 * i)) (Trades p 50) = Some response ->
      exists w',
        apiRefresh w = (Returns {| statusCode := 200; body := BRefreshed |}, w') /\
        MemStorage.tickerData (storage w') = MemStorage.tickerData (storage w) /\
        MemStorage.orderBooks (storage w') !! p = MemStorage.orderBooks (storage w) !! p /\
        MemStorage.recentTrades (storage w') !! p
        = MemStorage.recentTrades (storage w) !! p /\
        MemStorage.marketData (storage w') = marketData /\
        MemStorage.lastUpdated (storage w') = Some (now w')).
Proof.
  intros Hjson Hne.
  destruct (resultOf_error_envelope response error result Hjson Hne) as (e & He & Hok).
  assert (Hone : forall {A : Type} (decode : option Entry -> Outcome A),
             decodeFirst decode (Some response) = Throws e).
  { intros A decode. unfold decodeFirst. now rewrite He. }
  assert (Hbulk : marketDataFrom POPULAR_PAIRS (Some response) = Throws e).
  { unfold marketDataFrom. now rewrite He. }
  split; [|split; [|split; [|split]]].
  - intros ep Hup. exists e. rewrite makeRequest_eq, Hup. auto.
  - intros handler ep Hin Hup. simpl in Hin.
    destruct Hin as [Heq|[Heq|[Heq|[Heq|[Heq|[]]]]]]; inversion Heq; subst handler ep;
      clear Heq.
    + unfold apiTicker. erewrite handler_throws;
        [|rewrite getTickerData_eq, Hup, Hone; reflexivity].
      eexists. repeat split.
    + unfold apiOrderBook. erewrite handler_throws;
        [|rewrite getOrderBook_eq, Hup, Hone; reflexivity].
      eexists. repeat split.
    + unfold apiTrades. erewrite handler_throws;
        [|rewrite getRecentTrades_eq, Hup, Hone; reflexivity].
      eexists. repeat split.
    + unfold apiMarketData. erewrite handler_throws;
        [|rewrite getMultipleTickers_eq, Hup, Hbulk; reflexivity].
      eexists. repeat split.
    + unfold apiRefresh. erewrite handler_throws;
        [|rewrite getMultipleTickers_eq, Hup, Hbulk; reflexivity].
      eexists. repeat split.
  - intros Hup. unfold broadcastTick, bind at 1, getClients.
    destruct (length (clients w) =? 0)%nat; [reflexivity|].
    erewrite tryCatch_throws.
    2: { apply bind_throws. rewrite getMultipleTickers_eq, Hup, Hbulk. reflexivity. }
    reflexivity.
  - intros Hup. rewrite refreshPair_eq. split; [reflexivity|].
    cbn [snd storage afterRefreshPair]. unfold refreshedStore, depthAnswer, tradesAnswer.
    destruct Hup as [Hup|Hup]; rewrite Hup, Hone; [reflexivity|].
    now destruct (decodeFirst (orderBookOf pair) _).
  - intros i p marketData w1 Hrun Hi Hup.
    destruct (apiRefresh_returns w w1 marketData Hrun)
      as (w' & Hreply & _ & Hdate & Hmd & Hat).
    exists w'. split; [exact Hreply|]. split.
    + pose proof (apiRefresh_keeps_tickers w) as Hkeep. now rewrite Hreply in Hkeep.
    + specialize (Hat i p Hi). unfold depthAnswer, tradesAnswer in Hat.
      assert (Hkept :
        MemStorage.orderBooks (storage w') !! p = MemStorage.orderBooks (storage w) !! p /\
        MemStorage.recentTrades (storage w') !! p
        = MemStorage.recentTrades (storage w) !! p).
      { destruct Hup as [Hup|Hup]; rewrite Hup, Hone in Hat; [exact Hat|].
        now destruct (decodeFirst (orderBookOf p) _). }
      destruct Hkept as (Hbook & Htrades). auto.
Qed.

(** ** The loops that only send *)

Lemma forEach_keeps {A T : Type} (f : World -> T) (body : A -> M unit) (xs : list A) :
  (forall x w, f (snd (body x w)) = f w) ->
  forall w, f (snd (forEach xs body w)) = f w.
Proof.
  intros Hbody. induction xs as [|x rest IH]; intros w; simpl; [reflexivity|].
  unfold bind. specialize (Hbody x w).
  destruct (body x w) as [[[]|e] w1]; simpl in *; [now rewrite IH | assumption].
Qed.

Lemma sendIfOpen_keeps (message : WebSocketMessage.t) (client : WebSocket) (w : World) :
  storage (snd (sendIfOpen message client w)) = storage w /\
  requests (snd (sendIfOpen message client w)) = requests w.
Proof. unfold sendIfOpen. now destruct (isOpen _). Qed.

(** The periodic broadcast never writes [lastUpdated]. *)
Lemma broadcastTick_keeps_lastUpdated (w : World) :
  MemStorage.lastUpdated (storage (snd (broadcastTick w)))
  = MemStorage.lastUpdated (storage w).
Proof.
  unfold broadcastTick, bind at 1, getClients.
  destruct (length (clients w) =? 0)%nat; [reflexivity|].
  unfold tryCatch, bind at 1. rewrite getMultipleTickers_eq.
  destruct (marketDataFrom _ _) as [marketData|e]; [|reflexivity].
  unfold bind at 1, storageSet at 1.
  match goal with
  | |- context [forEach marketData ?body ?w2] =>
      assert (Hkeep : MemStorage.lastUpdated (storage (snd (forEach marketData body w2)))
                      = MemStorage.lastUpdated (storage w2));
      [ apply (forEach_keeps (fun w => MemStorage.lastUpdated (storage w)));
        intros ticker w0; unfold bind, getClients;
        apply (forEach_keeps (fun w => MemStorage.lastUpdated (storage w)));
        intros client w4; now rewrite (proj1 (sendIfOpen_keeps _ client w4))
      | destruct (forEach marketData body w2) as [[[]|e'] w3];
        simpl in Hkeep |- *; rewrite Hkeep; reflexivity ]
  end.
Qed.

(** The initial push for one pair reads the store and sends; it issues no
    request, whether or not the store has an entry. *)
Lemma pushInitial_eq (ws : nat) (pair : string) (w : World) :
  pushInitial ws pair w = (Returns tt, afterPush ws w pair).
Proof.
  unfold pushInitial, tryCatch, bind, async, orElse, truthyPromise, storageGet,
    promiseAll3, await, bind, ret, readyStateOf, afterPush, initialMessages.
  fold (stateOf ws w). destruct (isOpen (stateOf ws w)); simpl.
  - now rewrite <- !app_assoc.
  - now rewrite app_nil_r; destruct w.
Qed.

Lemma forEach_pushInitial (ws : nat) (pairs : list string) (w : World) :
  forEach pairs (pushInitial ws) w = (Returns tt, fold_left (afterPush ws) pairs w).
Proof.
  revert w. induction pairs as [|pair rest IH]; intros w; simpl; [reflexivity|].
  unfold bind. rewrite pushInitial_eq. apply IH.
Qed.

Lemma afterPush_keeps (ws : nat) (pairs : list string) (w : World) :
  requests (fold_left (afterPush ws) pairs w) = requests w /\
  storage (fold_left (afterPush ws) pairs w) = storage w.
Proof.
  revert w. induction pairs as [|pair rest IH]; intros w; simpl; [auto|].
  destruct (IH (afterPush ws w pair)) as (H1 & H2). now rewrite H1, H2.
Qed.

(** No message of a client makes the server issue a request. *)
Lemma onMessage_never_fetches (ws : nat) (message : ClientMessage) (w : World) :
  requests (snd (onMessage ws message w)) = requests w /\
  storage (snd (onMessage ws message w)) = storage w.
Proof.
  unfold onMessage, tryCatch. destruct message as [|type pairs]; [auto|].
  destruct (String.eqb type "subscribe"); [|auto].
  rewrite forEach_pushInitial. apply afterPush_keeps.
Qed.

(** ** Further behaviour of the upstream client *)

(** [s.includes(needle)] holds exactly when [needle] occurs in [s]. *)
Lemma prefix_spec (p s : string) :
  String.prefix p s = true <-> exists post, s = (p ++ post)%string.
Proof.
  revert s. induction p as [|ch p IH]; intros s.
  - split; [intros _; now exists s | intros _; now destruct s].
  - destruct s as [|ch' s]; simpl.
    + split; [discriminate | intros (post & H); discriminate].
    + destruct (Ascii.ascii_dec ch ch') as [->|Hne].
      * rewrite IH. split; intros (post & H); exists post; [now rewrite H | now inversion H].
      * split; [discriminate | intros (post & H); inversion H; congruence].
Qed.

Lemma includes_spec (s needle : string) :
  includes s needle = true <-> exists pre post, s = (pre ++ needle ++ post)%string.
Proof.
  induction s as [|ch s IH].
  - change (includes "" needle) with (String.prefix needle "").
    rewrite prefix_spec. split.
    + intros (post & H). now exists "", post.
    + intros (pre & post & H). destruct pre; [now exists post|discriminate].
  - change (includes (String ch s) needle)
      with (String.prefix needle (String ch s) || includes s needle).
    rewrite orb_true_iff, prefix_spec, IH. split.
    + intros [(post & H)|(pre & post & H)].
      * now exists "", post.
      * exists (String ch pre), post. simpl. now rewrite H.
    + intros (pre & post & H). destruct pre as [|ch' pre]; simpl in H.
      * left. now exists post.
      * right. inversion H. now exists pre, post.
Qed.

(** X1.  [makeRequest] returns a result exactly when the exchange answers
    with a success status and an envelope whose error list is empty, and
    the result is then the envelope's; whatever the outcome, the call
    issues exactly one request and does not touch the store. *)
Theorem makeRequest_succeeds_iff (ep : Endpoint) (w : World) (result : option JsObject) :
  (fst (makeRequest ep w) = Returns result <->
   exists code, upstream (length (requests w)) ep
                = Some {| ok := true; status := code; json := Some (JEnvelope [] result) |}) /\
  requests (snd (makeRequest ep w)) = requests w ++ [ep] /\
  storage (snd (makeRequest ep w)) = storage w.
Proof.
  rewrite makeRequest_eq. simpl. split; [|split; reflexivity].
  unfold resultOf, decodeResponse. split.
  - destruct (upstream _ ep) as [[[] code [[|error result']|]]|]; simpl; try discriminate.
    destruct error; simpl; [|discriminate].
    intros H. inversion H. now exists code.
  - intros (code & ->). reflexivity.
Qed.

(** X2.  The checks of [makeRequest] are ordered: status, JSON, schema,
    error list.  A failure status throws the HTTP error whatever the body
    holds, be it no JSON at all, a document of another shape or a
    well-formed envelope with a result.  With a success status, a body
    that is not JSON throws the syntax error, a document of another shape
    the schema error, and an envelope with a non-empty error list the API
    error, whether or not the envelope also carries a result, which is
    then dropped. *)
Theorem makeRequest_precedence (ep : Endpoint) (w : World) (response : Response) :
  upstream (length (requests w)) ep = Some response ->
  (ok response = false -> fst (makeRequest ep w) = Throws (HttpError (status response))) /\
  (ok response = true ->
   (json response = None -> fst (makeRequest ep w) = Throws SyntaxError) /\
   (json response = Some JOther -> fst (makeRequest ep w) = Throws ZodError) /\
   (forall error result,
       json response = Some (JEnvelope error result) -> error <> [] ->
       fst (makeRequest ep w) = Throws (KrakenApiError error))).
Proof.
  intros Hup. rewrite makeRequest_eq, Hup. simpl. unfold decodeResponse. split.
  - intros ->. reflexivity.
  - intros ->. simpl. split; [|split].
    + intros ->. reflexivity.
    + intros ->. reflexivity.
    + intros error result -> Hne. destruct error; [contradiction | reflexivity].
Qed.

(** X3.  When the exchange answers with a success envelope whose result is
    missing, [null] or an object without keys, the three per-pair getters
    throw a [TypeError]; the bulk getter, asked for at least one pair whose
    first is no inherited name, throws a [TypeError] on a missing result
    and names the first requested pair on an empty one. *)
Theorem getters_without_entry
    (w : World) (code : Z) (result : option JsObject)
    (pair : string) (count : Z) (others : list string) :
  (forall ep, upstream (length (requests w)) ep
              = Some {| ok := true; status := code; json := Some (JEnvelope [] result) |}) ->
  result = None \/ result = Some [] ->
  fst (getTickerData pair w) = Throws TypeError /\
  fst (getOrderBook pair count w) = Throws TypeError /\
  fst (getRecentTrades pair count w) = Throws TypeError /\
  (inherited pair = false ->
   fst (getMultipleTickers (pair :: others) w)
   = Throws (match result with
             | None => TypeError
             | Some _ => NoDataFound pair
             end)).
Proof.
  intros Hup Hempty.
  rewrite getTickerData_eq, getOrderBook_eq, getRecentTrades_eq, getMultipleTickers_eq.
  rewrite !Hup. unfold decodeFirst, marketDataFrom. simpl.
  destruct Hempty as [->| ->]; simpl; repeat split.
  intros _. unfold marketDataOf, resolvePairKey, fuzzyFind. simpl.
  assert (Hnone : firstPresent [] (possibleKeys pair) = "").
  { induction (possibleKeys pair) as [|key rest IH]; [reflexivity | exact IH]. }
  rewrite Hnone. reflexivity.
Qed.

(** X4.  [getTickerData] never looks at the key under which the exchange
    filed the data: whatever the first key of the result is, and whatever
    follows it, the record is decoded from the first entry and carries the
    requested pair as its [pair], with the display name of that pair. *)
Theorem getTickerData_first_entry
    (pair key : string) (data : RawTicker.t) (others : JsObject) (code : Z) (w : World) :
  inherited pair = false ->
  upstream (length (requests w)) (Ticker pair)
  = Some {| ok := true; status := code;
            json := Some (JEnvelope [] (Some ((key, ETicker data) :: others))) |} ->
  exists t,
    fst (getTickerData pair w) = Returns t /\
    tickerOf pair (Some (ETicker data)) = Returns t /\
    TickerData.pair t = pair /\
    TickerData.name t = getPairDisplayName pair.
Proof.
  intros _ Hup. rewrite getTickerData_eq, Hup. unfold decodeFirst. simpl.
  unfold prop. simpl. rewrite String.eqb_refl. simpl.
  eexists. repeat split.
Qed.

(** X5.  [getOrderBook] keeps every level that the exchange returned, on
    both sides and in the exchange's order, whatever [count] was asked:
    [count] only goes into the request.  The record carries the requested
    pair, and when both sides have a level its [spread] is the first ask
    price minus the first bid price. *)
Theorem getOrderBook_levels
    (pair key : string) (count code : Z) (data : RawDepth.t) (others : JsObject) (w : World) :
  upstream (length (requests w)) (Depth pair count)
  = Some {| ok := true; status := code;
            json := Some (JEnvelope [] (Some ((key, EDepth data) :: others))) |} ->
  exists book,
    fst (getOrderBook pair count w) = Returns book /\
    requests (snd (getOrderBook pair count w)) = requests w ++ [Depth pair count] /\
    OrderBook.pair book = pair /\
    OrderBook.asks book = map levelOf (RawDepth.asks data) /\
    OrderBook.bids book = map levelOf (RawDepth.bids data) /\
    length (OrderBook.asks book) = length (RawDepth.asks data) /\
    length (OrderBook.bids book) = length (RawDepth.bids data) /\
    (forall a arest b brest,
        OrderBook.asks book = a :: arest -> OrderBook.bids book = b :: brest ->
        OrderBook.spread book = (OrderBookEntry.price a - OrderBookEntry.price b)%float).
Proof.
  intros Hup. rewrite getOrderBook_eq, Hup. unfold decodeFirst. simpl.
  unfold prop. simpl. rewrite String.eqb_refl. simpl.
  eexists. split; [reflexivity|]. simpl.
  rewrite !length_map. do 6 (split; [reflexivity|]).
  intros a arest b brest -> ->. reflexivity.
Qed.

(** X6.  [getRecentTrades] returns one trade per trade of the exchange, in
    the same order, under the requested pair; a trade is a [buy] exactly
    when its side letter is ["b"], and every other letter makes it a
    [sell]. *)
Theorem getRecentTrades_trades
    (pair key : string) (count code : Z) (raw : list RawTrade.t) (others : JsObject)
    (w : World) :
  upstream (length (requests w)) (Trades pair count)
  = Some {| ok := true; status := code;
            json := Some (JEnvelope [] (Some ((key, ETrades raw) :: others))) |} ->
  exists history,
    fst (getRecentTrades pair count w) = Returns history /\
    RecentTrades.pair history = pair /\
    length (RecentTrades.trades history) = length raw /\
    forall (i : nat) (r : RawTrade.t),
      nth_error raw i = Some r ->
      exists trade,
        nth_error (RecentTrades.trades history) i = Some trade /\
        Trade.price trade = parseFloat (RawTrade.price r) /\
        Trade.volume trade = parseFloat (RawTrade.volume r) /\
        Trade.time trade = RawTrade.time r /\
        (Trade.side trade = buy <-> RawTrade.side r = "b") /\
        (Trade.side trade = sell <-> RawTrade.side r <> "b").
Proof.
  intros Hup. rewrite getRecentTrades_eq, Hup. unfold decodeFirst. simpl.
  unfold prop. simpl. rewrite String.eqb_refl. simpl.
  eexists. split; [reflexivity|]. simpl. split; [reflexivity|].
  split; [apply length_map|].
  intros i r Hi. exists (tradeOf r). split; [now apply map_nth_error|].
  unfold tradeOf. simpl. do 3 (split; [reflexivity|]).
  destruct (String.eqb_spec (RawTrade.side r) "b") as [Hb|Hb]; split; split;
    intros H; try reflexivity; try discriminate; congruence.
Qed.

Lemma mapOutcome_throws {A B : Type} (f : A -> Outcome B)
    (before : list A) (x : A) (after : list A) (e : Error) :
  Forall (fun y => exists r, f y = Returns r) before ->
  f x = Throws e ->
  mapOutcome f (before ++ x :: after) = Throws e.
Proof.
  intros Hbefore Hx. induction Hbefore as [|y rest (r & Hy) _ IH]; simpl.
  - now rewrite Hx.
  - now rewrite Hy, IH.
Qed.

(** X7.  [getMultipleTickers] is all or nothing: when the pairs before
    [pair] resolve and [pair] has no key in the result, neither through
    its aliases nor through the fuzzy search, the call throws the error
    naming [pair] and returns no record, whatever the later pairs would
    give (none of the pairs up to [pair] being an inherited name).  For the popular pairs this makes [GET /api/market-data] answer
    500 with that error and store nothing. *)
Theorem getMultipleTickers_fails_fast
    (before : list string) (pair : string) (after : list string)
    (code : Z) (result : JsObject) (w : World) :
  forallb (fun p => negb (inherited p)) (before ++ [pair]) = true ->
  upstream (length (requests w)) (Ticker (joinComma (before ++ pair :: after)))
  = Some {| ok := true; status := code; json := Some (JEnvelope [] (Some result)) |} ->
  Forall (fun p => exists r, marketDataOf (Some result) p = Returns r) before ->
  resolvePairKey result pair = "" ->
  fst (getMultipleTickers (before ++ pair :: after) w) = Throws (NoDataFound pair) /\
  (before ++ pair :: after = POPULAR_PAIRS ->
   fst (apiMarketData w)
   = Returns {| statusCode := 500;
                body := BFailure "Failed to fetch market data" (NoDataFound pair) |} /\
   storage (snd (apiMarketData w)) = storage w).
Proof.
  intros _ Hup Hbefore Hnone.
  assert (Hpair : marketDataOf (Some result) pair = Throws (NoDataFound pair)).
  { unfold marketDataOf. now rewrite Hnone. }
  assert (Hthrows : getMultipleTickers (before ++ pair :: after) w
                    = (Throws (NoDataFound pair),
                       afterRequest (Ticker (joinComma (before ++ pair :: after))) w)).
  { rewrite getMultipleTickers_eq, Hup. unfold marketDataFrom. simpl.
    now rewrite (mapOutcome_throws _ before pair after _ Hbefore Hpair). }
  split; [now rewrite Hthrows|].
  intros Hall. rewrite Hall in Hthrows. unfold apiMarketData.
  rewrite (handler_throws _ _ _ _ _ _ Hthrows). split; reflexivity.
Qed.

(** X8.  Asked for no pair at all, [getMultipleTickers] still issues its
    request, with an empty pair list, and returns the empty list as soon
    as the envelope is a success, even when its result is [null]. *)
Theorem getMultipleTickers_no_pairs (code : Z) (result : option JsObject) (w : World) :
  upstream (length (requests w)) (Ticker "")
  = Some {| ok := true; status := code; json := Some (JEnvelope [] result) |} ->
  fst (getMultipleTickers [] w) = Returns [] /\
  requests (snd (getMultipleTickers [] w)) = requests w ++ [Ticker ""].
Proof.
  intros Hup. rewrite getMultipleTickers_eq. simpl.
  change (joinComma []) with "". now rewrite Hup.
Qed.

(** ** The fuzzy fallback *)

Lemma fuzzyMatch_spec (pair key : string) :
  fuzzyMatch pair key = true <-> fuzzyMatches pair key.
Proof.
  unfold fuzzyMatch, fuzzyMatches, occursIn. now rewrite orb_true_iff, !includes_spec.
Qed.

Lemma find_first {A : Type} (f : A -> bool) (xs : list A) :
  match List.find f xs with
  | Some x => exists before after,
                xs = before ++ x :: after /\ f x = true /\
                Forall (fun y => f y = false) before
  | None => Forall (fun y => f y = false) xs
  end.
Proof.
  induction xs as [|x rest IH]; simpl; [constructor|].
  destruct (f x) eqn:Hx.
  - exists [], rest. repeat split; [assumption | constructor].
  - destruct (List.find f rest) as [y|].
    + destruct IH as (before & after & -> & Hy & Hall).
      exists (x :: before), after. repeat split; [assumption | now constructor].
    + now constructor.
Qed.

Lemma firstPresent_none (result : JsObject) (ks : list string) :
  Forall (fun key => propTruthy result key = false) ks -> firstPresent result ks = "".
Proof.
  induction 1 as [|key rest Hkey _ IH]; simpl; [reflexivity | now rewrite Hkey].
Qed.

(** X10.  When no alias of the pair (which is no inherited name) is a
    key of the result, the pair resolves through the fuzzy search: to the first key of the result, in
    the result's order, in which the pair occurs, either as it is or once
    [X], [Z] and [/] are dropped from the pair and [X] and [Z] from the
    key; and to no key at all when there is no such key. *)
Theorem resolvePairKey_fuzzy (result : JsObject) (pair : string) :
  inherited pair = false ->
  Forall (fun key => propTruthy result key = false) (possibleKeys pair) ->
  match List.find (fuzzyMatch pair) (keys result) with
  | Some key =>
      resolvePairKey result pair = key /\
      exists before after,
        keys result = before ++ key :: after /\
        fuzzyMatches pair key /\
        Forall (fun k => ~ fuzzyMatches pair k) before
  | None =>
      resolvePairKey result pair = "" /\
      Forall (fun k => ~ fuzzyMatches pair k) (keys result)
  end.
Proof.
  intros _ Hnone. unfold resolvePairKey, fuzzyFind.
  rewrite (firstPresent_none _ _ Hnone). simpl.
  assert (Hneg : forall ks, Forall (fun k => fuzzyMatch pair k = false) ks ->
                            Forall (fun k => ~ fuzzyMatches pair k) ks).
  { intros ks Hks. eapply List.Forall_impl; [|exact Hks].
    intros k Hk Hm. apply fuzzyMatch_spec in Hm. congruence. }
  pose proof (find_first (fuzzyMatch pair) (keys result)) as Hfind.
  destruct (List.find (fuzzyMatch pair) (keys result)) as [key|].
  - destruct Hfind as (before & after & Hkeys & Hkey & Hall).
    split; [reflexivity|]. exists before, after.
    split; [exact Hkeys|]. split; [now apply fuzzyMatch_spec | now apply Hneg].
  - split; [reflexivity | now apply Hneg].
Qed.

Lemma table_pairs_have_letters (pair : string) (ks : list string) :
  tableGet krakenPairMap pair = Some ks -> removeChars isXZSlash pair <> "".
Proof.
  cbv [krakenPairMap tableGet].
  repeat match goal with
         | |- context [String.eqb ?k pair] =>
             destruct (String.eqb_spec k pair) as [<-|_]; [intros _; vm_compute; discriminate|]
         end.
  discriminate.
Qed.

Lemma includes_empty (s : string) : includes s "" = true.
Proof. apply includes_spec. now exists "", s. Qed.

(** X9.  A requested pair made only of [X], [Z] and [/] (the empty pair
    among them) that is not itself a key matches every key in the fuzzy
    search: it resolves to the first key of the result, and the record
    built for it carries the requested pair with the data of that first
    entry. *)
Theorem resolvePairKey_wildcard
    (pair key : string) (data : RawTicker.t) (others : JsObject) :
  removeChars isXZSlash pair = "" ->
  key <> "" ->
  key <> pair ->
  propTruthy others pair = false ->
  resolvePairKey ((key, ETicker data) :: others) pair = key /\
  exists r,
    marketDataOf (Some ((key, ETicker data) :: others)) pair = Returns r /\
    MarketData.pair r = pair /\
    MarketData.bid r = parseFloatAt (RawTicker.b data) 0 /\
    MarketData.ask r = parseFloatAt (RawTicker.a data) 0.
Proof.
  intros Hstrip Hkey Hne Habsent.
  assert (Hkeys : possibleKeys pair = [pair]).
  { unfold possibleKeys. destruct (tableGet krakenPairMap pair) as [ks|] eqn:Htable;
      [|reflexivity].
    now apply table_pairs_have_letters in Htable. }
  assert (Hpair : propTruthy ((key, ETicker data) :: others) pair = false).
  { unfold propTruthy, prop in *. simpl.
    destruct (String.eqb_spec key pair); [contradiction | exact Habsent]. }
  assert (Hres : resolvePairKey ((key, ETicker data) :: others) pair = key).
  { unfold resolvePairKey, fuzzyFind. rewrite Hkeys. simpl. rewrite Hpair. simpl.
    unfold fuzzyMatch. now rewrite Hstrip, includes_empty. }
  split; [exact Hres|].
  unfold marketDataOf. rewrite Hres.
  rewrite (isEmpty_false key Hkey).
  unfold propTruthy, prop. simpl. rewrite String.eqb_refl. simpl.
  eexists. repeat split.
Qed.

(** ** Further behaviour of the request handlers *)

Lemma handler_returns {A : Type} (m : M A) (write : A -> MemStorage.t -> MemStorage.t)
    (reply : A -> ReplyBody) (text : string) (w w' : World) (x : A) :
  m w = (Returns x, w') ->
  tryCatch
    (let* data := m in
     let* _ := storageSet (write data) in
     ret (resJson (reply data)))
    (fun error => ret (resFail text error)) w
  = (Returns (resJson (reply x)), withStorage (write x) w').
Proof.
  intros H. unfold tryCatch, bind at 1. rewrite H. reflexivity.
Qed.

(** X11.  Each of the three per-pair read handlers issues exactly one
    request and is atomic on the store: either it answers 200 with the
    record and the store is the old one with that record written under the
    pair, or it answers 500 with its error text and the store is exactly
    the old one.  The order-book and trades handlers ask the exchange for
    5 and 100 entries when [count] is missing, not a number or zero. *)
Theorem single_pair_handlers_atomic (pair : string) (count : option Z) (w : World) :
  (requests (snd (apiTicker pair w)) = requests w ++ [Ticker pair] /\
   ((exists d,
        fst (apiTicker pair w) = Returns {| statusCode := 200; body := BTicker d |} /\
        storage (snd (apiTicker pair w)) = MemStorage.setTickerData pair d (storage w)) \/
    (exists e,
        fst (apiTicker pair w)
        = Returns {| statusCode := 500; body := BFailure "Failed to fetch ticker data" e |} /\
        storage (snd (apiTicker pair w)) = storage w))) /\
  (requests (snd (apiOrderBook pair count w))
   = requests w ++ [Depth pair (countOr count 5)] /\
   ((exists d,
        fst (apiOrderBook pair count w)
        = Returns {| statusCode := 200; body := BOrderBook d |} /\
        storage (snd (apiOrderBook pair count w))
        = MemStorage.setOrderBook pair d (storage w)) \/
    (exists e,
        fst (apiOrderBook pair count w)
        = Returns {| statusCode := 500; body := BFailure "Failed to fetch order book" e |} /\
        storage (snd (apiOrderBook pair count w)) = storage w))) /\
  (requests (snd (apiTrades pair count w))
   = requests w ++ [Trades pair (countOr count 100)] /\
   ((exists d,
        fst (apiTrades pair count w) = Returns {| statusCode := 200; body := BTrades d |} /\
        storage (snd (apiTrades pair count w))
        = MemStorage.setRecentTrades pair d (storage w)) \/
    (exists e,
        fst (apiTrades pair count w)
        = Returns {| statusCode := 500;
                     body := BFailure "Failed to fetch recent trades" e |} /\
        storage (snd (apiTrades pair count w)) = storage w))) /\
  countOr None 5 = 5%Z /\ countOr (Some 0%Z) 5 = 5%Z /\
  countOr None 100 = 100%Z /\ countOr (Some 0%Z) 100 = 100%Z.
Proof.
  split; [|split; [|split; [|repeat split]]].
  - pose proof (getTickerData_eq pair w) as Hget.
    destruct (decodeFirst (tickerOf pair) _) as [d|e].
    + unfold apiTicker.
      rewrite (handler_returns _ (MemStorage.setTickerData pair) BTicker _ _ _ _ Hget).
      split; [reflexivity|]. left. exists d. split; reflexivity.
    + unfold apiTicker. rewrite (handler_throws _ _ _ _ _ _ Hget).
      split; [reflexivity|]. right. exists e. split; reflexivity.
  - pose proof (getOrderBook_eq pair (countOr count 5) w) as Hget.
    destruct (decodeFirst (orderBookOf pair) _) as [d|e].
    + unfold apiOrderBook.
      rewrite (handler_returns _ (MemStorage.setOrderBook pair) BOrderBook _ _ _ _ Hget).
      split; [reflexivity|]. left. exists d. split; reflexivity.
    + unfold apiOrderBook. rewrite (handler_throws _ _ _ _ _ _ Hget).
      split; [reflexivity|]. right. exists e. split; reflexivity.
  - pose proof (getRecentTrades_eq pair (countOr count 100) w) as Hget.
    destruct (decodeFirst (recentTradesOf pair) _) as [d|e].
    + unfold apiTrades.
      rewrite (handler_returns _ (MemStorage.setRecentTrades pair) BTrades _ _ _ _ Hget).
      split; [reflexivity|]. left. exists d. split; reflexivity.
    + unfold apiTrades. rewrite (handler_throws _ _ _ _ _ _ Hget).
      split; [reflexivity|]. right. exists e. split; reflexivity.
Qed.

(** [GET /api/market-data] once its request has been answered. *)
Lemma apiMarketData_eq (w : World) :
  apiMarketData w
  = match marketDataFrom POPULAR_PAIRS
            (upstream (length (requests w)) (Ticker (joinComma POPULAR_PAIRS))) with
    | Returns d =>
        (Returns (resJson (BMarketData d)),
         withStorage
           (fun s => MemStorage.setLastUpdated
                       (now w + latency (length (requests w)))%Z
                       (MemStorage.setMarketData d s))
           (afterRequest (Ticker (joinComma POPULAR_PAIRS)) w))
    | Throws e =>
        (Returns (resFail "Failed to fetch market data" e),
         afterRequest (Ticker (joinComma POPULAR_PAIRS)) w)
    end.
Proof.
  pose proof (getMultipleTickers_eq POPULAR_PAIRS w) as Hget.
  destruct (marketDataFrom POPULAR_PAIRS _) as [d|e].
  - unfold apiMarketData, tryCatch, bind at 1. rewrite Hget. reflexivity.
  - unfold apiMarketData. now rewrite (handler_throws _ _ _ _ _ _ Hget).
Qed.

Lemma marketDataFrom_pairs (pairs : list string) (answer : option Response)
    (d : list MarketData.t) :
  marketDataFrom pairs answer = Returns d -> map MarketData.pair d = pairs.
Proof.
  unfold marketDataFrom. destruct (resultOf answer) as [result|e]; [|discriminate].
  intros H. apply mapOutcome_returns in H.
  induction H as [|p r ps rs Hr _ IH]; simpl; [reflexivity|].
  destruct (marketDataOf_returns _ _ _ Hr) as (Hp & _). now rewrite Hp, IH.
Qed.

(** X12.  [GET /api/market-data] issues exactly one request, for the
    eight popular pairs joined by commas.  Either it answers 200 with one
    record per popular pair in the order of the list, stores exactly that
    list as the market data and sets [lastUpdated] to the time at which
    the answer arrived, leaving the three keyed maps alone; or it answers
    500 and the store is exactly the old one. *)
Theorem apiMarketData_outcome (w : World) :
  requests (snd (apiMarketData w))
  = requests w ++ [Ticker "XBTUSD,ETHUSD,ADAUSD,DOTUSD,SOLUSD,MATICUSD,LINKUSD,UNIUSD"] /\
  ((exists d,
       fst (apiMarketData w) = Returns {| statusCode := 200; body := BMarketData d |} /\
       map MarketData.pair d = POPULAR_PAIRS /\
       storage (snd (apiMarketData w))
       = MemStorage.setLastUpdated (now (snd (apiMarketData w)))
           (MemStorage.setMarketData d (storage w))) \/
   (exists e,
       fst (apiMarketData w)
       = Returns {| statusCode := 500; body := BFailure "Failed to fetch market data" e |} /\
       storage (snd (apiMarketData w)) = storage w)).
Proof.
  rewrite apiMarketData_eq.
  destruct (marketDataFrom POPULAR_PAIRS _) as [d|e] eqn:Hd.
  - split; [reflexivity|]. left. exists d. split; [reflexivity|].
    split; [now apply marketDataFrom_pairs in Hd | reflexivity].
  - split; [reflexivity|]. right. exists e. split; reflexivity.
Qed.

(** ** The fan-out channel *)

Lemma afterPush_sent (ws : nat) (pairs : list string) (w : World) :
  fold_left (afterPush ws) pairs w
  = {| storage := storage w; requests := requests w; now := now w; clients := clients w;
       sent := sent w ++ (if isOpen (stateOf ws w)
                          then flat_map (initialMessages ws (storage w)) pairs else []) |}.
Proof.
  revert w. induction pairs as [|pair rest IH]; intros w.
  - simpl. destruct (isOpen _); rewrite app_nil_r; now destruct w.
  - simpl fold_left. rewrite IH. unfold afterPush at 1 2 3 4 5. simpl.
    change (stateOf ws (afterPush ws w pair)) with (stateOf ws w).
    destruct (isOpen (stateOf ws w)); simpl; now rewrite <- ?app_assoc.
Qed.

(** X13.  A client's message never makes the server do anything but send
    on that client's connection: the store, the request log and the clock
    are as before.  A [subscribe] message on an open connection is
    answered by exactly three messages per requested pair (ticker, order
    book, trades, in that order, pair after pair, for the popular pairs
    when the message names none), each carrying what the store holds for
    the pair; on a connection that is not open, and for any other message,
    nothing is sent. *)
Theorem onMessage_pushes (ws : nat) (message : ClientMessage) (w : World) :
  onMessage ws message w
  = (Returns tt,
     {| storage := storage w; requests := requests w; now := now w; clients := clients w;
        sent := sent w ++ pushes ws message w |}) /\
  length (pushes ws message w)
  = match message with
    | Malformed => 0
    | Message type pairs =>
        if String.eqb type "subscribe" && isOpen (stateOf ws w)
        then 3 * length (subscribedPairs pairs) else 0
    end.
Proof.
  split.
  - unfold onMessage, tryCatch, pushes. destruct message as [|type pairs].
    + unfold throw, ret. rewrite app_nil_r. now destruct w.
    + destruct (String.eqb type "subscribe"); simpl.
      * fold (subscribedPairs pairs). rewrite forEach_pushInitial, afterPush_sent.
        reflexivity.
      * unfold ret. rewrite app_nil_r. now destruct w.
  - unfold pushes. destruct message as [|type pairs]; [reflexivity|].
    destruct (String.eqb type "subscribe" && isOpen (stateOf ws w)); [|reflexivity].
    induction (subscribedPairs pairs) as [|pair rest IH]; [reflexivity|].
    simpl. rewrite IH. lia.
Qed.

Lemma forEach_sendIfOpen (message : WebSocketMessage.t) (cs : list WebSocket) (w : World) :
  forEach cs (sendIfOpen message) w
  = (Returns tt,
     {| storage := storage w; requests := requests w; now := now w; clients := clients w;
        sent := sent w ++ map (fun client => (wsId client, message))
                              (List.filter (fun client => isOpen (readyState client)) cs) |}).
Proof.
  revert w. induction cs as [|c rest IH]; intros w.
  - simpl. unfold ret. rewrite app_nil_r. now destruct w.
  - simpl forEach. unfold bind, sendIfOpen at 1. simpl List.filter.
    destruct (isOpen (readyState c)).
    + unfold send. rewrite IH. simpl. now rewrite <- app_assoc.
    + unfold ret. now rewrite IH.
Qed.

Lemma forEach_broadcast (marketData : list MarketData.t) (w : World) :
  forEach marketData
    (fun ticker =>
       let message := {| WebSocketMessage.type := MessageType.ticker;
                         WebSocketMessage.pair := MarketData.pair ticker;
                         WebSocketMessage.data := DMarket ticker |} in
       let* cs := getClients in
       forEach cs (sendIfOpen message)) w
  = (Returns tt,
     {| storage := storage w; requests := requests w; now := now w; clients := clients w;
        sent := sent w ++ fanOut (clients w) marketData |}).
Proof.
  revert w. induction marketData as [|ticker rest IH]; intros w.
  - simpl. unfold ret. rewrite app_nil_r. now destruct w.
  - simpl forEach. unfold bind at 1. unfold bind at 1, getClients at 1.
    rewrite forEach_sendIfOpen. rewrite IH. simpl.
    now rewrite <- app_assoc.
Qed.

Lemma broadcastTick_eq (w : World) :
  clients w <> [] ->
  broadcastTick w
  = match marketDataFrom POPULAR_PAIRS
            (upstream (length (requests w)) (Ticker (joinComma POPULAR_PAIRS))) with
    | Returns marketData =>
        (Returns tt,
         {| storage := MemStorage.setMarketData marketData (storage w);
            requests := requests w ++ [Ticker (joinComma POPULAR_PAIRS)];
            now := (now w + latency (length (requests w)))%Z;
            clients := clients w;
            sent := sent w ++ fanOut (clients w) marketData |})
    | Throws e => (Returns tt, afterRequest (Ticker (joinComma POPULAR_PAIRS)) w)
    end.
Proof.
  intros Hsome. unfold broadcastTick. unfold bind at 1. unfold getClients at 1.
  assert (Hlen : (length (clients w) =? 0)%nat = false)
    by (destruct (clients w); [contradiction | reflexivity]).
  rewrite Hlen. unfold tryCatch. unfold bind at 1. rewrite getMultipleTickers_eq.
  destruct (marketDataFrom POPULAR_PAIRS _) as [marketData|e]; [|reflexivity].
  unfold bind at 1, storageSet at 1. rewrite forEach_broadcast. reflexivity.
Qed.

Lemma fanOut_length (connected : list WebSocket) (marketData : list MarketData.t) :
  length (fanOut connected marketData)
  = length marketData
    * length (List.filter (fun client => isOpen (readyState client)) connected).
Proof.
  unfold fanOut. induction marketData as [|ticker rest IH]; [reflexivity|].
  simpl. rewrite length_app, length_map, IH. reflexivity.
Qed.

(** X14.  When the timer fires with a non-empty set of connections, the
    cycle issues exactly one request.  If the bulk fetch succeeds, the
    cycle replaces the market data and nothing else in the store, and
    sends, record after record in the order of the popular pairs, one
    ticker message to every connection that is open, whatever that
    connection subscribed to, and none to the others; if the bulk fetch
    fails, the store is untouched and nothing is sent. *)
Theorem broadcastTick_fans_out (w : World) :
  clients w <> [] ->
  match marketDataFrom POPULAR_PAIRS
          (upstream (length (requests w)) (Ticker (joinComma POPULAR_PAIRS))) with
  | Returns marketData =>
      broadcastTick w
      = (Returns tt,
         {| storage := MemStorage.setMarketData marketData (storage w);
            requests := requests w ++ [Ticker (joinComma POPULAR_PAIRS)];
            now := (now w + latency (length (requests w)))%Z;
            clients := clients w;
            sent := sent w ++ fanOut (clients w) marketData |}) /\
      map MarketData.pair marketData = POPULAR_PAIRS /\
      length (fanOut (clients w) marketData) = 8 * length (openClients w)
  | Throws e =>
      broadcastTick w = (Returns tt, afterRequest (Ticker (joinComma POPULAR_PAIRS)) w)
  end.
Proof.
  intros Hsome. rewrite (broadcastTick_eq w Hsome).
  destruct (marketDataFrom POPULAR_PAIRS _) as [marketData|e] eqn:Hmd; [|reflexivity].
  split; [reflexivity|].
  apply marketDataFrom_pairs in Hmd. split; [exact Hmd|].
  rewrite fanOut_length. unfold openClients.
  rewrite <- (length_map MarketData.pair marketData), Hmd. reflexivity.
Qed.

(** ** Cached reads *)

(** X15.  A cached read is read-only: whatever the type and the pair, the
    handler returns a reply and leaves the whole process as it was, with
    no request to the exchange, no write to the store and nothing sent.
    It never answers 500: a type other than the four known ones is
    refused with 400, and so are an order-book and a trades read without a
    pair, while a ticker read without a pair lists all tickers. *)
Theorem apiCached_reads_only (type : string) (pair : option string) (w : World) :
  snd (apiCached type pair w) = w /\
  (exists reply,
      fst (apiCached type pair w) = Returns reply /\
      (cachedStatus reply = 200%Z \/ cachedStatus reply = 400%Z) /\
      (cachedStatus reply = 400%Z <->
       (type <> "ticker" /\ type <> "orderbook" /\ type <> "trades" /\ type <> "market-data") \/
       ((type = "orderbook" \/ type = "trades") /\ givenPair pair = None))) /\
  (givenPair pair = None ->
   fst (apiCached "ticker" pair w)
   = Returns {| cachedStatus := 200;
                cachedBody := CAllTickers (getAllTickerData (storage w)) |}).
Proof.
  unfold apiCached, tryCatch.
  split; [|split].
  - destruct (String.eqb type "ticker"); [destruct (givenPair pair); reflexivity|].
    destruct (String.eqb type "orderbook"); [destruct (givenPair pair); reflexivity|].
    destruct (String.eqb type "trades"); [destruct (givenPair pair); reflexivity|].
    destruct (String.eqb type "market-data"); reflexivity.
  - destruct (String.eqb_spec type "ticker") as [->|H1].
    { destruct (givenPair pair); eexists; (split; [reflexivity|]); simpl;
        (split; [now left|]); (split; [discriminate|]);
        intros [(H & _)|([H|H] & _)]; congruence. }
    destruct (String.eqb_spec type "orderbook") as [->|H2].
    { destruct (givenPair pair); eexists; (split; [reflexivity|]); simpl.
      - split; [now left|]. split; [discriminate|].
        intros [(_ & H & _)|(_ & H)]; congruence.
      - split; [now right|]. split; [|reflexivity]. intros _. right. auto. }
    destruct (String.eqb_spec type "trades") as [->|H3].
    { destruct (givenPair pair); eexists; (split; [reflexivity|]); simpl.
      - split; [now left|]. split; [discriminate|].
        intros [(_ & _ & H & _)|(_ & H)]; congruence.
      - split; [now right|]. split; [|reflexivity]. intros _. right. auto. }
    destruct (String.eqb_spec type "market-data") as [->|H4].
    { eexists. split; [reflexivity|]. simpl. split; [now left|]. split; [discriminate|].
      intros [(_ & _ & _ & H)|([H|H] & _)]; congruence. }
    eexists. split; [reflexivity|]. simpl. split; [now right|].
    split; [|reflexivity]. intros _. left. auto.
  - intros Hnone. simpl. now rewrite Hnone.
Qed.

(** X16.  What a read handler has just fetched, a cached read gives back
    without asking the exchange again: after a 200 answer of the ticker,
    order-book or trades handler for a pair, the cached read of that type
    and pair answers the same record, and after a 200 answer of the
    market-data handler the cached market data is the same list, with the
    time of that fetch as [lastUpdated]. *)
Theorem cached_read_back (pair : string) (count : option Z) (w : World) :
  pair <> "" ->
  (forall d w',
      apiTicker pair w = (Returns (resJson (BTicker d)), w') ->
      apiCached "ticker" (Some pair) w'
      = (Returns {| cachedStatus := 200; cachedBody := CTicker (Some d) |}, w')) /\
  (forall d w',
      apiOrderBook pair count w = (Returns (resJson (BOrderBook d)), w') ->
      apiCached "orderbook" (Some pair) w'
      = (Returns {| cachedStatus := 200; cachedBody := COrderBook (Some d) |}, w')) /\
  (forall d w',
      apiTrades pair count w = (Returns (resJson (BTrades d)), w') ->
      apiCached "trades" (Some pair) w'
      = (Returns {| cachedStatus := 200; cachedBody := CTrades (Some d) |}, w')) /\
  (forall d w',
      apiMarketData w = (Returns (resJson (BMarketData d)), w') ->
      apiCached "market-data" None w'
      = (Returns {| cachedStatus := 200; cachedBody := CMarketData d (Some (now w')) |}, w')).
Proof.
  intros Hpair.
  assert (Hgiven : givenPair (Some pair) = Some pair).
  { unfold givenPair. now rewrite (isEmpty_false pair Hpair). }
  split; [|split; [|split]].
  - intros d w' Hrun.
    pose proof (getTickerData_eq pair w) as Hget.
    destruct (decodeFirst (tickerOf pair) _) as [d'|e].
    + unfold apiTicker in Hrun.
      rewrite (handler_returns _ (MemStorage.setTickerData pair) BTicker _ _ _ _ Hget) in Hrun.
      inversion Hrun; subst. unfold apiCached, tryCatch. simpl String.eqb. cbv iota.
      rewrite Hgiven. unfold bind, storageGet, ret, MemStorage.getTickerData. simpl.
      now rewrite lookup_insert_eq.
    + unfold apiTicker in Hrun. rewrite (handler_throws _ _ _ _ _ _ Hget) in Hrun.
      discriminate.
  - intros d w' Hrun.
    pose proof (getOrderBook_eq pair (countOr count 5) w) as Hget.
    destruct (decodeFirst (orderBookOf pair) _) as [d'|e].
    + unfold apiOrderBook in Hrun.
      rewrite (handler_returns _ (MemStorage.setOrderBook pair) BOrderBook _ _ _ _ Hget)
        in Hrun.
      inversion Hrun; subst. unfold apiCached, tryCatch. simpl String.eqb. cbv iota.
      rewrite Hgiven. unfold bind, storageGet, ret, MemStorage.getOrderBook. simpl.
      now rewrite lookup_insert_eq.
    + unfold apiOrderBook in Hrun. rewrite (handler_throws _ _ _ _ _ _ Hget) in Hrun.
      discriminate.
  - intros d w' Hrun.
    pose proof (getRecentTrades_eq pair (countOr count 100) w) as Hget.
    destruct (decodeFirst (recentTradesOf pair) _) as [d'|e].
    + unfold apiTrades in Hrun.
      rewrite (handler_returns _ (MemStorage.setRecentTrades pair) BTrades _ _ _ _ Hget)
        in Hrun.
      inversion Hrun; subst. unfold apiCached, tryCatch. simpl String.eqb. cbv iota.
      rewrite Hgiven. unfold bind, storageGet, ret, MemStorage.getRecentTrades. simpl.
      now rewrite lookup_insert_eq.
    + unfold apiTrades in Hrun. rewrite (handler_throws _ _ _ _ _ _ Hget) in Hrun.
      discriminate.
  - intros d w' Hrun. rewrite apiMarketData_eq in Hrun.
    destruct (marketDataFrom POPULAR_PAIRS _) as [d'|e]; [|discriminate].
    inversion Hrun; subst. reflexivity.
Qed.

(** X17.  [getAllTickerData] lists exactly the stored tickers: a record is
    in the list if and only if it is stored under some pair, and the list
    has one entry per pair that has a ticker; so writing a ticker for a
    new pair makes the list one longer, and writing it for a pair that
    already has one leaves the length as it was. *)
Theorem getAllTickerData_lists_store (s : MemStorage.t) :
  (forall d, In d (getAllTickerData s) <->
             exists pair, MemStorage.getTickerData pair s = Some d) /\
  length (getAllTickerData s) = size (MemStorage.tickerData s) /\
  (forall pair d,
      length (getAllTickerData (MemStorage.setTickerData pair d s))
      = match MemStorage.getTickerData pair s with
        | Some _ => length (getAllTickerData s)
        | None => S (length (getAllTickerData s))
        end).
Proof.
  assert (Hlen : forall s', length (getAllTickerData s') = size (MemStorage.tickerData s')).
  { intros s'. unfold getAllTickerData. now rewrite length_fmap, length_map_to_list. }
  split; [|split].
  - intros d. unfold getAllTickerData, MemStorage.getTickerData.
    rewrite <- list_elem_of_In, list_elem_of_fmap. split.
    + intros ([pair d'] & -> & Hin). exists pair. now apply elem_of_map_to_list in Hin.
    + intros (pair & Hpair). exists (pair, d). split; [reflexivity|].
      now apply elem_of_map_to_list.
  - apply Hlen.
  - intros pair d. rewrite !Hlen. unfold MemStorage.getTickerData. simpl.
    destruct (MemStorage.tickerData s !! pair) as [old|] eqn:Hold.
    + rewrite <- (insert_delete_id (MemStorage.tickerData s) pair old Hold) at 2.
      rewrite <- (insert_delete_eq (MemStorage.tickerData s)).
      rewrite !map_size_insert_None by apply lookup_delete_eq. reflexivity.
    + now apply map_size_insert_None.
Qed.

End Pipeline.

(** ** The claims on sample inputs *)

(** C1, counterexample.  The bulk request for ADAUSD succeeds with one
    record whose bid is 100 and whose ask is 101; reading [spread] or
    [spreadPercent] on it gives [undefined], not the numbers [ask - bid]
    and [spread / bid * 100]. *)
Lemma getMultipleTickers_has_no_spread :
  exists r w',
    getMultipleTickers parseFloatDigits tickersOnly steady ["ADAUSD"] idle = (Returns [r], w') /\
    MarketData.bid r = 100%float /\
    MarketData.ask r = 101%float /\
    MarketData.get r "spread" <> JsNumber (MarketData.ask r - MarketData.bid r)%float /\
    MarketData.get r "spreadPercent"
    <> JsNumber (((MarketData.ask r - MarketData.bid r) / MarketData.bid r) * 100)%float.
Proof.
  do 2 eexists. split; [reflexivity|]. repeat split; discriminate.
Qed.

(** The witness of C1.  Against the sample exchange: the bulk request for
    two pairs, and the per-pair request for XBTUSD.  Against an exchange
    on which no per-pair request can succeed (the first key of its result
    holds a string): the bulk request alone. *)
Lemma getMultipleTickers_one_record_per_pair_witness :
  (exists records w1' t w2',
      getMultipleTickers parseFloatDigits tickersOnly steady ["XBTUSD"; "ADAUSD"] idle
      = (Returns records, w1') /\
      getTickerData parseFloatDigits tickersOnly steady "XBTUSD" idle = (Returns t, w2') /\
      length records = 2 /\
      map MarketData.pair records = ["XBTUSD"; "ADAUSD"] /\
      TickerData.spread t = (TickerData.ask t - TickerData.bid t)%float) /\
  (exists records w',
      getMultipleTickers parseFloatDigits lastFirst steady ["ADAUSD"] idle
      = (Returns records, w') /\
      fst (getTickerData parseFloatDigits lastFirst steady "ADAUSD" idle) = Throws TypeError /\
      length records = 1 /\
      map MarketData.pair records = ["ADAUSD"]).
Proof.
  split.
  - do 4 eexists.
    split; [reflexivity|]. split; [reflexivity|].
    destruct (getMultipleTickers_one_record_per_pair parseFloatDigits tickersOnly steady)
      as (Hbulk & Hone).
    destruct (Hbulk ["XBTUSD"; "ADAUSD"] idle _ _ eq_refl) as (Hlen & Hpairs & _).
    destruct (Hone "XBTUSD" idle _ _ eq_refl) as (Hspread & _).
    split; [exact Hlen|]. split; [exact Hpairs | exact Hspread].
  - do 2 eexists.
    split; [reflexivity|]. split; [reflexivity|].
    destruct (proj1 (getMultipleTickers_one_record_per_pair parseFloatDigits lastFirst steady)
                ["ADAUSD"] idle _ _ eq_refl) as (Hlen & Hpairs & _).
    split; [exact Hlen | exact Hpairs].
Defined.

(** C3, counterexample.  With empty asks and a best bid of 100 the order
    book has [spread = -100] and [spreadPercent = -100]; with empty bids
    and a best ask of 101 it has [spread = 101].  Neither spread is zero. *)
Lemma getOrderBook_empty_side_nonzero :
  exists noAsks noBids,
    fst (getOrderBook parseFloatDigits bidsOnly steady "XBTUSD" 5 idle) = Returns noAsks /\
    OrderBook.asks noAsks = [] /\
    OrderBook.spread noAsks = (-100)%float /\
    OrderBook.spreadPercent noAsks = (-100)%float /\
    OrderBook.spread noAsks <> 0%float /\
    OrderBook.spreadPercent noAsks <> 0%float /\
    fst (getOrderBook parseFloatDigits asksOnly steady "XBTUSD" 5 idle) = Returns noBids /\
    OrderBook.bids noBids = [] /\
    OrderBook.spread noBids = 101%float /\
    OrderBook.spread noBids <> 0%float.
Proof.
  do 2 eexists.
  split; [reflexivity|]. split; [reflexivity|]. split; [reflexivity|]. split; [reflexivity|].
  split; [|split].
  - intros H. apply (f_equal (fun x => PrimFloat.eqb x 0)) in H. vm_compute in H. discriminate.
  - intros H. apply (f_equal (fun x => PrimFloat.eqb x 0)) in H. vm_compute in H. discriminate.
  - split; [reflexivity|]. split; [reflexivity|]. split; [reflexivity|].
    intros H. apply (f_equal (fun x => PrimFloat.eqb x 0)) in H. vm_compute in H. discriminate.
Qed.

(** The witness of C3: the order book with empty bids and a best ask of
    101. *)
Lemma getOrderBook_empty_side_witness :
  exists book,
    fst (getOrderBook parseFloatDigits asksOnly steady "XBTUSD" 5 idle) = Returns book /\
    bestPrice (OrderBook.bids book) = 0%float /\
    OrderBook.spread book = (101 - 0)%float /\
    OrderBook.spreadPercent book = 0%float.
Proof.
  destruct (getOrderBook_empty_side parseFloatDigits asksOnly steady "XBTUSD" 5 idle
              {| RawDepth.asks := [("101", "2", 1700000000%float)]; RawDepth.bids := [] |})
    as (book & Hrun & Hasks & Hbids & Hspread & _ & _ & Hnobids & _).
  - eexists. eexists. repeat split; reflexivity.
  - right. reflexivity.
  - exists book. split; [exact Hrun|].
    destruct (Hnobids eq_refl) as (Hbest & Hpercent).
    split; [exact Hbest|]. split; [|exact Hpercent].
    rewrite Hspread, Hbest, Hasks. reflexivity.
Defined.

(** The witness of C5: the envelope
    [{error: ["Invalid arguments"], result: null}], with which the sample
    exchange answers the depth requests for ETHUSD: as the request of the
    order-book handler, and as the fourth request of a refresh on a store
    that holds an order book for XBTUSD. *)
Lemma error_envelope_writes_nothing_witness :
  (exists e,
     fst (makeRequest ethFails steady (Depth "ETHUSD" 10) staleWorld) = Throws e /\
     e = KrakenApiError ["Invalid arguments"]) /\
  (exists reply,
     fst (apiOrderBook parseFloatDigits ethFails steady "ETHUSD" None staleWorld)
     = Returns reply /\
     statusCode reply = 500%Z /\
     storage (snd (apiOrderBook parseFloatDigits ethFails steady "ETHUSD" None staleWorld))
     = storage staleWorld) /\
  storage (snd (refreshPair parseFloatDigits ethFails steady "ETHUSD" staleWorld))
  = storage staleWorld /\
  (exists w',
     apiRefresh parseFloatDigits ethFails steady staleWorld
     = (Returns {| statusCode := 200; body := BRefreshed |}, w') /\
     MemStorage.orderBooks (storage w') !! "ETHUSD" = None /\
     MemStorage.recentTrades (storage w') !! "ETHUSD" = None).
Proof.
  destruct (error_envelope_writes_nothing parseFloatDigits ethFails steady staleWorld
              {| ok := true; status := 200;
                 json := Some (JEnvelope ["Invalid arguments"] None) |}
              ["Invalid arguments"] None "ETHUSD" None)
    as (Hthrows & Hhandlers & _ & Hstep & Hrefresh).
  - reflexivity.
  - discriminate.
  - split; [|split; [|split]].
    + destruct (Hthrows (Depth "ETHUSD" 10) eq_refl) as (e & He & Hok & _).
      exists e. split; [exact He | exact (Hok eq_refl)].
    + apply (Hhandlers _ (Depth "ETHUSD" 5)); [right; left; reflexivity | reflexivity].
    + exact (proj2 (Hstep (or_introl eq_refl))).
    + destruct (Hrefresh 1 "ETHUSD" _ _ eq_refl eq_refl (or_introl eq_refl))
        as (w' & Hrun & _ & Hbook & Htrades & _).
      exists w'. split; [exact Hrun|]. split; [exact Hbook | exact Htrades].
Defined.

(** C7, counterexample.  XBTUSD is a popular pair and a key of the
    response, yet it resolves to XXBTZUSD, which the table lists first. *)
Lemma resolvePairKey_prefers_alias :
  In "XBTUSD" POPULAR_PAIRS /\
  propTruthy bothSpellings "XBTUSD" = true /\
  resolvePairKey bothSpellings "XBTUSD" = "XXBTZUSD" /\
  resolvePairKey bothSpellings "XBTUSD" <> "XBTUSD".
Proof.
  split; [left; reflexivity|]. split; [reflexivity|]. split; [reflexivity|].
  vm_compute. discriminate.
Qed.

(** The witness of C7: XBTUSD against the sample result, keyed XXBTZUSD. *)
Lemma resolvePairKey_by_alias_table_witness :
  exists before after,
    possibleKeys "XBTUSD" = before ++ resolvePairKey sampleTickers "XBTUSD" :: after /\
    Forall (fun key => propTruthy sampleTickers key = false) before /\
    propTruthy sampleTickers (resolvePairKey sampleTickers "XBTUSD") = true /\
    isEmpty (firstPresent sampleTickers (possibleKeys "XBTUSD")) = false /\
    resolvePairKey sampleTickers "XBTUSD" = firstPresent sampleTickers (possibleKeys "XBTUSD").
Proof.
  apply (resolvePairKey_by_alias_table sampleTickers "XBTUSD" "XXBTZUSD").
  - reflexivity.
  - discriminate.
  - left. reflexivity.
  - reflexivity.
Defined.

(** The two requests of the specification: ADAUSD against a response keyed
    ADAUSD, XBTUSD against a response keyed XXBTZUSD.  In both the loop
    over the alias list finds the key. *)
Example resolve_ADAUSD_XBTUSD :
  firstPresent [("ADAUSD", sampleTicker "1" "2" "1" "1")] (possibleKeys "ADAUSD") = "ADAUSD" /\
  resolvePairKey [("ADAUSD", sampleTicker "1" "2" "1" "1")] "ADAUSD" = "ADAUSD" /\
  firstPresent [("XXBTZUSD", sampleTicker "1" "2" "1" "1")] (possibleKeys "XBTUSD") = "XXBTZUSD" /\
  resolvePairKey [("XXBTZUSD", sampleTicker "1" "2" "1" "1")] "XBTUSD" = "XXBTZUSD".
Proof. repeat split. Qed.

(** C8, counterexample.  The only connection is closing, so no connection
    is open; the set of connections is not empty, and the cycle issues the
    bulk request and writes the market data. *)
Lemma broadcastTick_fetches_for_closing_client :
  openClients oneClosing = [] /\
  requests (snd (broadcastTick parseFloatDigits tickersOnly steady oneClosing))
  = [Ticker "XBTUSD,ETHUSD,ADAUSD,DOTUSD,SOLUSD,MATICUSD,LINKUSD,UNIUSD"] /\
  MemStorage.marketData (storage oneClosing) = [] /\
  length (MemStorage.marketData
            (storage (snd (broadcastTick parseFloatDigits tickersOnly steady oneClosing)))) = 8.
Proof. repeat split. Qed.

(** The witness of C8: a process without connections. *)
Lemma broadcastTick_idle_witness :
  broadcastTick parseFloatDigits tickersOnly steady idle = (Returns tt, idle).
Proof. apply broadcastTick_idle. reflexivity. Defined.

(** The witness of C10: the bulk request succeeds and all sixteen per-pair
    requests fail; the reply is the success reply, [lastUpdated] is set,
    and the order book stored earlier for XBTUSD is still there. *)
Lemma refresh_reports_success_witness :
  exists w',
    apiRefresh parseFloatDigits tickersOnly steady staleWorld
    = (Returns {| statusCode := 200; body := BRefreshed |}, w') /\
    MemStorage.lastUpdated (storage w') = Some (now w') /\
    MemStorage.orderBooks (storage w') !! "XBTUSD" = Some staleBook.
Proof.
  destruct (refresh_reports_success parseFloatDigits tickersOnly steady staleWorld _ _ eq_refl)
    as (w' & Hrun & _ & Hdate & Hstale).
  exists w'. split; [exact Hrun|]. split; [exact Hdate|].
  destruct (Hstale 0 "XBTUSD" eq_refl) as (Hbook & _).
  - left. eexists. reflexivity.
  - rewrite Hbook. reflexivity.
Defined.

(** A refresh in which only the two requests for ETHUSD fail: the reply is
    the success reply, all seventeen requests are issued, and the pairs
    before and after ETHUSD have their order books stored. *)
Example refresh_continues_after_a_failure :
  fst (apiRefresh parseFloatDigits ethFails steady idle)
  = Returns {| statusCode := 200; body := BRefreshed |} /\
  length (requests (snd (apiRefresh parseFloatDigits ethFails steady idle))) = 17 /\
  is_Some (MemStorage.orderBooks
             (storage (snd (apiRefresh parseFloatDigits ethFails steady idle))) !! "XBTUSD") /\
  MemStorage.orderBooks
    (storage (snd (apiRefresh parseFloatDigits ethFails steady idle))) !! "ETHUSD" = None /\
  MemStorage.recentTrades
    (storage (snd (apiRefresh parseFloatDigits ethFails steady idle))) !! "ETHUSD" = None /\
  is_Some (MemStorage.orderBooks
             (storage (snd (apiRefresh parseFloatDigits ethFails steady idle))) !! "ADAUSD") /\
  is_Some (MemStorage.recentTrades
             (storage (snd (apiRefresh parseFloatDigits ethFails steady idle))) !! "UNIUSD").
Proof. vm_compute. repeat split; eauto. Qed.

(** C2 on a failing input.  The exchange would answer the three requests
    for XBTUSD; the store is empty; the subscription makes the server send
    three messages without data and issue no request at all. *)
Theorem subscribe_on_empty_store_fetches_nothing :
  (exists t book history,
     fst (getTickerData parseFloatDigits ethFails steady "XBTUSD" oneOpen) = Returns t /\
     fst (getOrderBook parseFloatDigits ethFails steady "XBTUSD" 5 oneOpen) = Returns book /\
     fst (getRecentTrades parseFloatDigits ethFails steady "XBTUSD" 20 oneOpen)
     = Returns history) /\
  MemStorage.getTickerData "XBTUSD" (storage oneOpen) = None /\
  MemStorage.getOrderBook "XBTUSD" (storage oneOpen) = None /\
  MemStorage.getRecentTrades "XBTUSD" (storage oneOpen) = None /\
  onMessage parseFloatDigits ethFails steady 7 subscribeXBT oneOpen
  = (Returns tt,
     {| storage := storage oneOpen; requests := []; now := now oneOpen;
        clients := clients oneOpen;
        sent := [undefinedMessage MessageType.ticker;
                 undefinedMessage MessageType.orderBook;
                 undefinedMessage MessageType.trades] |}).
Proof.
  split; [do 3 eexists; repeat split; reflexivity|].
  repeat split.
Qed.

(** C4 on a failing input.  With one open connection the periodic cycle
    fetches and stores the market data and broadcasts it, and leaves
    [lastUpdated] as it was: unset on a fresh store, and at the time of an
    earlier on-demand read when there was one.  The on-demand read and the
    forced refresh, in the same world, set it. *)
Theorem broadcast_leaves_lastUpdated_behind :
  length (MemStorage.marketData
            (storage (snd (broadcastTick parseFloatDigits tickersOnly steady oneOpen)))) = 8 /\
  length (sent (snd (broadcastTick parseFloatDigits tickersOnly steady oneOpen))) = 8 /\
  now (snd (broadcastTick parseFloatDigits tickersOnly steady oneOpen)) = 1250%Z /\
  MemStorage.lastUpdated
    (storage (snd (broadcastTick parseFloatDigits tickersOnly steady oneOpen))) = None /\
  MemStorage.lastUpdated
    (storage (snd (apiMarketData parseFloatDigits tickersOnly steady oneOpen))) = Some 1250%Z /\
  MemStorage.lastUpdated
    (storage (snd (apiRefresh parseFloatDigits tickersOnly steady oneOpen))) = Some 5250%Z /\
  now (snd (broadcastTick parseFloatDigits tickersOnly steady
              (snd (apiMarketData parseFloatDigits tickersOnly steady oneOpen)))) = 1500%Z /\
  MemStorage.lastUpdated
    (storage (snd (broadcastTick parseFloatDigits tickersOnly steady
                     (snd (apiMarketData parseFloatDigits tickersOnly steady oneOpen)))))
  = Some 1250%Z.
Proof. vm_compute. repeat split. Qed.

(** ** The rate limiter, display names and styles *)

(** X18.  The wait computed by the rate limiter is never zero or
    negative, brings the request to exactly the limit after the last one,
    and never exceeds the limit when the clock has not gone back; and the
    limiter lets a request through without a wait exactly when the limit has
    already elapsed.  The limit is 500 ms with an API key and 1000 ms
    without. *)
Theorem delayMs_bounds (limit lastRequestTime now : Z) (apiKey : option string) :
  match delayMs limit lastRequestTime now with
  | Some delay =>
      (0 < delay)%Z /\
      (now + delay = lastRequestTime + limit)%Z /\
      ((lastRequestTime <= now)%Z -> (delay <= limit)%Z)
  | None => (lastRequestTime + limit <= now)%Z
  end /\
  (rateLimitMs apiKey = 500%Z \/ rateLimitMs apiKey = 1000%Z) /\
  (rateLimitMs apiKey = 500%Z <-> configured apiKey = true).
Proof.
  split; [|split].
  - unfold delayMs. destruct (Z.ltb_spec (now - lastRequestTime) limit); lia.
  - unfold rateLimitMs. destruct (configured apiKey); auto.
  - unfold rateLimitMs. destruct (configured apiKey); split; (reflexivity || discriminate).
Qed.

Lemma includes_slash_cons (ch : ascii) (s : string) :
  includes (String ch s) "/" = Ascii.eqb ch "/"%char || includes s "/".
Proof.
  change (includes (String ch s) "/") with (String.prefix "/" (String ch s) || includes s "/").
  f_equal. destruct (Ascii.eqb_spec ch "/") as [->|Hne].
  - apply prefix_spec. now exists s.
  - destruct (String.prefix "/" (String ch s)) eqn:Hprefix; [|reflexivity].
    apply prefix_spec in Hprefix as (post & Hpost). inversion Hpost. contradiction.
Qed.

Lemma beforeSlash_no_slash (s : string) : includes (beforeSlash s) "/" = false.
Proof.
  induction s as [|ch s IH]; [reflexivity|]. simpl.
  destruct (Ascii.eqb ch "/") eqn:Hch; [reflexivity|].
  now rewrite includes_slash_cons, Hch, IH.
Qed.

Lemma beforeSlash_app (base rest : string) :
  includes base "/" = false -> beforeSlash (base ++ String "/" rest) = base.
Proof.
  induction base as [|ch base IH]; intros Hbase; [reflexivity|].
  rewrite includes_slash_cons in Hbase. apply orb_false_iff in Hbase as (Hch & Hrest).
  simpl. rewrite Hch. f_equal. now apply IH.
Qed.

Lemma beforeSlash_id (s : string) : includes s "/" = false -> beforeSlash s = s.
Proof.
  induction s as [|ch s IH]; intros Hs; [reflexivity|].
  rewrite includes_slash_cons in Hs. apply orb_false_iff in Hs as (Hch & Hrest).
  simpl. rewrite Hch. f_equal. now apply IH.
Qed.

(** X19.  The display name of a pair that is no inherited name never
    contains a slash.  For a pair outside the table of names it is the
    pair up to its first slash: the base of a ["BASE/QUOTE"] spelling, and
    the whole pair when it has no slash. *)
Theorem getPairDisplayName_base (pair : string) :
  inherited pair = false ->
  includes (getPairDisplayName pair) "/" = false /\
  (tableGet names pair = None ->
   (forall base quote,
       pair = (base ++ String "/" quote)%string -> includes base "/" = false ->
       getPairDisplayName pair = base) /\
   (includes pair "/" = false -> getPairDisplayName pair = pair)).
Proof.
  intros _. split.
  - unfold getPairDisplayName.
    destruct (tableGet names pair) as [name|] eqn:Hname; [|apply beforeSlash_no_slash].
    revert Hname. cbv [names tableGet].
    repeat match goal with
           | |- context [String.eqb ?k pair] => destruct (String.eqb k pair)
           end;
      intros H; inversion H; reflexivity.
  - intros Hnone. unfold getPairDisplayName. rewrite Hnone. split.
    + intros base quote -> Hbase. now apply beforeSlash_app.
    + apply beforeSlash_id.
Qed.

(** X20.  The icon and the colour of a pair depend only on the part of
    the pair before its first slash (its symbol being no inherited name),
    for the server's tables and for the price overview alike.  None of the eight popular pair identifiers
    (which have no slash) is styled: each gets the default icon and the
    default colour, from the server and from the price overview, whereas
    the spelling ["BTC/USD"] gets the Bitcoin style. *)
Theorem pair_style_by_base :
  (forall base quote,
      includes base "/" = false ->
      inherited (styleSymbol base) = false ->
      KrakenApiService.getPairIcon (base ++ String "/" quote)
      = KrakenApiService.getPairIcon base /\
      KrakenApiService.getPairColor (base ++ String "/" quote)
      = KrakenApiService.getPairColor base /\
      PriceOverview.getPairColor (base ++ String "/" quote)
      = PriceOverview.getPairColor base) /\
  (forall pair,
      In pair POPULAR_PAIRS ->
      KrakenApiService.getPairIcon pair = "fas fa-coins" /\
      KrakenApiService.getPairColor pair = "bg-gray-500" /\
      PriceOverview.getPairColor pair = "bg-gray-500") /\
  KrakenApiService.getPairIcon "BTC/USD" = "fab fa-bitcoin" /\
  KrakenApiService.getPairColor "BTC/USD" = "bg-orange-500" /\
  PriceOverview.getPairColor "BTC/USD" = "bg-orange-500".
Proof.
  split; [|split; [|repeat split]].
  - intros base quote Hbase _.
    unfold KrakenApiService.getPairIcon, KrakenApiService.getPairColor,
      PriceOverview.getPairColor, styleSymbol.
    rewrite (beforeSlash_app base quote Hbase), (beforeSlash_id base Hbase). auto.
  - intros pair Hin. unfold POPULAR_PAIRS in Hin. simpl in Hin.
    repeat (destruct Hin as [<-|Hin]; [repeat split|]). contradiction.
Qed.

(** ** The updater of the client's market-data cache *)

Lemma strictEq_string (v : option WireValue) (p : string) :
  strictEq v (Some (WString p)) = true <-> v = Some (WString p).
Proof.
  destruct v as [[|x|s]|]; simpl; split; try discriminate; try congruence.
  - intros H. apply String.eqb_eq in H. now subst.
  - intros H. inversion H. apply String.eqb_refl.
Qed.

Lemma strictEq_other (o : WireObject) (p q : string) :
  o !! "pair" = Some (WString q) ->
  strictEq (o !! "pair") (Some (WString p)) = String.eqb q p.
Proof. intros ->. reflexivity. Qed.

(** The update of a list whose items all have string pairs. *)
Lemma mapOutcome_mergeItem (p : string) (d : WireObject)
    (items : list (option WireObject)) (ps : list string) :
  pairsOf items ps ->
  d !! "pair" = Some (WString p) ->
  exists updated,
    mapOutcome (mergeItem (Some (WString p)) (Some d)) items = Returns updated /\
    pairsOf updated ps /\
    Forall2 (fun old new =>
               exists o, old = Some o /\
                         new = Some (if strictEq (o !! "pair") (Some (WString p))
                                     then d ∪ o else o)) items updated.
Proof.
  intros Hitems Hd. induction Hitems as [|item q items ps (o & -> & Ho) _ IH].
  - exists []. repeat split; constructor.
  - destruct IH as (updated & Hmap & Hpairs & Hall).
    eexists. simpl. rewrite Hmap. split; [reflexivity|]. split.
    + constructor; [|exact Hpairs]. eexists. split; [reflexivity|].
      rewrite (strictEq_other o p q Ho). destruct (String.eqb_spec q p) as [->|_].
      * apply lookup_union_Some_l. exact Hd.
      * exact Ho.
    + constructor; [|exact Hall]. exists o. split; reflexivity.
Qed.

Lemma someOutcome_hasPair (p : string) (items : list (option WireObject)) (ps : list string) :
  pairsOf items ps ->
  someOutcome (hasPair (Some (WString p))) items = Returns (existsb (String.eqb p) ps).
Proof.
  intros Hitems. induction Hitems as [|item q items ps (o & -> & Ho) _ IH].
  - reflexivity.
  - simpl. rewrite (strictEq_other o p q Ho). destruct (String.eqb_spec q p) as [->|Hne].
    + now rewrite String.eqb_refl.
    + rewrite IH. apply not_eq_sym, String.eqb_neq in Hne. now rewrite Hne.
Qed.

(** X21.  On a cache whose items all have a pair, a ticker message whose
    data names the message's own pair is an upsert: the cached items of
    that pair take the fields of the data (the data's value wins on every
    field it has), all other items stay as they are and where they are,
    and the data is appended at the end exactly when no cached item had
    the pair.  The cache keeps one pair per position, and gains the new
    pair at the end when it was missing. *)
Theorem updateMarketData_upserts
    (p : string) (d : WireObject) (items : list (option WireObject)) (ps : list string) :
  pairsOf items ps ->
  d !! "pair" = Some (WString p) ->
  exists updated,
    updateMarketData (Some (WString p)) (Some d) (Some items)
    = Returns (updated ++ (if existsb (String.eqb p) ps then [] else [Some d])) /\
    length updated = length items /\
    Forall2 (fun old new =>
               exists o, old = Some o /\
                         new = Some (if strictEq (o !! "pair") (Some (WString p))
                                     then d ∪ o else o)) items updated /\
    pairsOf (updated ++ (if existsb (String.eqb p) ps then [] else [Some d]))
            (ps ++ (if existsb (String.eqb p) ps then [] else [p])).
Proof.
  intros Hitems Hd.
  destruct (mapOutcome_mergeItem p d items ps Hitems Hd) as (updated & Hmap & Hpairs & Hall).
  exists updated. unfold updateMarketData. rewrite Hmap.
  rewrite (someOutcome_hasPair p updated ps Hpairs).
  split; [|split; [|split]].
  - destruct (existsb (String.eqb p) ps); [now rewrite app_nil_r | reflexivity].
  - symmetry. eapply Forall2_length. exact Hall.
  - exact Hall.
  - unfold pairsOf. destruct (existsb (String.eqb p) ps).
    + now rewrite !app_nil_r.
    + apply Forall2_app; [exact Hpairs|]. constructor; [|constructor].
      exists d. split; [reflexivity | exact Hd].
Qed.

Lemma mapOutcome_mergeItem_absent (p : string) (data : option WireObject)
    (items : list (option WireObject)) (ps : list string) :
  pairsOf items ps ->
  existsb (String.eqb p) ps = false ->
  mapOutcome (mergeItem (Some (WString p)) data) items = Returns items.
Proof.
  intros Hitems. induction Hitems as [|item q items ps (o & -> & Ho) _ IH]; intros Habsent.
  - reflexivity.
  - simpl in Habsent. apply orb_false_iff in Habsent as (Hq & Hrest).
    simpl. rewrite (strictEq_other o p q Ho), String.eqb_sym, Hq, (IH Hrest). reflexivity.
Qed.

Lemma mapOutcome_mergeItem_fixed (p : string) (d : WireObject)
    (items : list (option WireObject)) :
  Forall (fun item => exists o, item = Some o /\
                                (strictEq (o !! "pair") (Some (WString p)) = true ->
                                 d ∪ o = o)) items ->
  mapOutcome (mergeItem (Some (WString p)) (Some d)) items = Returns items.
Proof.
  induction 1 as [|item items (o & -> & Ho) _ IH]; [reflexivity|].
  simpl. rewrite IH. destruct (strictEq (o !! "pair") (Some (WString p))); [|reflexivity].
  now rewrite (Ho eq_refl).
Qed.

Lemma mapOutcome_mergeItem_undefined (pair : option WireValue) (data : option WireObject)
    (items : list (option WireObject)) :
  In None items -> mapOutcome (mergeItem pair data) items = Throws TypeError.
Proof.
  induction items as [|item items IH]; intros Hin; [contradiction|].
  simpl. destruct item as [o|]; [|reflexivity].
  destruct Hin as [Hin|Hin]; [discriminate|]. now rewrite (IH Hin).
Qed.

(** X22.  Receiving the same ticker message twice changes nothing the
    second time: on a cache whose items all have a pair, the update for a
    message whose data names the message's pair returns a cache on which
    the same update returns that cache again. *)
Theorem updateMarketData_idempotent
    (p : string) (d : WireObject) (items : list (option WireObject)) (ps : list string) :
  pairsOf items ps ->
  d !! "pair" = Some (WString p) ->
  exists cache,
    updateMarketData (Some (WString p)) (Some d) (Some items) = Returns cache /\
    updateMarketData (Some (WString p)) (Some d) (Some cache) = Returns cache.
Proof.
  intros Hitems Hd.
  destruct (mapOutcome_mergeItem p d items ps Hitems Hd) as (updated & Hmap & Hpairs & Hall).
  set (tail := if existsb (String.eqb p) ps then [] else [Some d]).
  set (names := if existsb (String.eqb p) ps then [] else [p]).
  assert (Hcache : pairsOf (updated ++ tail) (ps ++ names)).
  { unfold tail, names. apply Forall2_app; [exact Hpairs|].
    destruct (existsb (String.eqb p) ps); constructor; [|constructor].
    exists d. auto. }
  assert (Hknown : existsb (String.eqb p) (ps ++ names) = true).
  { rewrite existsb_app. unfold names.
    destruct (existsb (String.eqb p) ps); [reflexivity|].
    simpl. now rewrite String.eqb_refl. }
  exists (updated ++ tail). split.
  - unfold updateMarketData. rewrite Hmap, (someOutcome_hasPair p updated ps Hpairs).
    unfold tail. destruct (existsb (String.eqb p) ps); [now rewrite app_nil_r | reflexivity].
  - unfold updateMarketData. rewrite mapOutcome_mergeItem_fixed.
    + now rewrite (someOutcome_hasPair p _ _ Hcache), Hknown.
    + apply Forall_app. split.
      * clear Hmap Hpairs Hcache Hitems.
        induction Hall as [|old new olds news (o & -> & ->) _ IH]; [constructor|].
        constructor; [|exact IH].
        eexists. split; [reflexivity|].
        destruct (strictEq (o !! "pair") (Some (WString p))) eqn:Ho.
        -- intros _. now rewrite (assoc_L (∪)), (idemp_L (∪)).
        -- intros Hnow. congruence.
      * unfold tail. destruct (existsb (String.eqb p) ps); constructor; [|constructor].
        exists d. split; [reflexivity|]. intros _. apply (idemp_L (∪)).
Qed.

(** X23.  A ticker message without data poisons the cache.  On an
    undefined cache it makes the cache the one-element list that holds
    [undefined]; on a cache that does not know the message's pair it
    appends [undefined]; and on any cache that holds an [undefined] item
    the update of every later message, whatever its pair and data, throws
    a [TypeError], so that no message can repair the cache. *)
Theorem updateMarketData_undefined_item :
  (forall pair, updateMarketData pair None None = Returns [None]) /\
  (forall p items ps,
      pairsOf items ps -> existsb (String.eqb p) ps = false ->
      updateMarketData (Some (WString p)) None (Some items) = Returns (items ++ [None])) /\
  (forall pair data items,
      In None items -> updateMarketData pair data (Some items) = Throws TypeError).
Proof.
  split; [reflexivity|]. split.
  - intros p items ps Hitems Habsent. unfold updateMarketData.
    rewrite (mapOutcome_mergeItem_absent p None items ps Hitems Habsent).
    now rewrite (someOutcome_hasPair p items ps Hitems), Habsent.
  - intros pair data items Hin. unfold updateMarketData.
    now rewrite (mapOutcome_mergeItem_undefined pair data items Hin).
Qed.

Lemma wireMarketData_pair (m : MarketData.t) :
  wireMarketData m !! "pair" = Some (WString (MarketData.pair m)).
Proof. reflexivity. Qed.

Lemma wireMarketData_union (m' m : MarketData.t) :
  wireMarketData m' ∪ wireMarketData m = wireMarketData m'.
Proof.
  apply map_eq. intros k. rewrite lookup_union.
  unfold wireMarketData. simpl.
  rewrite !lookup_insert, !lookup_empty.
  repeat case_decide; reflexivity.
Qed.

Lemma updateAll_received (m : MarketData.t) (ms : list MarketData.t)
    (cache : option (list (option WireObject))) :
  updateAll (map received (m :: ms)) cache
  = match updateMarketData (Some (WString (MarketData.pair m))) (Some (wireMarketData m))
            cache with
    | Returns updated => updateAll (map received ms) (Some updated)
    | Throws _ => updateAll (map received ms) cache
    end.
Proof. reflexivity. Qed.

Lemma updateAll_appends (ms : list MarketData.t) :
  forall (items : list (option WireObject)) (ps : list string),
    pairsOf items ps ->
    List.NoDup (ps ++ map MarketData.pair ms) ->
    updateAll (map received ms) (Some items)
    = Some (items ++ map (fun m => Some (wireMarketData m)) ms).
Proof.
  induction ms as [|m ms IH]; intros items ps Hitems Hnodup.
  - simpl. now rewrite app_nil_r.
  - rewrite updateAll_received. simpl map in Hnodup.
    assert (Habsent : existsb (String.eqb (MarketData.pair m)) ps = false).
    { apply not_true_is_false. intros Hin. apply existsb_exists in Hin as (q & Hq & Heq).
      apply String.eqb_eq in Heq. subst q.
      apply NoDup_remove_2 in Hnodup. apply Hnodup. apply in_or_app. now left. }
    unfold updateMarketData.
    rewrite (mapOutcome_mergeItem_absent _ _ items ps Hitems Habsent).
    rewrite (someOutcome_hasPair _ items ps Hitems), Habsent.
    rewrite (IH (items ++ [Some (wireMarketData m)]) (ps ++ [MarketData.pair m])).
    + now rewrite <- app_assoc.
    + apply Forall2_app; [exact Hitems|]. constructor; [|constructor].
      eexists. split; [reflexivity | apply wireMarketData_pair].
    + now rewrite <- app_assoc.
Qed.

Lemma updateAll_replaces (news : list MarketData.t) :
  forall (before olds : list MarketData.t),
    map MarketData.pair olds = map MarketData.pair news ->
    List.NoDup (map MarketData.pair before ++ map MarketData.pair news) ->
    updateAll (map received news)
      (Some (map (fun m => Some (wireMarketData m)) (before ++ olds)))
    = Some (map (fun m => Some (wireMarketData m)) (before ++ news)).
Proof.
  induction news as [|m' news IH]; intros before olds Hpairs Hnodup.
  - destruct olds; [reflexivity | discriminate].
  - destruct olds as [|m olds]; [discriminate|]. simpl in Hpairs.
    inversion Hpairs as [[Hpair Hrest]].
    rewrite updateAll_received. unfold updateMarketData.
    assert (Hmerge :
      mapOutcome (mergeItem (Some (WString (MarketData.pair m'))) (Some (wireMarketData m')))
        (map (fun m => Some (wireMarketData m)) (before ++ m :: olds))
      = Returns (map (fun m => Some (wireMarketData m)) ((before ++ [m']) ++ olds))).
    { rewrite <- app_assoc. simpl app.
      assert (Hothers : forall ms,
                 ~ In (MarketData.pair m') (map MarketData.pair ms) ->
                 mapOutcome (mergeItem (Some (WString (MarketData.pair m')))
                               (Some (wireMarketData m')))
                   (map (fun m => Some (wireMarketData m)) ms)
                 = Returns (map (fun m => Some (wireMarketData m)) ms)).
      { intros ms Hnotin. induction ms as [|x ms IHms]; [reflexivity|].
        simpl. rewrite wireMarketData_pair. simpl.
        destruct (String.eqb_spec (MarketData.pair x) (MarketData.pair m')) as [Heq|_].
        - exfalso. apply Hnotin. now left.
        - rewrite IHms; [reflexivity|]. intros Hin. apply Hnotin. now right. }
      assert (Hbefore : ~ In (MarketData.pair m') (map MarketData.pair before)).
      { intros Hin. simpl in Hnodup. apply NoDup_remove_2 in Hnodup. apply Hnodup.
        apply in_or_app. now left. }
      assert (Holds : ~ In (MarketData.pair m') (map MarketData.pair olds)).
      { rewrite Hrest. intros Hin. simpl in Hnodup. apply NoDup_remove_2 in Hnodup.
        apply Hnodup. apply in_or_app. now right. }
      clear IH. induction before as [|x before IHb].
      - simpl. rewrite wireMarketData_pair. simpl. rewrite Hpair, String.eqb_refl.
        rewrite (Hothers olds Holds). now rewrite wireMarketData_union.
      - simpl. rewrite wireMarketData_pair. simpl.
        destruct (String.eqb_spec (MarketData.pair x) (MarketData.pair m')) as [Heq|_].
        + exfalso. apply Hbefore. now left.
        + rewrite IHb; [reflexivity| |].
          * simpl in Hnodup. now inversion Hnodup.
          * intros Hin. apply Hbefore. now right. }
    rewrite Hmerge.
    assert (Hsome :
      someOutcome (hasPair (Some (WString (MarketData.pair m'))))
        (map (fun m => Some (wireMarketData m)) ((before ++ [m']) ++ olds))
      = Returns true).
    { rewrite <- app_assoc. clear. induction before as [|x before IHb].
      - simpl. rewrite wireMarketData_pair. simpl. now rewrite String.eqb_refl.
      - simpl. rewrite wireMarketData_pair. simpl.
        destruct (String.eqb (MarketData.pair x) (MarketData.pair m')); [reflexivity|].
        exact IHb. }
    rewrite Hsome.
    rewrite (IH (before ++ [m']) olds Hrest).
    + now rewrite <- app_assoc.
    + rewrite map_app. simpl. rewrite <- app_assoc. exact Hnodup.
Qed.

Lemma updateAll_poisoned (ms : list MarketData.t) (items : list (option WireObject)) :
  In None items -> updateAll (map received ms) (Some items) = Some items.
Proof.
  intros Hin. induction ms as [|m ms IH]; [reflexivity|].
  rewrite updateAll_received. unfold updateMarketData.
  now rewrite (mapOutcome_mergeItem_undefined _ _ items Hin).
Qed.

Lemma pairsOf_wire (ms : list MarketData.t) :
  pairsOf (map (fun m => Some (wireMarketData m)) ms) (map MarketData.pair ms).
Proof.
  induction ms as [|m ms IH]; constructor; [|exact IH].
  eexists. split; [reflexivity | apply wireMarketData_pair].
Qed.

(** ** From the broadcast to the cache *)

Section EndToEnd.

Variable parseFloat : string -> float.
Variable upstream : nat -> Endpoint -> option Response.
Variable latency : nat -> Z.

(** X24.  One cycle of the periodic broadcast, received by the only
    connection, which is open: the connection is sent one ticker message
    per record, in the order of the records.  A client whose cache is
    undefined and that applies the updates of these messages in order ends
    with exactly the records of the cycle, one item per popular pair in the
    order of the popular pairs; and a client whose cache holds the records
    of an earlier cycle ends with the records of the new cycle in their
    place, no item added and none left from before. *)
Theorem broadcast_fills_cache
    (w : World) (c : WebSocket) (marketData earlier : list MarketData.t) :
  clients w = [c] ->
  readyState c = OPEN ->
  marketDataFrom parseFloat POPULAR_PAIRS
    (upstream (length (requests w)) (Ticker (joinComma POPULAR_PAIRS)))
  = Returns marketData ->
  sent (snd (broadcastTick parseFloat upstream latency w))
  = sent w ++ map (fun m => (wsId c, tickerMessage m)) marketData /\
  updateAll (map received marketData) None
  = Some (map (fun m => Some (wireMarketData m)) marketData) /\
  (map MarketData.pair earlier = POPULAR_PAIRS ->
   updateAll (map received marketData)
     (Some (map (fun m => Some (wireMarketData m)) earlier))
   = Some (map (fun m => Some (wireMarketData m)) marketData)) /\
  pairsOf (map (fun m => Some (wireMarketData m)) marketData) POPULAR_PAIRS.
Proof.
  intros Hclients Hopen Hmd.
  assert (Hpairs : map MarketData.pair marketData = POPULAR_PAIRS)
    by (eapply marketDataFrom_pairs; exact Hmd).
  assert (Hnodup : List.NoDup (map MarketData.pair marketData))
    by (rewrite Hpairs; apply POPULAR_PAIRS_NoDup).
  split; [|split; [|split]].
  - rewrite broadcastTick_eq by (rewrite Hclients; discriminate).
    rewrite Hmd. cbn [snd sent]. rewrite Hclients. unfold fanOut.
    cbn [List.filter]. rewrite Hopen. cbn [isOpen map].
    apply (f_equal (fun l => sent w ++ l)). clear.
    induction marketData as [|m ms IH]; [reflexivity|].
    cbn [flat_map map app]. now rewrite IH.
  - destruct marketData as [|m ms]; [discriminate|].
    rewrite updateAll_received. simpl updateMarketData. cbv iota.
    rewrite (updateAll_appends ms [Some (wireMarketData m)] [MarketData.pair m]).
    + reflexivity.
    + constructor; [|constructor]. eexists. split; [reflexivity | apply wireMarketData_pair].
    + exact Hnodup.
  - intros Hearlier.
    apply (updateAll_replaces marketData [] earlier).
    + now rewrite Hearlier, Hpairs.
    + exact Hnodup.
  - rewrite <- Hpairs. apply pairsOf_wire.
Qed.

(** X25.  The initial push of a subscription, for a pair of which the
    store has no ticker, sends a ticker message without data.  On a client
    whose cache is undefined, the update of that message leaves the cache
    holding the single item [undefined], and the tickers of every later
    broadcast cycle then leave it exactly so: their updates throw and are
    dropped. *)
Theorem subscription_poisons_cache
    (ws : nat) (pair : string) (w : World) (later : list MarketData.t) :
  stateOf ws w = OPEN ->
  MemStorage.getTickerData pair (storage w) = None ->
  (exists book history,
      sent (snd (onMessage parseFloat upstream latency ws
                   (Message "subscribe" (Some [pair])) w))
      = sent w ++
        [(ws, {| WebSocketMessage.type := MessageType.ticker;
                 WebSocketMessage.pair := pair;
                 WebSocketMessage.data := DUndefined |});
         (ws, {| WebSocketMessage.type := MessageType.orderBook;
                 WebSocketMessage.pair := pair;
                 WebSocketMessage.data := book |});
         (ws, {| WebSocketMessage.type := MessageType.trades;
                 WebSocketMessage.pair := pair;
                 WebSocketMessage.data := history |})]) /\
  updateMarketData (Some (WString pair)) None None = Returns [None] /\
  updateAll (map received later) (Some [None]) = Some [None].
Proof.
  intros Hopen Hnone. split; [|split].
  - unfold onMessage, tryCatch.
    change (String.eqb "subscribe" "subscribe") with true. cbv iota.
    rewrite forEach_pushInitial, afterPush_sent. cbn [snd sent]. rewrite Hopen.
    cbn [isOpen flat_map]. unfold initialMessages. rewrite Hnone, app_nil_r.
    eauto.
  - reflexivity.
  - apply updateAll_poisoned. now left.
Qed.

End EndToEnd.

(** ** The further properties on sample inputs *)

(** The witness of X2: a warning next to a result under status 200, and a
    body that is not JSON under status 502. *)
Lemma makeRequest_precedence_witness :
  fst (makeRequest warnsWithResult steady (Ticker "XBTUSD") idle)
  = Throws (KrakenApiError ["EGeneral:Temporary lockout"]) /\
  fst (makeRequest badGateway steady (Ticker "XBTUSD") idle) = Throws (HttpError 502).
Proof.
  split.
  - destruct (makeRequest_precedence warnsWithResult steady (Ticker "XBTUSD") idle
                {| ok := true; status := 200;
                   json := Some (JEnvelope ["EGeneral:Temporary lockout"]
                                   (Some sampleTickers)) |} eq_refl)
      as (_ & Hok).
    destruct (Hok eq_refl) as (_ & _ & Hapi).
    apply (Hapi _ (Some sampleTickers)); [reflexivity | discriminate].
  - destruct (makeRequest_precedence badGateway steady (Ticker "XBTUSD") idle
                {| ok := false; status := 502; json := None |} eq_refl)
      as (Hhttp & _).
    exact (Hhttp eq_refl).
Defined.

(** The witness of X3: a result without keys. *)
Lemma getters_without_entry_witness :
  fst (getTickerData parseFloatDigits emptyResult steady "XBTUSD" idle) = Throws TypeError /\
  fst (getMultipleTickers parseFloatDigits emptyResult steady ["XBTUSD"; "ETHUSD"] idle)
  = Throws (NoDataFound "XBTUSD").
Proof.
  destruct (getters_without_entry parseFloatDigits emptyResult steady idle 200 (Some [])
              "XBTUSD" 5 ["ETHUSD"]) as (Hticker & _ & _ & Hbulk).
  - intros ep. reflexivity.
  - right. reflexivity.
  - split; [exact Hticker | exact (Hbulk eq_refl)].
Defined.

(** The witness of X4: asked for ADAUSD, the sample exchange answers with
    its full result, whose first key is XXBTZUSD. *)
Lemma getTickerData_first_entry_witness :
  exists t,
    fst (getTickerData parseFloatDigits tickersOnly steady "ADAUSD" idle) = Returns t /\
    TickerData.pair t = "ADAUSD" /\
    TickerData.name t = "Cardano".
Proof.
  destruct (getTickerData_first_entry parseFloatDigits tickersOnly steady
              "ADAUSD" "XXBTZUSD" _ _ 200 idle eq_refl eq_refl) as (t & Hrun & _ & Hpair & Hname).
  exists t. split; [exact Hrun|]. split; [exact Hpair | exact Hname].
Defined.

(** The witness of X5: one level on each side, two asked for. *)
Lemma getOrderBook_levels_witness :
  exists book,
    fst (getOrderBook parseFloatDigits ethFails steady "XBTUSD" 2 idle) = Returns book /\
    length (OrderBook.asks book) = 1 /\
    length (OrderBook.bids book) = 1.
Proof.
  destruct (getOrderBook_levels parseFloatDigits ethFails steady
              "XBTUSD" "XBTUSD" 2 200 _ [] idle eq_refl)
    as (book & Hrun & _ & _ & _ & _ & Hasks & Hbids & _).
  exists book. split; [exact Hrun|]. split; [exact Hasks | exact Hbids].
Defined.

(** The witness of X6: one trade, a buy. *)
Lemma getRecentTrades_trades_witness :
  exists history,
    fst (getRecentTrades parseFloatDigits ethFails steady "XBTUSD" 20 idle) = Returns history /\
    RecentTrades.pair history = "XBTUSD" /\
    length (RecentTrades.trades history) = 1.
Proof.
  destruct (getRecentTrades_trades parseFloatDigits ethFails steady
              "XBTUSD" "XBTUSD" 20 200 _ [("last", EString "1700000000")] idle eq_refl)
    as (history & Hrun & Hpair & Hlen & _).
  exists history. split; [exact Hrun|]. split; [exact Hpair | exact Hlen].
Defined.

(** The witness of X7: the result lacks SOLUSD, the fifth popular pair. *)
Lemma getMultipleTickers_fails_fast_witness :
  fst (getMultipleTickers parseFloatDigits solMissing steady POPULAR_PAIRS idle)
  = Throws (NoDataFound "SOLUSD") /\
  storage (snd (apiMarketData parseFloatDigits solMissing steady idle)) = storage idle.
Proof.
  destruct (getMultipleTickers_fails_fast parseFloatDigits solMissing steady
              ["XBTUSD"; "ETHUSD"; "ADAUSD"; "DOTUSD"] "SOLUSD"
              ["MATICUSD"; "LINKUSD"; "UNIUSD"] 200 withoutSol idle eq_refl eq_refl)
    as (Hbulk & Hhandler).
  - repeat constructor; eexists; reflexivity.
  - reflexivity.
  - split; [exact Hbulk|]. exact (proj2 (Hhandler eq_refl)).
Defined.

(** The witness of X8: no pair against the sample exchange. *)
Lemma getMultipleTickers_no_pairs_witness :
  fst (getMultipleTickers parseFloatDigits tickersOnly steady [] idle) = Returns [].
Proof.
  exact (proj1 (getMultipleTickers_no_pairs parseFloatDigits tickersOnly steady
                  200 (Some sampleTickers) idle eq_refl)).
Defined.

(** The witness of X9: the pair ["X"] against the sample result. *)
Lemma resolvePairKey_wildcard_witness :
  resolvePairKey sampleTickers "X" = "XXBTZUSD".
Proof.
  refine (proj1 (resolvePairKey_wildcard parseFloatDigits "X" "XXBTZUSD" _ _ _ _ _ _));
    [reflexivity | discriminate | discriminate | reflexivity].
Defined.

(** The witness of X10: the slash spelling of the Bitcoin pair, which is
    no key and no alias, against the sample result. *)
Lemma resolvePairKey_fuzzy_witness :
  resolvePairKey sampleTickers "XBT/USD" = "XXBTZUSD".
Proof.
  assert (Hnone : Forall (fun key => propTruthy sampleTickers key = false)
                         (possibleKeys "XBT/USD")).
  { repeat constructor. }
  pose proof (resolvePairKey_fuzzy sampleTickers "XBT/USD" eq_refl Hnone) as Hfuzzy.
  change (List.find (fuzzyMatch "XBT/USD") (keys sampleTickers)) with (Some "XXBTZUSD")
    in Hfuzzy.
  exact (proj1 Hfuzzy).
Defined.

(** The witness of X14: one open connection against the sample exchange. *)
Lemma broadcastTick_fans_out_witness :
  broadcastTick parseFloatDigits tickersOnly steady oneOpen
  = (Returns tt,
     {| storage := MemStorage.setMarketData sampleMarketData (storage oneOpen);
        requests := requests oneOpen ++ [Ticker (joinComma POPULAR_PAIRS)];
        now := (now oneOpen + steady (length (requests oneOpen)))%Z;
        clients := clients oneOpen;
        sent := sent oneOpen ++ fanOut (clients oneOpen) sampleMarketData |}) /\
  length (fanOut (clients oneOpen) sampleMarketData) = 8.
Proof.
  assert (Hsome : clients oneOpen <> []) by discriminate.
  assert (Hmd : marketDataFrom parseFloatDigits POPULAR_PAIRS
                  (tickersOnly (length (requests oneOpen)) (Ticker (joinComma POPULAR_PAIRS)))
                = Returns sampleMarketData) by (vm_compute; reflexivity).
  pose proof (broadcastTick_fans_out parseFloatDigits tickersOnly steady oneOpen Hsome) as Hfan.
  rewrite Hmd in Hfan. destruct Hfan as (Hrun & _ & Hlen).
  split; [exact Hrun | exact Hlen].
Defined.

(** The witness of X16: the ticker of XBTUSD, fetched and read back. *)
Lemma cached_read_back_witness :
  exists d w',
    apiTicker parseFloatDigits tickersOnly steady "XBTUSD" idle
    = (Returns (resJson (BTicker d)), w') /\
    apiCached "ticker" (Some "XBTUSD") w'
    = (Returns {| cachedStatus := 200; cachedBody := CTicker (Some d) |}, w').
Proof.
  do 2 eexists. split; [reflexivity|].
  refine (proj1 (cached_read_back parseFloatDigits tickersOnly steady "XBTUSD" None idle _)
            _ _ eq_refl).
  discriminate.
Defined.

(** The witness of X19: a pair outside the table of names. *)
Lemma getPairDisplayName_base_witness :
  includes (getPairDisplayName "DOGE/USD") "/" = false /\
  getPairDisplayName "DOGE/USD" = "DOGE".
Proof.
  destruct (getPairDisplayName_base "DOGE/USD" eq_refl) as (Hslash & Hbase).
  split; [exact Hslash|].
  exact (proj1 (Hbase eq_refl) "DOGE" "USD" eq_refl eq_refl).
Defined.

(** The witness of X21: a later record for ETHUSD on the sample cache. *)
Lemma updateMarketData_upserts_witness :
  exists updated,
    updateMarketData (Some (WString "ETHUSD")) (Some (wireMarketData laterEthereum))
      (Some sampleCache)
    = Returns updated /\
    length updated = 8.
Proof.
  destruct (updateMarketData_upserts "ETHUSD" (wireMarketData laterEthereum)
              sampleCache POPULAR_PAIRS (pairsOf_wire sampleMarketData) eq_refl)
    as (updated & Hrun & Hlen & _).
  exists updated. split.
  - rewrite Hrun. change (existsb (String.eqb "ETHUSD") POPULAR_PAIRS) with true.
    now rewrite app_nil_r.
  - rewrite Hlen. reflexivity.
Defined.

(** The witness of X22: the same message twice on the sample cache. *)
Lemma updateMarketData_idempotent_witness :
  exists cache,
    updateMarketData (Some (WString "ETHUSD")) (Some (wireMarketData laterEthereum))
      (Some sampleCache)
    = Returns cache /\
    updateMarketData (Some (WString "ETHUSD")) (Some (wireMarketData laterEthereum))
      (Some cache)
    = Returns cache.
Proof.
  exact (updateMarketData_idempotent "ETHUSD" (wireMarketData laterEthereum)
           sampleCache POPULAR_PAIRS (pairsOf_wire sampleMarketData) eq_refl).
Defined.

(** The witness of X24: one cycle against the sample exchange, received
    by the one open connection. *)
Lemma broadcast_fills_cache_witness :
  updateAll (map received sampleMarketData) None = Some sampleCache /\
  updateAll (map received sampleMarketData) (Some sampleCache) = Some sampleCache /\
  pairsOf sampleCache POPULAR_PAIRS.
Proof.
  assert (Hmd : marketDataFrom parseFloatDigits POPULAR_PAIRS
                  (tickersOnly (length (requests oneOpen)) (Ticker (joinComma POPULAR_PAIRS)))
                = Returns sampleMarketData) by (vm_compute; reflexivity).
  destruct (broadcast_fills_cache parseFloatDigits tickersOnly steady oneOpen
              (mkWebSocket 7 OPEN) sampleMarketData sampleMarketData eq_refl eq_refl Hmd)
    as (_ & Hfill & Hrefresh & Hpairs).
  split; [exact Hfill|]. split; [exact (Hrefresh eq_refl) | exact Hpairs].
Defined.

(** The witness of X25: the subscription to XBTUSD on a fresh process,
    followed by a cycle of the sample market data. *)
Lemma subscription_poisons_cache_witness :
  updateMarketData (Some (WString "XBTUSD")) None None = Returns [None] /\
  updateAll (map received sampleMarketData) (Some [None]) = Some [None].
Proof.
  destruct (subscription_poisons_cache parseFloatDigits tickersOnly steady
              7 "XBTUSD" oneOpen sampleMarketData eq_refl eq_refl)
    as (_ & Hfirst & Hlater).
  split; [exact Hfirst | exact Hlater].
Defined.
